(** * Observation ticket creator (OmegaLambda): a shallow embedding

    The development follows the ticket creator script
    ([check_toi], [target_grab], [create_list], [list_split], [savetxt],
    [save_all_auto_folders]) and its older copy
    [Observation_ticket_creator.pyw].

    Conventions of the embedding:
    - Python [str] values are Rocq strings; the case mappings and the
      character classes are those of Python on ASCII text.
    - Uncaught exceptions are results of an exception-and-state monad:
      the state reached at the [raise] is kept.
    - The files the program touches are kept by their parsed content
      (a data frame for a CSV, a ticket for a JSON file); [pandas] and
      [json] parsing themselves are outside the model.
    - Tk widgets are the variables they hold; dialogs are their title and
      message. *)

From Stdlib Require Import ZArith Ascii String List Bool Lia DecimalString.
From Stdlib Require DecimalPos DecimalZ.
From stdpp Require Import base option list gmap strings sorting.

Local Open Scope string_scope.
Local Open Scope Z_scope.

(** ** Python [str] primitives *)

Module Py.

Definition dquote : string := String "034"%char "".
Definition newline : string := String "010"%char "".
Definition backslash : string := String "092"%char "".

Definition code (c : ascii) : Z := Z.of_N (N_of_ascii c).

Definition is_upper_char (c : ascii) : bool := (65 <=? code c) && (code c <=? 90).
Definition is_lower_char (c : ascii) : bool := (97 <=? code c) && (code c <=? 122).

Definition lower_char (c : ascii) : ascii :=
  if is_upper_char c then ascii_of_N (Z.to_N (code c + 32)) else c.
Definition upper_char (c : ascii) : ascii :=
  if is_lower_char c then ascii_of_N (Z.to_N (code c - 32)) else c.

Fixpoint map_chars (f : ascii → ascii) (s : string) : string :=
  match s with
  | EmptyString => EmptyString
  | String c r => String (f c) (map_chars f r)
  end.

(** [s.lower()] and [s.upper()] *)
Definition lower : string → string := map_chars lower_char.
Definition upper : string → string := map_chars upper_char.

(** whitespace of [str.strip()], [str.isspace()] and the regex class [\s] *)
Definition is_space (c : ascii) : bool :=
  ((9 <=? code c) && (code c <=? 13)) || ((28 <=? code c) && (code c <=? 32)).

Fixpoint lstrip (s : string) : string :=
  match s with
  | String c r => if is_space c then lstrip r else s
  | EmptyString => EmptyString
  end.

Fixpoint rstrip (s : string) : string :=
  match s with
  | String c r =>
      match rstrip r with
      | EmptyString => if is_space c then EmptyString else String c EmptyString
      | r' => String c r'
      end
  | EmptyString => EmptyString
  end.

(** [s.strip()] *)
Definition strip (s : string) : string := rstrip (lstrip s).

(** [s.startswith(p)] *)
Definition startswith (s p : string) : bool := String.prefix p s.

(** [s.replace(old, new)] for a non-empty [old]: occurrences are replaced
    from the left and do not overlap. [skip] counts the characters of a
    matched occurrence still to be dropped. *)
Fixpoint replace_go (old new : string) (skip : nat) (s : string) : string :=
  match s with
  | EmptyString => EmptyString
  | String c r =>
      match skip with
      | S k => replace_go old new k r
      | O =>
          if String.prefix old s
          then new +:+ replace_go old new (Nat.pred (String.length old)) r
          else String c (replace_go old new O r)
      end
  end.

Definition replace (s old new : string) : string := replace_go old new O s.

(** [s.split(sep)] for a non-empty [sep]: the first field and the list of
    the other fields. *)
Fixpoint split_go (sep : string) (skip : nat) (s : string) : string * list string :=
  match s with
  | EmptyString => (EmptyString, [])
  | String c r =>
      match skip with
      | S k => split_go sep k r
      | O =>
          if String.prefix sep s
          then (EmptyString,
                let '(t, ts) := split_go sep (Nat.pred (String.length sep)) r in t :: ts)
          else let '(t, ts) := split_go sep O r in (String c t, ts)
      end
  end.

Definition split (s sep : string) : list string :=
  let '(t, ts) := split_go sep O s in t :: ts.

(** [c in s] for a one-character [c] *)
Fixpoint contains_char (c : ascii) (s : string) : bool :=
  match s with
  | EmptyString => false
  | String d r => if Ascii.eqb c d then true else contains_char c r
  end.

(** [sep.join(l)] *)
Fixpoint join (sep : string) (l : list string) : string :=
  match l with
  | [] => EmptyString
  | [x] => x
  | x :: r => x +:+ sep +:+ join sep r
  end.

(** line boundaries of [str.splitlines()] on ASCII text *)
Definition is_linebreak (c : ascii) : bool :=
  ((10 <=? code c) && (code c <=? 13)) || ((28 <=? code c) && (code c <=? 30)).

(** line boundaries of a text file read with universal newlines *)
Definition is_newline (c : ascii) : bool := (code c =? 10) || (code c =? 13).

(** Lines of [s] for the boundary class [brk]: a carriage return followed
    by a line feed is one boundary, and no empty last line is produced
    after a final boundary. [cur] is the line being read ([None] at the
    start of a line), [after_cr] tells that the previous character was a
    carriage return. *)
Fixpoint lines_go (brk : ascii → bool) (after_cr : bool) (cur : option string)
    (s : string) : list string :=
  match s with
  | EmptyString => match cur with Some l => [l] | None => [] end
  | String c r =>
      if after_cr && (code c =? 10) then lines_go brk false cur r
      else if brk c then default EmptyString cur :: lines_go brk (code c =? 13) None r
      else lines_go brk false (Some (default EmptyString cur +:+ String c EmptyString)) r
  end.

(** [s.splitlines()] *)
Definition splitlines (s : string) : list string := lines_go is_linebreak false None s.

(** the lines met by [for line in f], without their terminators *)
Definition file_lines (s : string) : list string := lines_go is_newline false None s.

(** the slices [s[:n]] and [s[n:]] *)
Fixpoint take (n : nat) (s : string) : string :=
  match n, s with
  | S k, String c r => String c (take k r)
  | _, _ => EmptyString
  end.
Fixpoint drop (n : nat) (s : string) : string :=
  match n, s with
  | S k, String c r => drop k r
  | _, _ => s
  end.

(** decimal digits *)
Definition digit_val (c : ascii) : option Z :=
  if (48 <=? code c) && (code c <=? 57) then Some (code c - 48) else None.
Definition digit_char (v : Z) : ascii := ascii_of_N (Z.to_N (48 + v)).

(** [str(n)] for an [int] *)
Definition str_int (n : Z) : string := NilZero.string_of_int (Z.to_int n).

(** zero-padded fields of [strftime] and of [str(date)] *)
Definition pad2 (n : Z) : string :=
  String (digit_char (n / 10)) (String (digit_char (n mod 10)) EmptyString).
Definition pad4 (n : Z) : string :=
  String (digit_char (n / 1000)) (String (digit_char (n / 100 mod 10)) (pad2 (n mod 100))).

(** digits of an [int] literal: single underscores may separate digits *)
Fixpoint int_digits (acc : Z) (after_digit : bool) (s : string) : option Z :=
  match s with
  | EmptyString => if after_digit then Some acc else None
  | String c r =>
      match digit_val c with
      | Some v => int_digits (10 * acc + v) true r
      | None => if (code c =? 95) && after_digit then int_digits acc false r else None
      end
  end.

(** [int(s)] for a [str]: [None] is [ValueError] *)
Definition int (s : string) : option Z :=
  match strip s with
  | String "+" r => int_digits 0 false r
  | String "-" r => Z.opp <$> int_digits 0 false r
  | t => int_digits 0 false t
  end.

(** [float(s)] for a [str]. The binary value is not computed: a float is
    kept as the stripped literal it was read from, and only the grammar of
    the literal (sign, digits with single underscores, point, exponent,
    [inf], [infinity], [nan]) is checked. *)
Record pyfloat := PyFloat { float_literal : string }.

Fixpoint digitpart (after_digit : bool) (s : string) : list string :=
  match s with
  | String c r =>
      match digit_val c with
      | Some _ => (digitpart true r ++ [r])%list
      | None => if (code c =? 95) && after_digit then digitpart false r else []
      end
  | EmptyString => []
  end.

Definition opt_char (P : ascii → bool) (s : string) : list string :=
  match s with
  | String c r => if P c then [r; s] else [s]
  | EmptyString => [s]
  end.

Definition is_sign (c : ascii) : bool := (code c =? 43) || (code c =? 45).
Definition is_point (c : ascii) : bool := code c =? 46.
Definition is_e (c : ascii) : bool := (code c =? 101) || (code c =? 69).

Definition one_char (P : ascii → bool) (s : string) : list string :=
  match s with
  | String c r => if P c then [r] else []
  | EmptyString => []
  end.

(** [number ::= [digitpart] "." digitpart | digitpart ["."]] *)
Definition float_number (s : string) : list string :=
  ((s1 ← (digitpart false s ++ [s]); s2 ← one_char is_point s1; digitpart false s2)
   ++ (s1 ← digitpart false s; opt_char is_point s1))%list.

(** [exponent ::= ("e" | "E") [sign] digitpart] *)
Definition float_exponent (s : string) : list string :=
  s1 ← one_char is_e s; s2 ← opt_char is_sign s1; digitpart false s2.

Definition float_value (s : string) : list string :=
  s1 ← opt_char is_sign s;
  ((if String.eqb (lower s1) "inf" || String.eqb (lower s1) "infinity"
       || String.eqb (lower s1) "nan" then [EmptyString] else [])
   ++ (s2 ← float_number s1; s2 :: float_exponent s2))%list.

Definition float (s : string) : option pyfloat :=
  if existsb (String.eqb EmptyString) (float_value (strip s))
  then Some (PyFloat (strip s)) else None.

(** [json.dumps] of a [str] and of a list of [str], with the default
    [ensure_ascii] escapes *)
Definition hex_char (v : Z) : ascii :=
  if v <? 10 then digit_char v else ascii_of_N (Z.to_N (87 + v)).

Definition json_escape_char (c : ascii) : string :=
  if code c =? 34 then backslash +:+ dquote
  else if code c =? 92 then backslash +:+ backslash
  else if code c =? 10 then backslash +:+ "n"
  else if code c =? 13 then backslash +:+ "r"
  else if code c =? 9 then backslash +:+ "t"
  else if code c =? 8 then backslash +:+ "b"
  else if code c =? 12 then backslash +:+ "f"
  else if (32 <=? code c) && (code c <=? 126) then String c EmptyString
  else backslash +:+ "u00"
       +:+ String (hex_char (code c / 16)) (String (hex_char (code c mod 16)) EmptyString).

Fixpoint json_escape (s : string) : string :=
  match s with
  | EmptyString => EmptyString
  | String c r => json_escape_char c +:+ json_escape r
  end.

Definition json_dumps_str (s : string) : string := dquote +:+ json_escape s +:+ dquote.

Definition json_dumps_list (l : list string) : string :=
  "[" +:+ join ", " (json_dumps_str <$> l) +:+ "]".

End Py.

(** ** Regular expressions of [_strptime]

    A pattern is a parser giving every way to match a prefix of the text,
    in the order in which a backtracking matcher tries them; the first one
    is what [re.match] returns. *)

Module Re.

Definition parser (A : Type) : Type := string → list (A * string).

Definition ret {A} (a : A) : parser A := λ s, [(a, s)].
Definition bind {A B} (p : parser A) (k : A → parser B) : parser B :=
  λ s, flat_map (λ ar, k (fst ar) (snd ar)) (p s).
Definition alt {A} (p q : parser A) : parser A := λ s, (p s ++ q s)%list.

Notation "x ←r p ; k" := (bind p (λ x, k))
  (at level 20, p at level 100, k at level 200, right associativity, only parsing).

(** one digit whose value lies in [lo, hi]: the classes [[lo-hi]] and [\d] *)
Definition digit (lo hi : Z) : parser Z := λ s,
  match s with
  | String c r =>
      match Py.digit_val c with
      | Some v => if (lo <=? v) && (v <=? hi) then [(v, r)] else []
      | None => []
      end
  | EmptyString => []
  end.

(** a literal character *)
Definition lit (c : ascii) : parser unit := λ s,
  match s with
  | String d r => if Ascii.eqb c d then [(tt, r)] else []
  | EmptyString => []
  end.

(** [\s+], greedy: the longest run first *)
Fixpoint spaces1 (s : string) : list (unit * string) :=
  match s with
  | String c r => if Py.is_space c then (spaces1 r ++ [(tt, r)])%list else []
  | EmptyString => []
  end.

(** two digits read as a number *)
Definition two (lo1 hi1 lo2 hi2 : Z) : parser Z :=
  a ←r digit lo1 hi1; b ←r digit lo2 hi2; ret (10 * a + b).

(** the directives of [_strptime.TimeRE] *)
Definition dir_Y : parser Z :=
  a ←r digit 0 9; b ←r digit 0 9; c ←r digit 0 9; d ←r digit 0 9;
  ret (1000 * a + 100 * b + 10 * c + d).
Definition dir_m : parser Z := alt (two 1 1 0 2) (alt (two 0 0 1 9) (digit 1 9)).
Definition dir_d : parser Z :=
  alt (two 3 3 0 1) (alt (two 1 2 0 9) (alt (two 0 0 1 9) (alt (digit 1 9)
    (_ ←r lit " "; digit 1 9)))).
Definition dir_H : parser Z := alt (two 2 2 0 3) (alt (two 0 1 0 9) (digit 0 9)).
Definition dir_M : parser Z := alt (two 0 5 0 9) (digit 0 9).
Definition dir_S : parser Z := alt (two 6 6 0 1) (alt (two 0 5 0 9) (digit 0 9)).

(** the patterns of the three formats the program uses; a blank of the
    format stands for [\\s+] *)
Definition pat_Ymd : parser (Z * Z * Z) :=
  y ←r dir_Y; _ ←r lit "-"; m ←r dir_m; _ ←r lit "-"; d ←r dir_d; ret (y, m, d).
Definition pat_HM : parser (Z * Z) :=
  h ←r dir_H; _ ←r lit ":"; m ←r dir_M; ret (h, m).
Definition pat_HMS : parser (Z * Z * Z) :=
  hm ←r pat_HM; _ ←r lit ":"; sec ←r dir_S; ret (hm, sec).
Definition pat_Ymd_HMS : parser ((Z * Z * Z) * (Z * Z * Z)) :=
  ymd ←r pat_Ymd; _ ←r spaces1; hms ←r pat_HMS; ret (ymd, hms).

(** [re.match] followed by the test that no text is left over:
    [None] is the [ValueError] of [_strptime]. *)
Definition strptime_match {A} (p : parser A) (s : string) : option A :=
  match p s with
  | (a, EmptyString) :: _ => Some a
  | _ => None
  end.

End Re.

(** ** [datetime] *)

Record date := Date { year : Z; month : Z; day : Z }.

Record datetime := DateTime { dt_date : date; dt_hour : Z; dt_minute : Z; dt_second : Z }.

Global Instance date_eq_dec : EqDecision date.
Proof. solve_decision. Defined.

Definition is_leap (y : Z) : bool :=
  (y mod 4 =? 0) && (negb (y mod 100 =? 0) || (y mod 400 =? 0)).

Definition days_in_month (y m : Z) : Z :=
  if m =? 2 then (if is_leap y then 29 else 28)
  else if (m =? 4) || (m =? 6) || (m =? 9) || (m =? 11) then 30 else 31.

(** the range check of the [date] constructor ([MINYEAR] = 1, [MAXYEAR] = 9999) *)
Definition valid_date (d : date) : bool :=
  (1 <=? year d) && (year d <=? 9999) && (1 <=? month d) && (month d <=? 12)
  && (1 <=? day d) && (day d <=? days_in_month (year d) (month d)).

(** [d + timedelta(days=1)]: [None] is [OverflowError] *)
Definition next_day (d : date) : option date :=
  if day d <? days_in_month (year d) (month d) then Some (Date (year d) (month d) (day d + 1))
  else if month d <? 12 then Some (Date (year d) (month d + 1) 1)
  else if year d <? 9999 then Some (Date (year d + 1) 1 1)
  else None.

(** [d - timedelta(days=1)]: [None] is [OverflowError] *)
Definition prev_day (d : date) : option date :=
  if 1 <? day d then Some (Date (year d) (month d) (day d - 1))
  else if 1 <? month d then Some (Date (year d) (month d - 1) (days_in_month (year d) (month d - 1)))
  else if 1 <? year d then Some (Date (year d - 1) 12 31)
  else None.

(** [a <= b] on dates *)
Definition date_leb (a b : date) : bool :=
  (year a <? year b)
  || ((year a =? year b)
      && ((month a <? month b) || ((month a =? month b) && (day a <=? day b)))).

(** [str(d)] *)
Definition str_date (d : date) : string :=
  Py.pad4 (year d) +:+ "-" +:+ Py.pad2 (month d) +:+ "-" +:+ Py.pad2 (day d).

(** [d.strftime("%Y%m%d")], the year on four digits *)
Definition strftime_Ymd (d : date) : string :=
  Py.pad4 (year d) +:+ Py.pad2 (month d) +:+ Py.pad2 (day d).

(** [strftime(t, "%H:%M:%S")] *)
Definition strftime_HMS (h m s : Z) : string :=
  Py.pad2 h +:+ ":" +:+ Py.pad2 m +:+ ":" +:+ Py.pad2 s.

Definition checked_date (y m d : Z) : option date :=
  if valid_date (Date y m d) then Some (Date y m d) else None.

(** [datetime.strptime(s, "%Y-%m-%d").date()] *)
Definition strptime_Ymd (s : string) : option date :=
  Re.strptime_match Re.pat_Ymd s ≫= λ '(y, m, d), checked_date y m d.

(** [datetime.strptime(s, "%H:%M")]: the hour and the minute of the result *)
Definition strptime_HM (s : string) : option (Z * Z) :=
  Re.strptime_match Re.pat_HM s.

(** [datetime.strptime(s, "%Y-%m-%d %H:%M:%S")]; a second of 60 or 61
    matches the pattern and is refused by the [datetime] constructor *)
Definition strptime_Ymd_HMS (s : string) : option datetime :=
  Re.strptime_match Re.pat_Ymd_HMS s ≫= λ '((y, m, d), (h, mi, sec)),
    match checked_date y m d with
    | Some dt => if sec <=? 59 then Some (DateTime dt h mi sec) else None
    | None => None
    end.

(** ** Data read by [pandas.read_csv]

    A cell is a missing value, a text, an integer or a float of integral
    value. A float with a fractional part is kept as the text [str] gives
    for it. *)

Inductive cell := CNaN | CStr (s : string) | CInt (z : Z) | CFloat (z : Z).

(** [str(c)] *)
Definition str_cell (c : cell) : string :=
  match c with
  | CNaN => "nan"
  | CStr s => s
  | CInt z => Py.str_int z
  | CFloat z => Py.str_int z +:+ ".0"
  end.

(** [int(c)]: [None] is [ValueError] *)
Definition int_cell (c : cell) : option Z :=
  match c with
  | CNaN => None
  | CStr s => Py.int s
  | CInt z | CFloat z => Some z
  end.

(** the truth value of [c]: a missing value is a float [nan], which is true *)
Definition truthy_cell (c : cell) : bool :=
  match c with
  | CNaN => true
  | CStr s => negb (String.eqb s "")
  | CInt z | CFloat z => negb (z =? 0)
  end.

(** One row of the schedule sheet; [End_] is the column [End]. *)
Record Row := {
  NoD : cell; Target : cell; Start : cell; End_ : cell; Filter : cell; Exp : cell;
  Camera : cell; Satellite_Tracking : cell; Tracking_Mode : cell
}.

(** The schedule sheet. The columns [Camera], [Satellite Tracking] and
    [Tracking Mode] may be absent from the sheet; the cells of an absent
    column are not read. *)
Record DataFrame := {
  rows : list Row;
  has_Camera : bool;
  has_Satellite_Tracking : bool;
  has_Tracking_Mode : bool
}.

(** [sheet[col][x]] on the default index: [None] is [KeyError] *)
Definition row_at (sheet : DataFrame) (x : Z) : option Row :=
  if 0 <=? x then rows sheet !! Z.to_nat x else None.

(** One row of the ephemeris table. *)
Record InfoRow := { TOI : cell; RA : cell; Dec : cell }.

(** ** Tickets *)

(** What [list_split] returns. *)
Inductive value :=
| Str (s : string)
| StrList (l : list string)
| Float (x : Py.pyfloat)
| FloatList (l : list Py.pyfloat).

(** The [details] of an observation ticket, as [json.dump] writes them. *)
Record ticket := {
  details_name : string;
  details_ra : option string;
  details_dec : option string;
  details_start_time : string;
  details_end_time : string;
  details_filter : value;
  details_num : Z;
  details_exp_time : value;
  details_camera : string;
  details_self_guide : bool;
  details_guide : bool;
  details_cycle_filter : bool;
  details_initial_focus : bool;
  details_satellite_tracking : bool;
  details_satellite_tracking_mode : Z
}.

(** ** The program state *)

(** the [tk.Entry] boxes *)
Inductive Entry :=
| name | ra | dec | start_time | end_time | filter_ | n_exposures | exposure_time.

(** the [tk.IntVar] variables *)
Inductive IntVar :=
| satellite_tracking | satellite_tracking_mode | self_guide | guide | cycle_filter
| initial_focus.

(** the [tk.StringVar] variables *)
Inductive StringVar := selection | camera.

Global Instance Entry_eq_dec : EqDecision Entry.
Proof. solve_decision. Defined.
Global Instance IntVar_eq_dec : EqDecision IntVar.
Proof. solve_decision. Defined.
Global Instance StringVar_eq_dec : EqDecision StringVar.
Proof. solve_decision. Defined.

Record DialogThread := { title : string; message : string }.

(** A file: its content and its modification time, in seconds. *)
Record file (A : Type) := File { content : A; mtime : Z }.
Arguments File {A} _ _.
Arguments content {A} _.
Arguments mtime {A} _.

(** The directory [toi_info]. *)
Record info_directory := {
  google_csv : option (file DataFrame);
  info_chart_csv : option (file (list InfoRow));
  satellites_txt : option (file string)
}.

(** The part of the file system under the script's directory: [toi_info]
    when it exists, the ticket files of the directory itself by file name,
    and the night folders by folder name. *)
Record filesystem := {
  toi_info : option info_directory;
  tickets : gmap string ticket;
  folders : gmap string (gmap string ticket)
}.

(** the remote resources *)
Inductive url := Google_Sheet | Transit_Site | tles_url.

Global Instance url_eq_dec : EqDecision url.
Proof. solve_decision. Defined.

Record state := {
  entries : Entry → string;
  int_vars : IntVar → Z;
  string_vars : StringVar → string;
  SATELLITES : gset string;
  dialog : option DialogThread;
  dialog_2 : option DialogThread;
  toi_list : list string;
  clipboard : string;
  disk : filesystem;
  requests : list url          (* the network calls issued, the last one first *)
}.

(** What a call reads from outside: the clock ([now] in seconds, the local
    date and hour, the daylight-saving flag), what each remote resource
    answers ([None]: the request fails or times out) and the directory of
    the script. *)
Record env := {
  now : Z;
  today : date;
  hour : Z;
  tm_isdst : bool;
  get_Google_Sheet : option DataFrame;
  get_Transit_Site : option (list InfoRow);
  get_tles : option string;
  current_path : string
}.

Definition set_entries (f : Entry → string) (st : state) : state :=
  {| entries := f; int_vars := int_vars st; string_vars := string_vars st;
     SATELLITES := SATELLITES st; dialog := dialog st; dialog_2 := dialog_2 st;
     toi_list := toi_list st; clipboard := clipboard st; disk := disk st;
     requests := requests st |}.
Definition set_int_vars (f : IntVar → Z) (st : state) : state :=
  {| entries := entries st; int_vars := f; string_vars := string_vars st;
     SATELLITES := SATELLITES st; dialog := dialog st; dialog_2 := dialog_2 st;
     toi_list := toi_list st; clipboard := clipboard st; disk := disk st;
     requests := requests st |}.
Definition set_string_vars (f : StringVar → string) (st : state) : state :=
  {| entries := entries st; int_vars := int_vars st; string_vars := f;
     SATELLITES := SATELLITES st; dialog := dialog st; dialog_2 := dialog_2 st;
     toi_list := toi_list st; clipboard := clipboard st; disk := disk st;
     requests := requests st |}.
Definition set_SATELLITES (S : gset string) (st : state) : state :=
  {| entries := entries st; int_vars := int_vars st; string_vars := string_vars st;
     SATELLITES := S; dialog := dialog st; dialog_2 := dialog_2 st;
     toi_list := toi_list st; clipboard := clipboard st; disk := disk st;
     requests := requests st |}.
Definition set_dialog (d : option DialogThread) (st : state) : state :=
  {| entries := entries st; int_vars := int_vars st; string_vars := string_vars st;
     SATELLITES := SATELLITES st; dialog := d; dialog_2 := dialog_2 st;
     toi_list := toi_list st; clipboard := clipboard st; disk := disk st;
     requests := requests st |}.
Definition set_dialog_2 (d : option DialogThread) (st : state) : state :=
  {| entries := entries st; int_vars := int_vars st; string_vars := string_vars st;
     SATELLITES := SATELLITES st; dialog := dialog st; dialog_2 := d;
     toi_list := toi_list st; clipboard := clipboard st; disk := disk st;
     requests := requests st |}.
Definition set_toi_list (l : list string) (st : state) : state :=
  {| entries := entries st; int_vars := int_vars st; string_vars := string_vars st;
     SATELLITES := SATELLITES st; dialog := dialog st; dialog_2 := dialog_2 st;
     toi_list := l; clipboard := clipboard st; disk := disk st;
     requests := requests st |}.
Definition set_clipboard (c : string) (st : state) : state :=
  {| entries := entries st; int_vars := int_vars st; string_vars := string_vars st;
     SATELLITES := SATELLITES st; dialog := dialog st; dialog_2 := dialog_2 st;
     toi_list := toi_list st; clipboard := c; disk := disk st;
     requests := requests st |}.
Definition set_disk (d : filesystem) (st : state) : state :=
  {| entries := entries st; int_vars := int_vars st; string_vars := string_vars st;
     SATELLITES := SATELLITES st; dialog := dialog st; dialog_2 := dialog_2 st;
     toi_list := toi_list st; clipboard := clipboard st; disk := d;
     requests := requests st |}.
Definition set_requests (l : list url) (st : state) : state :=
  {| entries := entries st; int_vars := int_vars st; string_vars := string_vars st;
     SATELLITES := SATELLITES st; dialog := dialog st; dialog_2 := dialog_2 st;
     toi_list := toi_list st; clipboard := clipboard st; disk := disk st;
     requests := l |}.

(** ** Exceptions and state *)

Inductive exn :=
| ValueError | KeyError | IndexError | UnboundLocalError | OverflowError
| FileNotFoundError | RequestException.

Inductive result (A : Type) := Return (a : A) | Raise (e : exn).
Arguments Return {A} _.
Arguments Raise {A} _.

Definition M (A : Type) : Type := state → result A * state.

Global Instance M_ret : MRet M := λ A a st, (Return a, st).
Global Instance M_bind : MBind M := λ A B f m st,
  match m st with
  | (Return a, st') => f a st'
  | (Raise e, st') => (Raise e, st')
  end.

Global Instance M_fmap : FMap M := λ A B f m st,
  match m st with
  | (Return a, st') => (Return (f a), st')
  | (Raise e, st') => (Raise e, st')
  end.

Definition raise {A} (e : exn) : M A := λ st, (Raise e, st).
Definition get : M state := λ st, (Return st, st).
Definition modify (f : state → state) : M unit := λ st, (Return tt, f st).

(** a value that may be missing, with the exception raised when it is *)
Definition or_raise {A} (e : exn) (o : option A) : M A :=
  match o with Some a => mret a | None => raise e end.

(** [for x in l: body(x)] *)
Fixpoint for_each {A} (l : list A) (body : A → M unit) : M unit :=
  match l with
  | [] => mret tt
  | x :: r => body x;; for_each r body
  end.

(** ** Widgets *)

Definition box_list : list Entry :=
  [name; ra; dec; start_time; end_time; filter_; n_exposures; exposure_time].

(** [box.delete(0, 'end')] for every box of [box_list] *)
Definition clear_box : M unit :=
  modify (λ st,
    set_entries (λ b, if decide (b ∈ box_list) then "" else entries st b) st).

(** [box.insert(index, text)]: an index past the end inserts at the end *)
Definition Entry_insert (box : Entry) (index : nat) (text : string) : M unit :=
  modify (λ st,
    set_entries (λ b, if decide (b = box)
                      then Py.take index (entries st b) +:+ text +:+ Py.drop index (entries st b)
                      else entries st b) st).

Definition IntVar_set (v : IntVar) (z : Z) : M unit :=
  modify (λ st, set_int_vars (λ w, if decide (w = v) then z else int_vars st w) st).

Definition StringVar_set (v : StringVar) (t : string) : M unit :=
  modify (λ st, set_string_vars (λ w, if decide (w = v) then t else string_vars st w) st).

(** ** Files and requests *)

(** [timedelta(hours=12)], in seconds *)
Definition twelve_hours : Z := 12 * 3600.

(** [requests.get(url, timeout=...)]: the call is issued, then it answers or
    raises *)
Definition requests_get {A} (u : url) (answer : option A) : M A :=
  modify (λ st, set_requests (u :: requests st) st);;
  or_raise RequestException answer.

Definition empty_info_directory : info_directory :=
  {| google_csv := None; info_chart_csv := None; satellites_txt := None |}.

Definition set_toi_info (d : option info_directory) (fs : filesystem) : filesystem :=
  {| toi_info := d; tickets := tickets fs; folders := folders fs |}.
Definition set_tickets (t : gmap string ticket) (fs : filesystem) : filesystem :=
  {| toi_info := toi_info fs; tickets := t; folders := folders fs |}.
Definition set_folders (f : gmap string (gmap string ticket)) (fs : filesystem) : filesystem :=
  {| toi_info := toi_info fs; tickets := tickets fs; folders := f |}.

(** writing a file of [toi_info]: the directory has to exist *)
Definition write_info (f : info_directory → info_directory) : M unit :=
  st ← get;
  d ← or_raise FileNotFoundError (toi_info (disk st));
  modify (set_disk (set_toi_info (Some (f d)) (disk st))).

(** reading a file of [toi_info] *)
Definition read_info {A} (f : info_directory → option (file A)) : M (file A) :=
  st ← get;
  or_raise FileNotFoundError (toi_info (disk st) ≫= f).

(** ** [check_toi] *)

(** The names of a TLE feed, as the loop over [tles.text.splitlines()]
    collects them; [None] is the [IndexError] of [line[0]] on an empty line. *)
Fixpoint tle_names (lines : list string) (S : gset string) : option (gset string) :=
  match lines with
  | [] => Some S
  | line :: r =>
      match line with
      | EmptyString => None
      | String c _ =>
          if Ascii.eqb c "1" || Ascii.eqb c "2" then tle_names r S
          else
            let line := Py.strip line in
            let S := S ∪ {[ Py.upper line ]} in
            let S := if Py.contains_char "(" line
                     then S ∪ {[ Py.upper (Py.strip (hd "" (Py.split line "("))) ]}
                     else S in
            tle_names r S
      end
  end.

(** [sorted(S)] *)
Definition sorted (S : gset string) : list string := merge_sort String.le (elements S).

(** the part of [check_toi] that loads the satellite catalog *)
Definition check_toi_satellites (e : env) : M unit :=
  st ← get;
  let satellites_path := toi_info (disk st) ≫= satellites_txt in
  if match satellites_path with
     | Some f => now e - mtime f <? twelve_hours
     | None => false
     end
  then
    f ← read_info satellites_txt;
    modify (set_SATELLITES (list_to_set (Py.strip <$> Py.file_lines (content f))))
  else
    tles ← requests_get tles_url (get_tles e);
    S ← or_raise IndexError (tle_names (Py.splitlines tles) ∅);
    modify (set_SATELLITES S);;
    write_info (λ d, {| google_csv := google_csv d; info_chart_csv := info_chart_csv d;
                        satellites_txt := Some (File (Py.join Py.newline (sorted S)) (now e)) |}).

(** the part of [check_toi] that downloads the schedule sheet *)
Definition check_toi_sheet (e : env) : M unit :=
  savefile ← requests_get Google_Sheet (get_Google_Sheet e);
  write_info (λ d, {| google_csv := Some (File savefile (now e));
                      info_chart_csv := info_chart_csv d;
                      satellites_txt := satellites_txt d |}).

(** [check_toi()]; the label that shows tonight's target is not kept *)
Definition check_toi (e : env) : M unit :=
  st ← get;
  (if toi_info (disk st) is None
   then modify (set_disk (set_toi_info (Some empty_info_directory) (disk st)))
   else mret tt);;
  check_toi_sheet e;;
  check_toi_satellites e.

(** ** [target_grab] *)

(** the part of [target_grab] that loads the ephemeris table *)
Definition target_grab_info_chart (e : env) : M (list InfoRow) :=
  st ← get;
  let info_chart_path := toi_info (disk st) ≫= info_chart_csv in
  (if match info_chart_path with
      | Some f => now e - mtime f >? twelve_hours
      | None => true
      end
   then
     tbl_page ← requests_get Transit_Site (get_Transit_Site e);
     write_info (λ d, {| google_csv := google_csv d;
                         info_chart_csv := Some (File tbl_page (now e));
                         satellites_txt := satellites_txt d |})
   else mret tt);;
  content <$> read_info info_chart_csv.

(** the loop over the ephemeris table: the coordinates of the first row
    whose [TOI] reads [toi] *)
Fixpoint find_coords (info_csv : list InfoRow) (toi : string) : option (cell * cell) :=
  match info_csv with
  | [] => None
  | y :: r => if String.eqb (str_cell (TOI y)) toi then Some (RA y, Dec y)
              else find_coords r toi
  end.

(** [str(ra_coord)] and [str(dec_coord)], [None] included *)
Definition str_coord (c : option cell) : string :=
  match c with Some c => str_cell c | None => "None" end.

(** the day of a clock time: the day after [start_date] up to 12 o'clock *)
Definition rollover (start_date : date) (clock_hour : Z) : M string :=
  if clock_hour <=? 12 then str_date <$> or_raise OverflowError (next_day start_date)
  else mret (str_date start_date).

Definition target_grab (e : env) : M unit :=
  st ← get;
  if decide (string_vars st selection = "Observation List") then mret tt else
  let input_info := Py.split (string_vars st selection) ": " in
  clear_box;;
  start_date ← or_raise ValueError (strptime_Ymd (hd "" input_info));
  target ← or_raise IndexError (input_info !! 1%nat);
  google_sheet ← content <$> read_info google_csv;
  x ← or_raise ValueError (Py.int (Py.drop 1 (List.last (Py.split target "_") "")));
  r ← or_raise KeyError (row_at google_sheet x);
  let target_name := str_cell (Target r) in
  let obs_start := str_cell (Start r) in
  let obs_end := str_cell (End_ r) in
  let filter_input := str_cell (Filter r) in
  let exposure := str_cell (Exp r) in
  let selected_cam := if has_Camera google_sheet then str_cell (Camera r) else "CCD" in
  (* a variable of an absent column stays unbound *)
  satellite_tracking_data ←
    (if has_Satellite_Tracking google_sheet
     then Some <$> or_raise ValueError (int_cell (Satellite_Tracking r))
     else mret None);
  tracking_mode_data ←
    (if has_Tracking_Mode google_sheet
     then Some <$> or_raise ValueError (int_cell (Tracking_Mode r))
     else mret None);
  let toi :=
    if Py.startswith target_name "TOI"
    then Py.replace (Py.replace target_name " " "") "TOI" "" else target_name in
  let target_name :=
    if Py.startswith target_name "TOI"
    then Py.replace (Py.replace target_name " " "") "." "-" else target_name in
  info_csv ← target_grab_info_chart e;
  let coords := find_coords info_csv toi in
  x ← or_raise ValueError (strptime_HM obs_start);
  let time_s := strftime_HMS (fst x) (snd x) 0 in
  xx ← or_raise ValueError (strptime_HM obs_end);
  let time_e := strftime_HMS (fst xx) (snd xx) 0 in
  day_start ← rollover start_date (fst x);
  day_end ← rollover start_date (fst xx);
  let begin := day_start +:+ " " +:+ time_s in
  let end_ := day_end +:+ " " +:+ time_e in
  let exposure := Py.replace exposure "s" "" in
  let num_exposures := 100000 in
  Entry_insert name 10 target_name;;
  Entry_insert ra 10 (str_coord (fst <$> coords));;
  Entry_insert dec 10 (str_coord (snd <$> coords));;
  Entry_insert start_time 10 begin;;
  Entry_insert end_time 10 end_;;
  Entry_insert filter_ 10 filter_input;;
  Entry_insert n_exposures 10 (Py.str_int num_exposures);;
  Entry_insert exposure_time 10 exposure;;
  StringVar_set camera selected_cam;;
  satellite_tracking_data ← or_raise UnboundLocalError satellite_tracking_data;
  IntVar_set satellite_tracking satellite_tracking_data;;
  tracking_mode_data ← or_raise UnboundLocalError tracking_mode_data;
  IntVar_set satellite_tracking_mode tracking_mode_data;;
  IntVar_set self_guide (if satellite_tracking_data =? 0 then 1 else 0).

(** ** [create_list] *)

(** The loop of [create_list] over the rows from index [x] on;
    [future_toi_list] holds the entries made so far. *)
Fixpoint create_list_loop (current_date : date) (sheet : DataFrame) (x : nat)
    (rs : list Row) (future_toi_list : list string) : result (list string) :=
  match rs with
  | [] => Return future_toi_list
  | r :: rs =>
      let target := str_cell (Target r) in
      let target :=
        if Py.startswith target "TOI"
        then Py.replace (Py.replace target " " "") "." "-" else target in
      let nod := str_cell (NoD r) in
      if negb (String.eqb target "nan") && negb (String.eqb nod "nan") then
        match strptime_Ymd nod with
        | None => Raise ValueError
        | Some row_date =>
            if date_leb current_date row_date && negb (String.eqb target "NaN") then
              if has_Satellite_Tracking sheet then
                let enable_sat_tracking := Satellite_Tracking r in
                if truthy_cell enable_sat_tracking && negb (has_Tracking_Mode sheet)
                then Raise KeyError
                else
                  let sat_mode :=
                    if truthy_cell enable_sat_tracking
                    then "_Mode" +:+ str_cell (Tracking_Mode r) else "" in
                  let display_name :=
                    target +:+ "_" +:+ str_cell (Start r) +:+ sat_mode +:+ "_"
                    +:+ str_cell (Exp r) +:+ "_" +:+ str_cell (Filter r) +:+ "_#"
                    +:+ Py.str_int (Z.of_nat x) in
                  create_list_loop current_date sheet (S x) rs
                    (future_toi_list ++ [str_date row_date +:+ ": " +:+ display_name])%list
              else Raise KeyError
            else create_list_loop current_date sheet (S x) rs future_toi_list
        end
      else create_list_loop current_date sheet (S x) rs future_toi_list
  end.

Definition create_list (e : env) : M (list string) :=
  sheet ← content <$> read_info google_csv;
  match create_list_loop (today e) sheet 0 (rows sheet) [] with
  | Return l => mret l
  | Raise err => raise err
  end.

(** [sheet['Target'][x] != 'NaN'], on the cell itself *)
Definition cell_is_not (c : cell) (t : string) : bool :=
  match c with CStr s => negb (String.eqb s t) | _ => true end.

(** The loop of [create_list] in [Observation_ticket_creator.pyw];
    [num] counts the entries made so far. *)
Fixpoint create_list_pyw_loop (current_date : date) (rs : list Row) (num : Z)
    (future_toi_list : list string) : result (list string) :=
  match rs with
  | [] => Return future_toi_list
  | r :: rs =>
      if (num <? 11) && negb (String.eqb (str_cell (Target r)) "nan")
         && negb (String.eqb (str_cell (NoD r)) "nan") then
        match strptime_Ymd (str_cell (NoD r)) with
        | None => Raise ValueError
        | Some row_date =>
            if date_leb current_date row_date && cell_is_not (Target r) "NaN" then
              create_list_pyw_loop current_date rs (num + 1)
                (future_toi_list ++ [str_date row_date +:+ ": " +:+ str_cell (Target r)])%list
            else create_list_pyw_loop current_date rs num future_toi_list
        end
      else create_list_pyw_loop current_date rs num future_toi_list
  end.

Definition create_list_pyw (e : env) : M (list string) :=
  sheet ← content <$> read_info google_csv;
  match create_list_pyw_loop (today e) (rows sheet) 0 [] with
  | Return l => mret l
  | Raise err => raise err
  end.

(** ** [target_grab] in [Observation_ticket_creator.pyw] *)

(** The loop of [target_grab] over the rows of the sheet: the variables of
    the loop body are those of the last row whose date reads [day] and
    whose target reads [target_toi]; [picked] is that row so far.  The
    tracking cells of every such row are converted with [int]. *)
Fixpoint pick_row_pyw (sheet : DataFrame) (day target_toi : string) (rs : list Row)
    (picked : option Row) : result (option Row) :=
  match rs with
  | [] => Return picked
  | r :: rs =>
      if String.eqb day (str_cell (NoD r)) && String.eqb (str_cell (Target r)) target_toi
      then
        if has_Satellite_Tracking sheet && negb (bool_decide (is_Some (int_cell (Satellite_Tracking r))))
        then Raise ValueError
        else if has_Tracking_Mode sheet && negb (bool_decide (is_Some (int_cell (Tracking_Mode r))))
        then Raise ValueError
        else pick_row_pyw sheet day target_toi rs (Some r)
      else pick_row_pyw sheet day target_toi rs picked
  end.

Definition target_grab_pyw (e : env) : M unit :=
  st ← get;
  if decide (string_vars st selection = "Observation List") then mret tt else
  let input_info := Py.split (string_vars st selection) ": " in
  clear_box;;
  start_date ← or_raise ValueError (strptime_Ymd (hd "" input_info));
  target_toi ← or_raise IndexError (input_info !! 1%nat);
  google_sheet ← content <$> read_info google_csv;
  picked ← match pick_row_pyw google_sheet (str_date start_date) target_toi
                   (rows google_sheet) None with
           | Return picked => mret picked
           | Raise err => raise err
           end;
  toi ← (if Py.startswith target_toi "TOI"
         then or_raise IndexError (Py.split target_toi " " !! 1%nat)
         else mret target_toi);
  info_csv ← target_grab_info_chart e;
  let coords := find_coords info_csv toi in
  (* the variables of the loop body are unbound when no row was found *)
  r ← or_raise UnboundLocalError picked;
  x ← or_raise ValueError (strptime_HM (str_cell (Start r)));
  let time_s := strftime_HMS (fst x) (snd x) 0 in
  xx ← or_raise ValueError (strptime_HM (str_cell (End_ r)));
  let time_e := strftime_HMS (fst xx) (snd xx) 0 in
  day_start ← rollover start_date (fst x);
  day_end ← rollover start_date (fst xx);
  let begin := day_start +:+ " " +:+ time_s in
  let end_ := day_end +:+ " " +:+ time_e in
  let tonight_toi :=
    if Py.startswith target_toi "TOI"
    then Py.replace (Py.replace target_toi " " "") "." "-" else target_toi in
  let exposure := Py.replace (str_cell (Exp r)) "s" "" in
  let num_exposures := 100000 in
  Entry_insert name 10 tonight_toi;;
  Entry_insert ra 10 (str_coord (fst <$> coords));;
  Entry_insert dec 10 (str_coord (snd <$> coords));;
  Entry_insert start_time 10 begin;;
  Entry_insert end_time 10 end_;;
  Entry_insert filter_ 10 (str_cell (Filter r));;
  Entry_insert n_exposures 10 (Py.str_int num_exposures);;
  Entry_insert exposure_time 10 exposure;;
  StringVar_set camera (if has_Camera google_sheet then str_cell (Camera r) else "CCD");;
  satellite_tracking_data ←
    or_raise UnboundLocalError
      (if has_Satellite_Tracking google_sheet then int_cell (Satellite_Tracking r) else None);
  IntVar_set satellite_tracking satellite_tracking_data;;
  tracking_mode_data ←
    or_raise UnboundLocalError
      (if has_Tracking_Mode google_sheet then int_cell (Tracking_Mode r) else None);
  IntVar_set satellite_tracking_mode tracking_mode_data;;
  IntVar_set self_guide (if satellite_tracking_data =? 0 then 1 else 0).

(** ** [list_split], [savetxt] *)

(** [dst_check()] *)
Definition dst_check (e : env) : string := if tm_isdst e then "-04:00" else "-05:00".

Definition keep_Ha (ii : string) : string := if String.eqb ii "Ha" then ii else Py.lower ii.

(** the value [list_split] makes of the text of a box: [None] is the
    [ValueError] of [float] *)
Definition list_split_text (entry : Entry) (text : string) : option value :=
  let i := Py.split (Py.replace text " " "") "," in
  if decide (entry = exposure_time) then
    if (1 <? length i)%nat then FloatList <$> mapM Py.float i
    else Float <$> Py.float (hd "" i)
  else if decide (entry = filter_) then
    Some (Str (if (1 <? length i)%nat then Py.json_dumps_list (keep_Ha <$> i)
               else keep_Ha (hd "" i)))
  else Some (StrList i).

Definition list_split (entry : Entry) : M value :=
  st ← get;
  or_raise ValueError (list_split_text entry (entries st entry)).

Definition satellite_not_found (requested : string) : DialogThread :=
  {| title := "Error: Satellite not found";
     message := "Error: the specified satellite " +:+ Py.dquote +:+ requested +:+ Py.dquote
                +:+ " was not found in the catalog." +:+ Py.newline
                +:+ "Check the target name. Try swapping dashes and spaces." |}.

(** the file name of the ticket of the selected row *)
Definition ticket_file (selected : string) : option string :=
  (λ t, Py.replace t ":" "" +:+ ".json") <$> Py.split selected ": " !! 1%nat.

(** the dictionary [savetxt] dumps *)
Definition observation_ticket (dst : string) (st : state) (i j : value) (num : Z) : ticket :=
  {| details_name := entries st name;
     details_ra := if String.eqb (entries st ra) "None" then None else Some (entries st ra);
     details_dec := if String.eqb (entries st dec) "None" then None else Some (entries st dec);
     details_start_time := entries st start_time +:+ dst;
     details_end_time := entries st end_time +:+ dst;
     details_filter := i;
     details_num := num;
     details_exp_time := j;
     details_camera := string_vars st camera;
     details_self_guide := negb (int_vars st self_guide =? 0);
     details_guide := negb (int_vars st guide =? 0);
     details_cycle_filter := negb (int_vars st cycle_filter =? 0);
     details_initial_focus := negb (int_vars st initial_focus =? 0);
     details_satellite_tracking := negb (int_vars st satellite_tracking =? 0);
     details_satellite_tracking_mode := int_vars st satellite_tracking_mode |}.

(** [open(path, 'w+')] and [json.dump] in the script's directory *)
Definition write_ticket (path : string) (t : ticket) : M unit :=
  modify (λ st, set_disk (set_tickets (<[path := t]> (tickets (disk st))) (disk st)) st).

Definition savetxt (e : env) : M unit :=
  let dst := dst_check e in
  i ← list_split filter_;
  j ← list_split exposure_time;
  st ← get;
  if negb (int_vars st satellite_tracking =? 0)
     && negb (bool_decide (Py.upper (entries st name) ∈ SATELLITES st))
  then
    (if dialog st is None
     then modify (set_dialog (Some (satellite_not_found (entries st name))))
     else mret tt)
  else
    (if dialog st is Some _ then modify (set_dialog None) else mret tt);;
    num ← or_raise ValueError (Py.int (entries st n_exposures));
    path ← or_raise IndexError (ticket_file (string_vars st selection));
    write_ticket path (observation_ticket dst st i j num).

(** ** [save_all], [save_all_auto_folders] *)

Definition save_all (e : env) : M unit :=
  st ← get;
  for_each (List.tl (toi_list st)) (λ target,
    StringVar_set selection target;;
    target_grab e;;
    savetxt e).

(** the end of the loop body: the new file [file_name] of the script's
    directory goes into [folder_name], unless the folder has that file *)
Definition move_into_folder (folder_name file_name : string) : M unit :=
  st ← get;
  (if folders (disk st) !! folder_name is None
   then modify (λ st, set_disk (set_folders (<[folder_name := ∅]> (folders (disk st)))
                                  (disk st)) st)
   else mret tt);;
  st ← get;
  folder ← or_raise FileNotFoundError (folders (disk st) !! folder_name);
  if folder !! file_name is None then
    t ← or_raise FileNotFoundError (tickets (disk st) !! file_name);
    modify (set_disk (set_folders (<[folder_name := <[file_name := t]> folder]>
                                     (folders (disk st)))
                        (set_tickets (delete file_name (tickets (disk st))) (disk st))))
  else
    (if tickets (disk st) !! file_name is None then raise FileNotFoundError else mret tt);;
    modify (set_disk (set_tickets (delete file_name (tickets (disk st))) (disk st))).

(** the name of the night folder of a ticket, from its start time *)
Definition night_folder (e : env) (target_info : ticket) : M string :=
  start ← or_raise ValueError
    (strptime_Ymd_HMS (Py.replace (details_start_time target_info) (dst_check e) ""));
  folder_date ←
    (if dt_hour start <? 12 then or_raise OverflowError (prev_day (dt_date start))
     else mret (dt_date start));
  mret (strftime_Ymd folder_date).

(** the body of the loop of [save_all_auto_folders] *)
Definition save_into_folder (e : env) (target : string) : M unit :=
  StringVar_set selection target;;
  target_grab e;;
  savetxt e;;
  target_file ← or_raise IndexError (ticket_file target);
  st ← get;
  target_info ← or_raise FileNotFoundError (tickets (disk st) !! target_file);
  folder_name ← night_folder e target_info;
  move_into_folder folder_name target_file.

(** the date of the folder named in the command *)
Definition tonight (e : env) : option date :=
  if 12 <=? hour e then Some (today e) else prev_day (today e).

Definition run_command (e : env) (folder_name : string) : string :=
  Py.replace ("python -m omegalambda run " +:+ current_path e +:+ Py.backslash +:+ folder_name)
    Py.backslash "/".

Definition saved_into_folders (command : string) : DialogThread :=
  {| title := "Saved all targets into folders";
     message := "All targets have been saved and placed into folders by date." +:+ Py.newline
       +:+ "        The following command to run OmegaLambda on tonight's folder has been copied to the clipboard:"
       +:+ Py.newline +:+ "        " +:+ command +:+ Py.newline
       +:+ "        Click Quit to exit the program." +:+ Py.newline +:+ "        " |}.

Definition save_all_auto_folders (e : env) : M unit :=
  st ← get;
  for_each (List.tl (toi_list st)) (save_into_folder e);;
  tonight ← or_raise OverflowError (tonight e);
  (* [current_path] is bound by the loop body only *)
  (if List.tl (toi_list st) is [] then raise UnboundLocalError else mret tt);;
  let command := run_command e (strftime_Ymd tonight) in
  modify (set_clipboard command);;
  modify (set_dialog_2 (Some (saved_into_folders command))).

(** ** The script itself *)

(** The statements of the script between the function definitions and
    [master.mainloop()]: with no entry to show, the script stops before
    the widgets are made. *)
Definition startup (e : env) : M unit :=
  check_toi e;;
  l ← create_list e;
  modify (set_toi_list l);;
  match l with
  | [] => mret tt
  | first :: _ =>
      IntVar_set initial_focus 1;;
      StringVar_set selection first;;
      modify (λ st, set_toi_list ("Observation List" :: toi_list st) st);;
      target_grab e
  end.

(** ** What a selection names *)

(** the night of the selected entry *)
Definition selected_date (st : state) : option date :=
  strptime_Ymd (hd "" (Py.split (string_vars st selection) ": ")).

(** the row of the sheet on disk that the selected entry numbers *)
Definition selected_row (st : state) : option Row :=
  target ← Py.split (string_vars st selection) ": " !! 1%nat;
  x ← Py.int (Py.drop 1 (List.last (Py.split target "_") ""));
  f ← toi_info (disk st) ≫= google_csv;
  row_at (content f) x.

(** the state after [clear_box] *)
Definition cleared (st : state) : state :=
  set_entries (λ b, if decide (b ∈ box_list) then "" else entries st b) st.

(** the name and the identifier looked up in the ephemeris table, for a
    target read from the sheet *)
Definition display_name (target_name : string) : string :=
  if Py.startswith target_name "TOI"
  then Py.replace (Py.replace target_name " " "") "." "-" else target_name.
Definition lookup_name (target_name : string) : string :=
  if Py.startswith target_name "TOI"
  then Py.replace (Py.replace target_name " " "") "TOI" "" else target_name.

(** the state in which [savetxt] writes: an error dialog, if any, is
    closed *)
Definition dialog_closed (st : state) : state :=
  match dialog st with Some _ => set_dialog None st | None => st end.

(** the state [savetxt] leaves when it has written the ticket [t] *)
Definition ticket_written (path : string) (t : ticket) (st : state) : state :=
  set_disk (set_tickets (<[path := t]> (tickets (disk (dialog_closed st))))
              (disk (dialog_closed st))) (dialog_closed st).

(** the state [savetxt] leaves when the satellite is not in the catalog:
    a dialog is made unless one is open *)
Definition satellite_refused (st : state) : state :=
  match dialog st with
  | None => set_dialog (Some (satellite_not_found (entries st name))) st
  | Some _ => st
  end.



(** the state after [selection.set(target)] *)
Definition selected (target : string) (st : state) : state :=
  set_string_vars (λ w, if decide (w = selection) then target else string_vars st w) st.

(** the date of the night folder of a start time *)
Definition folder_date (start : datetime) : option date :=
  if dt_hour start <? 12 then prev_day (dt_date start) else Some (dt_date start).

(** the files of the script's directory once [file_name] has gone into
    [folder_name], or has been removed because the folder has that file *)
Definition moved (folder_name file_name : string) (t : ticket) (fs : filesystem) : filesystem :=
  let folder := default ∅ (folders fs !! folder_name) in
  set_folders
    (match folder !! file_name with
     | Some _ => <[folder_name := folder]> (folders fs)
     | None => <[folder_name := <[file_name := t]> folder]> (folders fs)
     end)
    (set_tickets (delete file_name (tickets fs)) fs).

(** ** The folders of a batch *)

(** the folder [folder_name] of the script's directory has the file
    [file_name] *)
Definition archived (folder_name file_name : string) (fs : filesystem) : Prop :=
  ∃ folder, folders fs !! folder_name = Some folder ∧ is_Some (folder !! file_name).



(** ** Counting requests *)

(** the number of requests to [u] issued so far *)
Definition count_requests (u : url) (st : state) : nat :=
  count_occ url_eq_dec (requests st) u.

(** Two calls of [fetch], the second less than twelve hours after the
    first and on the files and the requests that the first has left, issue
    at most one request to [u] between them. *)
Definition fetched_once_per_window (u : url) (fetch : env → M unit) : Prop :=
  ∀ e1 e2 st st1 st1' st2,
    0 ≤ now e2 - now e1 < twelve_hours →
    fetch e1 st = (Return tt, st1) →
    disk st1' = disk st1 → requests st1' = requests st1 →
    fetch e2 st1' = (Return tt, st2) →
    (count_requests u st2 ≤ S (count_requests u st))%nat.

(** ** The listing in the words of the specification *)

(** the texts that [read_csv] takes for a missing value *)
Definition na_values : list string :=
  [""; "#N/A"; "#N/A N/A"; "#NA"; "-1.#IND"; "-1.#QNAN"; "-NaN"; "-nan"; "1.#IND";
   "1.#QNAN"; "<NA>"; "N/A"; "NA"; "NULL"; "NaN"; "None"; "n/a"; "nan"; "null"].

(** a cell as [read_csv] makes it: no text cell holds such a text *)
Definition read_cell (c : cell) : bool :=
  match c with
  | CStr s => negb (existsb (String.eqb s) na_values)
  | _ => true
  end.

(** a cell that is not empty *)
Definition present (c : cell) : bool :=
  match c with CNaN => false | _ => true end.

(** the night of a row *)
Definition night_of_date (r : Row) : option date := strptime_Ymd (str_cell (NoD r)).

(** the rows to list: identifier and date present, the night today or
    later *)
Definition listed (current_date : date) (r : Row) : bool :=
  present (Target r) && present (NoD r)
  && match night_of_date r with
     | Some night => date_leb current_date night
     | None => false
     end.

(** the entry of the row numbered [x], for a sheet with both tracking
    columns *)
Definition list_entry (x : nat) (r : Row) : string :=
  default "" (str_date <$> night_of_date r) +:+ ": "
  +:+ display_name (str_cell (Target r)) +:+ "_" +:+ str_cell (Start r)
  +:+ (if truthy_cell (Satellite_Tracking r)
       then "_Mode" +:+ str_cell (Tracking_Mode r) else "")
  +:+ "_" +:+ str_cell (Exp r) +:+ "_" +:+ str_cell (Filter r) +:+ "_#"
  +:+ Py.str_int (Z.of_nat x).

(** the entry of a row in [Observation_ticket_creator.pyw] *)
Definition list_entry_pyw (r : Row) : string :=
  default "" (str_date <$> night_of_date r) +:+ ": " +:+ str_cell (Target r).

(** the rows to list, numbered from [x] on, in the order of the sheet *)
Definition listing (current_date : date) (x : nat) (rs : list Row) : list string :=
  omap (λ xr, if listed current_date xr.2 then Some (list_entry xr.1 xr.2) else None)
       (zip (seq x (length rs)) rs).

Definition listing_pyw (current_date : date) (rs : list Row) : list string :=
  omap (λ r, if listed current_date r then Some (list_entry_pyw r) else None) rs.

(** ** The row that [Observation_ticket_creator.pyw] looks for *)

(** the test of the loop of [target_grab]: the date and the target of the
    row read as the selection has them *)
Definition matches_pyw (day target_toi : string) (r : Row) : bool :=
  String.eqb day (str_cell (NoD r)) && String.eqb (str_cell (Target r)) target_toi.

(** ** Matching and searching text *)

(** the first way in which [p] matches a prefix of [s]: the value [a], the
    text [r] left over *)
Definition first_match {A} (p : Re.parser A) (s : string) (a : A) (r : string) : Prop :=
  ∃ others, p s = (a, r) :: others.

(** [sub in s] *)
Fixpoint contains (sub s : string) : bool :=
  String.prefix sub s
  || match s with
     | String _ r => contains sub r
     | EmptyString => false
     end.

(** every character of [s] is one of [P] *)
Fixpoint all_chars (P : ascii → bool) (s : string) : bool :=
  match s with
  | EmptyString => true
  | String c r => P c && all_chars P r
  end.

(** a decimal digit *)
Definition is_digit (c : ascii) : bool := (48 <=? Py.code c) && (Py.code c <=? 57).

(** the part of an entry of the list between the date and the number of
    the row, for a sheet with both tracking columns *)
Definition entry_name (r : Row) : string :=
  display_name (str_cell (Target r)) +:+ "_" +:+ str_cell (Start r)
  +:+ (if truthy_cell (Satellite_Tracking r)
       then "_Mode" +:+ str_cell (Tracking_Mode r) else "")
  +:+ "_" +:+ str_cell (Exp r) +:+ "_" +:+ str_cell (Filter r).

(** ** Sample data *)

Definition no_files : filesystem := {| toi_info := None; tickets := ∅; folders := ∅ |}.

(** the state when the window opens: empty boxes, [initial_focus] set *)
Definition blank : state :=
  {| entries := λ _, ""; int_vars := λ v, if decide (v = initial_focus) then 1 else 0;
     string_vars := λ _, ""; SATELLITES := ∅; dialog := None; dialog_2 := None;
     toi_list := []; clipboard := ""; disk := no_files; requests := [] |}.

(** what the user types in a box *)
Definition typed (box : Entry) (text : string) (st : state) : state :=
  set_entries (λ b, if decide (b = box) then text else entries st b) st.

(** a schedule of two nights, the second one for a satellite *)
Definition sample_sheet : DataFrame :=
  {| rows :=
       [ {| NoD := CStr "2024-06-01"; Target := CStr "TOI 1234.01"; Start := CStr "23:00";
            End_ := CStr "05:00"; Filter := CStr "Ha,v"; Exp := CStr "30s,60s";
            Camera := CStr "CCD"; Satellite_Tracking := CInt 0; Tracking_Mode := CInt 0 |};
         {| NoD := CStr "2024-06-02"; Target := CStr "iss"; Start := CStr "02:30";
            End_ := CStr "03:00"; Filter := CStr "r"; Exp := CInt 5;
            Camera := CStr "CCD"; Satellite_Tracking := CInt 1; Tracking_Mode := CInt 2 |} ];
     has_Camera := true; has_Satellite_Tracking := true; has_Tracking_Mode := true |}.

Definition sample_info : list InfoRow :=
  [ {| TOI := CStr "1234.01"; RA := CStr "10:00:00"; Dec := CStr "+20:00:00" |} ].

Definition sample_tles : string :=
  "ISS (ZARYA)" +:+ Py.newline +:+ "1 25544U 98067A   24153.5 " +:+ Py.newline
  +:+ "2 25544  51.6393 " +:+ Py.newline +:+ "HST" +:+ Py.newline.

(** the afternoon of 2024-05-30, every remote resource answering *)
Definition sample_env : env :=
  {| now := 1717081200; today := Date 2024 5 30; hour := 15; tm_isdst := true;
     get_Google_Sheet := Some sample_sheet; get_Transit_Site := Some sample_info;
     get_tles := Some sample_tles; current_path := "C:/tickets" |}.

(** the state once the script has started on an empty directory *)
Definition sample_started : state := (startup sample_env blank).2.

(** the same with the second entry of the list selected *)
Definition sample_iss_selected : state :=
  (StringVar_set selection "2024-06-02: iss_02:30_Mode2_5_r_#1" sample_started).2.

(** the boxes filled from the satellite row *)
Definition sample_iss_grabbed : state := (target_grab sample_env sample_iss_selected).2.

(** one second after [sample_env] *)
Definition sample_env_later : env :=
  {| now := now sample_env + 1; today := today sample_env; hour := hour sample_env;
     tm_isdst := tm_isdst sample_env; get_Google_Sheet := get_Google_Sheet sample_env;
     get_Transit_Site := get_Transit_Site sample_env; get_tles := get_tles sample_env;
     current_path := current_path sample_env |}.

(** a sheet of twelve rows for the same night *)
Definition sample_twelve_rows : list Row :=
  replicate 12 {| NoD := CStr "2024-06-01"; Target := CStr "TOI 1234.01";
                  Start := CStr "23:00"; End_ := CStr "05:00"; Filter := CStr "v";
                  Exp := CStr "30s"; Camera := CStr "CCD";
                  Satellite_Tracking := CInt 0; Tracking_Mode := CInt 0 |}.

(** the first entry of the list of [sample_started] *)
Definition sample_first_target : string := "2024-06-01: TOI1234-01_23:00_30s,60s_Ha,v_#0".

(** the ticket of the first entry in its night folder *)
Definition sample_archived : state :=
  (save_into_folder sample_env sample_first_target sample_started).2.

(** the ticket of the first entry written again beside the folders *)
Definition sample_rewritten : state := (savetxt sample_env sample_archived).2.

(** every entry of the list in its night folder *)
Definition sample_batch : state := (save_all_auto_folders sample_env sample_started).2.

(** a schedule of one night whose observation starts at half past twelve *)
Definition sample_noon_sheet : DataFrame :=
  {| rows :=
       [ {| NoD := CStr "2024-06-01"; Target := CStr "M31"; Start := CStr "12:30";
            End_ := CStr "13:30"; Filter := CStr "v"; Exp := CStr "30s";
            Camera := CStr "CCD"; Satellite_Tracking := CInt 0; Tracking_Mode := CInt 0 |} ];
     has_Camera := true; has_Satellite_Tracking := true; has_Tracking_Mode := true |}.

Definition sample_noon_env : env :=
  {| now := now sample_env; today := today sample_env; hour := hour sample_env;
     tm_isdst := tm_isdst sample_env; get_Google_Sheet := Some sample_noon_sheet;
     get_Transit_Site := get_Transit_Site sample_env; get_tles := get_tles sample_env;
     current_path := current_path sample_env |}.

(** the batch of that schedule, from an empty directory *)
Definition sample_noon_batch : state :=
  (save_all_auto_folders sample_noon_env (startup sample_noon_env blank).2).2.

(** the state once [check_toi] has run on an empty directory *)
Definition sample_checked : state := (check_toi sample_env blank).2.


(** the schedule of [sample_sheet] without the two tracking columns *)
Definition sample_plain_sheet : DataFrame :=
  {| rows := rows sample_sheet; has_Camera := true;
     has_Satellite_Tracking := false; has_Tracking_Mode := false |}.

Definition sample_plain_env : env :=
  {| now := now sample_env; today := today sample_env; hour := hour sample_env;
     tm_isdst := tm_isdst sample_env; get_Google_Sheet := Some sample_plain_sheet;
     get_Transit_Site := get_Transit_Site sample_env; get_tles := get_tles sample_env;
     current_path := current_path sample_env |}.

Definition sample_plain_checked : state := (check_toi sample_plain_env blank).2.


(** a schedule that has the same night and target in two rows *)
Definition sample_twice_sheet : DataFrame :=
  {| rows :=
       [ {| NoD := CStr "2024-06-01"; Target := CStr "M31"; Start := CStr "22:00";
            End_ := CStr "23:00"; Filter := CStr "v"; Exp := CStr "30s";
            Camera := CStr "CCD"; Satellite_Tracking := CInt 0; Tracking_Mode := CInt 0 |};
         {| NoD := CStr "2024-06-01"; Target := CStr "M31"; Start := CStr "01:00";
            End_ := CStr "02:00"; Filter := CStr "r"; Exp := CStr "60s";
            Camera := CStr "CCD"; Satellite_Tracking := CInt 0; Tracking_Mode := CInt 0 |};
         {| NoD := CStr "2024-06-02"; Target := CStr "M31"; Start := CStr "03:00";
            End_ := CStr "04:00"; Filter := CStr "b"; Exp := CStr "90s";
            Camera := CStr "CCD"; Satellite_Tracking := CInt 0; Tracking_Mode := CInt 0 |} ];
     has_Camera := true; has_Satellite_Tracking := true; has_Tracking_Mode := true |}.

Definition sample_twice_env : env :=
  {| now := now sample_env; today := today sample_env; hour := hour sample_env;
     tm_isdst := tm_isdst sample_env; get_Google_Sheet := Some sample_twice_sheet;
     get_Transit_Site := get_Transit_Site sample_env; get_tles := get_tles sample_env;
     current_path := current_path sample_env |}.

(** that schedule saved, and its first night selected as
    [Observation_ticket_creator.pyw] lists it *)
Definition sample_twice_selected : state :=
  selected "2024-06-01: M31" (check_toi sample_twice_env blank).2.

(** a schedule whose date is written without the zeros *)
Definition sample_short_sheet : DataFrame :=
  {| rows :=
       [ {| NoD := CStr "2024-6-1"; Target := CStr "M31"; Start := CStr "22:00";
            End_ := CStr "23:00"; Filter := CStr "v"; Exp := CStr "30s";
            Camera := CStr "CCD"; Satellite_Tracking := CInt 0; Tracking_Mode := CInt 0 |} ];
     has_Camera := true; has_Satellite_Tracking := true; has_Tracking_Mode := true |}.

Definition sample_short_env : env :=
  {| now := now sample_env; today := today sample_env; hour := hour sample_env;
     tm_isdst := tm_isdst sample_env; get_Google_Sheet := Some sample_short_sheet;
     get_Transit_Site := get_Transit_Site sample_env; get_tles := get_tles sample_env;
     current_path := current_path sample_env |}.

(** that schedule saved, and its night selected as
    [Observation_ticket_creator.pyw] lists it *)
Definition sample_short_selected : state :=
  selected "2024-06-01: M31" (check_toi sample_short_env blank).2.

(** the schedule of [sample_sheet] with a satellite that [sample_tles]
    does not have *)
Definition sample_envisat_sheet : DataFrame :=
  {| rows :=
       [ {| NoD := CStr "2024-06-01"; Target := CStr "TOI 1234.01"; Start := CStr "23:00";
            End_ := CStr "05:00"; Filter := CStr "Ha,v"; Exp := CStr "30s,60s";
            Camera := CStr "CCD"; Satellite_Tracking := CInt 0; Tracking_Mode := CInt 0 |};
         {| NoD := CStr "2024-06-02"; Target := CStr "envisat"; Start := CStr "02:30";
            End_ := CStr "03:00"; Filter := CStr "r"; Exp := CInt 5;
            Camera := CStr "CCD"; Satellite_Tracking := CInt 1; Tracking_Mode := CInt 2 |} ];
     has_Camera := true; has_Satellite_Tracking := true; has_Tracking_Mode := true |}.

Definition sample_envisat_env : env :=
  {| now := now sample_env; today := today sample_env; hour := hour sample_env;
     tm_isdst := tm_isdst sample_env; get_Google_Sheet := Some sample_envisat_sheet;
     get_Transit_Site := get_Transit_Site sample_env; get_tles := get_tles sample_env;
     current_path := current_path sample_env |}.

(** the script started on that schedule, from an empty directory *)
Definition sample_envisat_started : state := (startup sample_envisat_env blank).2.

(** the entry of the satellite *)
Definition sample_envisat_target : string := "2024-06-02: envisat_02:30_Mode2_5_r_#1".

(** the first entry of the list filed *)
Definition sample_envisat_first_filed : state :=
  (for_each [sample_first_target] (save_into_folder sample_envisat_env)
     sample_envisat_started).2.

(** the entry of the satellite selected, the name in the box changed to
    one of the catalog, and the ticket saved *)
Definition sample_envisat_renamed : state :=
  (savetxt sample_envisat_env
     (typed name "hst"
        (target_grab sample_envisat_env
           (selected sample_envisat_target sample_envisat_started)).2)).2.

(** * Facts *)

(** ** Runs that return *)

Section monad_inversion.
Context {A B : Type}.
Implicit Types (m : M A) (f : A → M B) (st : state).

Lemma bind_Return m f st b st' :
  (m ≫= f) st = (Return b, st') →
  ∃ a st1, m st = (Return a, st1) ∧ f a st1 = (Return b, st').
Proof.
  unfold mbind, M_bind. destruct (m st) as [[a|err] st1]; [eauto|discriminate].
Qed.

Lemma bind_run m f st a st1 :
  m st = (Return a, st1) → (m ≫= f) st = f a st1.
Proof. unfold mbind, M_bind. by intros ->. Qed.

Lemma fmap_Return (g : A → B) m st b st' :
  (g <$> m) st = (Return b, st') → ∃ a, m st = (Return a, st') ∧ b = g a.
Proof.
  unfold fmap, M_fmap. destruct (m st) as [[a|err] st1]; [|discriminate].
  intros [= <- <-]. eauto.
Qed.

Lemma fmap_run (g : A → B) m st a st1 :
  m st = (Return a, st1) → (g <$> m) st = (Return (g a), st1).
Proof. unfold fmap, M_fmap. by intros ->. Qed.

Lemma or_raise_Return err (o : option A) st a st' :
  or_raise err o st = (Return a, st') → o = Some a ∧ st' = st.
Proof. destruct o; [intros [= <- <-]; eauto|discriminate]. Qed.

Lemma mret_Return (a a' : A) st st' :
  mret (M:=M) a st = (Return a', st') → a' = a ∧ st' = st.
Proof. intros [= <- <-]; eauto. Qed.

(** A run is known by its result and the state it leaves. *)
Lemma run_Return m st a : (m st).1 = Return a → m st = (Return a, (m st).2).
Proof. destruct (m st) as [r s]. cbn. by intros ->. Qed.
End monad_inversion.

Lemma get_Return st a st' : get st = (Return a, st') → a = st ∧ st' = st.
Proof. intros [= <- <-]; eauto. Qed.

Lemma modify_Return f st u st' : modify f st = (Return u, st') → st' = f st.
Proof. by intros [= <-]. Qed.

(** Inversion of a run that returns, from the head of [H] on. The state
    after a [modify] is kept by its equation. *)
Ltac subst_var H :=
  lazymatch type of H with
  | ?x = ?y => first [is_var x; subst x | is_var y; subst y | clear H]
  end.

Ltac minv H :=
  lazymatch type of H with
  | mbind _ _ _ = (Return _, _) =>
      let H1 := fresh "H" in
      apply bind_Return in H as (? & ? & H1 & H); minv H1; minv H
  | fmap _ _ _ = (Return _, _) =>
      let H1 := fresh "H" in let E := fresh "E" in
      apply fmap_Return in H as (? & H1 & E); subst_var E; minv H1
  | get _ = (Return _, _) =>
      let E1 := fresh "E" in let E2 := fresh "E" in
      apply get_Return in H as [E1 E2]; subst_var E1; subst_var E2
  | modify _ _ = (Return _, _) => apply modify_Return in H
  | or_raise _ _ _ = (Return _, _) =>
      let E := fresh "E" in let E2 := fresh "E" in
      apply or_raise_Return in H as [E E2]; subst_var E2; try discriminate E
  | mret _ _ = (Return _, _) =>
      let E1 := fresh "E" in let E2 := fresh "E" in
      apply mret_Return in H as [E1 E2]; subst_var E1; subst_var E2
  | raise _ _ = (Return _, _) => discriminate H
  | (if ?c then _ else _) _ = (Return _, _) =>
      let E := fresh "E" in destruct c eqn:E; minv H
  | (match ?c with _ => _ end) _ = (Return _, _) =>
      let E := fresh "E" in destruct c eqn:E; minv H
  | (let _ := _ in _) _ = (Return _, _) => cbv zeta in H; minv H
  | clear_box _ = _ => unfold clear_box in H; minv H
  | Entry_insert _ _ _ _ = _ => unfold Entry_insert in H; minv H
  | IntVar_set _ _ _ = _ => unfold IntVar_set in H; minv H
  | StringVar_set _ _ _ = _ => unfold StringVar_set in H; minv H
  | read_info _ _ = _ => unfold read_info in H; minv H
  | write_info _ _ = _ => unfold write_info in H; minv H
  | requests_get _ _ _ = _ => unfold requests_get in H; minv H
  | list_split _ _ = _ => unfold list_split in H; minv H
  | write_ticket _ _ _ = _ => unfold write_ticket in H; minv H
  | _ => idtac
  end.

(** A field of a state that is known by the equation of its last update. *)
Ltac field_step :=
  match goal with
  | H : ?s = _ |- context [entries ?s] => is_var s; rewrite H
  | H : ?s = _ |- context [int_vars ?s] => is_var s; rewrite H
  | H : ?s = _ |- context [string_vars ?s] => is_var s; rewrite H
  | H : ?s = _ |- context [SATELLITES ?s] => is_var s; rewrite H
  | H : ?s = _ |- context [dialog ?s] => is_var s; rewrite H
  | H : ?s = _ |- context [dialog_2 ?s] => is_var s; rewrite H
  | H : ?s = _ |- context [toi_list ?s] => is_var s; rewrite H
  | H : ?s = _ |- context [clipboard ?s] => is_var s; rewrite H
  | H : ?s = _ |- context [disk ?s] => is_var s; rewrite H
  | H : ?s = _ |- context [requests ?s] => is_var s; rewrite H
  end;
  cbn [entries int_vars string_vars SATELLITES dialog dialog_2 toi_list clipboard disk
       requests set_entries set_int_vars set_string_vars set_SATELLITES set_dialog
       set_dialog_2 set_toi_list set_clipboard set_disk set_requests].

(** the test of an update on a widget that is known *)
Ltac goal_decide :=
  match goal with
  | |- context [decide (?a = ?b)] =>
      destruct (decide (a = b)) as [?|?];
      [first [discriminate | idtac] | first [congruence | idtac]]
  end.

Ltac fields := repeat (field_step; repeat goal_decide).

(** ** Facts on [str] *)

Lemma append_nil_l (s : string) : "" +:+ s = s.
Proof. reflexivity. Qed.

Lemma append_nil_r (s : string) : s +:+ "" = s.
Proof. induction s as [|c s IH]; [done|]. change (String c (s +:+ "") = String c s). by rewrite IH. Qed.

Lemma append_cons (c : ascii) (s t : string) : String c s +:+ t = String c (s +:+ t).
Proof. reflexivity. Qed.

Lemma append_length (s t : string) :
  String.length (s +:+ t) = (String.length s + String.length t)%nat.
Proof. induction s as [|c s IH]; [done|]. rewrite append_cons. simpl. by rewrite IH. Qed.

Lemma append_assoc (a b c : string) : (a +:+ b) +:+ c = a +:+ b +:+ c.
Proof. induction a as [|x a IH]; [done|]. rewrite !append_cons. by rewrite IH. Qed.

Lemma prefix_char c d r : String.prefix (String c "") (String d r) = bool_decide (c = d).
Proof.
  cbn [String.prefix]. destruct (ascii_dec c d) as [->|Hne].
  - rewrite bool_decide_eq_true_2 by done. by destruct r.
  - by rewrite bool_decide_eq_false_2.
Qed.

Lemma contains_char_cons c d r :
  Py.contains_char c (String d r) = false ↔ c ≠ d ∧ Py.contains_char c r = false.
Proof.
  simpl. destruct (Ascii.eqb_spec c d) as [->|Hne]; [split; [done|by intros [? _]]|].
  split; [done|by intros [_ ?]].
Qed.

Lemma split_go_free c t :
  Py.contains_char c t = false → Py.split_go (String c "") 0 t = (t, []).
Proof.
  induction t as [|d t IH]; [done|].
  intros [Hne Hfree]%contains_char_cons.
  cbn [Py.split_go]. rewrite prefix_char, bool_decide_eq_false_2 by done.
  by rewrite IH.
Qed.

Lemma split_go_sep c t rest :
  Py.contains_char c t = false →
  Py.split_go (String c "") 0 (t +:+ String c rest)
  = (t, (Py.split_go (String c "") 0 rest).1 :: (Py.split_go (String c "") 0 rest).2).
Proof.
  induction t as [|d t IH].
  - intros _. rewrite append_nil_l. cbn [Py.split_go].
    rewrite prefix_char, bool_decide_eq_true_2 by done.
    cbn [String.length Nat.pred]. by destruct (Py.split_go _ _ rest).
  - intros [Hne Hfree]%contains_char_cons.
    rewrite append_cons. cbn [Py.split_go].
    rewrite prefix_char, bool_decide_eq_false_2 by done.
    by rewrite IH.
Qed.

(** Splitting at a one-character separator undoes joining with it. *)
Lemma split_join c (toks : list string) :
  toks ≠ [] →
  Forall (λ t, Py.contains_char c t = false) toks →
  Py.split (Py.join (String c "") toks) (String c "") = toks.
Proof.
  intros Hne Hfree. unfold Py.split.
  induction Hfree as [|t toks Ht Hfree IH]; [done|].
  destruct toks as [|t' toks].
  - cbn [Py.join]. by rewrite split_go_free.
  - change (Py.join (String c "") (t :: t' :: toks))
      with (t +:+ String c "" +:+ Py.join (String c "") (t' :: toks)).
    rewrite append_cons, append_nil_l.
    rewrite split_go_sep by done.
    specialize (IH ltac:(done)).
    destruct (Py.split_go _ _ (Py.join _ _)) as [a b]. simpl in *. by rewrite IH.
Qed.

(** ** C3: the filter specification *)

Example list_split_Ha_v_R :
  (list_split filter_ (typed filter_ "Ha, v, R" blank)).1
  = Return (Str ("[" +:+ Py.dquote +:+ "Ha" +:+ Py.dquote +:+ ", " +:+ Py.dquote +:+ "v"
                 +:+ Py.dquote +:+ ", " +:+ Py.dquote +:+ "r" +:+ Py.dquote +:+ "]")).
Proof. reflexivity. Qed.

Example list_split_v : (list_split filter_ (typed filter_ "v" blank)).1 = Return (Str "v").
Proof. reflexivity. Qed.

Example list_split_HA : (list_split filter_ (typed filter_ "HA" blank)).1 = Return (Str "ha").
Proof. reflexivity. Qed.

Example list_split_exposures :
  (list_split exposure_time (typed exposure_time "30, 60" blank)).1
  = Return (FloatList [Py.PyFloat "30"; Py.PyFloat "60"]).
Proof. reflexivity. Qed.

(** C3, as stated, fails: for the input "Ha, v, R" [list_split] does not
    return the list of the three filters. It returns one string, the JSON
    text of that list. *)
Lemma list_split_filter_not_a_list :
  ¬ ∃ st', list_split filter_ (typed filter_ "Ha, v, R" blank)
           = (Return (StrList ["Ha"; "v"; "r"]), st').
Proof. intros [st' H]. apply (f_equal fst) in H. vm_compute in H. discriminate H. Qed.

(** C3, amended: for a filter box whose text, blanks removed, is the
    comma-separated sequence [toks], [list_split] returns a string and
    leaves the state as it is: every token is lowercased except the token
    "Ha", the order is kept, a single token gives that token, and several
    tokens give the JSON text of their list. *)
Theorem list_split_filter (toks : list string) (st : state) :
  toks ≠ [] →
  Forall (λ t, Py.contains_char "," t = false) toks →
  Py.replace (entries st filter_) " " "" = Py.join "," toks →
  list_split filter_ st
  = (Return (Str (match (λ t, if String.eqb t "Ha" then "Ha" else Py.lower t) <$> toks with
                  | [t] => t
                  | ts => Py.json_dumps_list ts
                  end)), st).
Proof.
  intros Hne Hfree Htext. unfold list_split.
  rewrite (bind_run _ _ st st st) by done. unfold list_split_text. cbv zeta.
  rewrite Htext, split_join by done.
  destruct (decide (filter_ = exposure_time)) as [?|_]; [done|].
  destruct (decide (filter_ = filter_)) as [_|?]; [|done].
  assert (∀ l : list string, keep_Ha <$> l
               = (λ t, if String.eqb t "Ha" then "Ha" else Py.lower t) <$> l) as Hk.
  { intros l. apply list_fmap_ext. intros _ t _. unfold keep_Ha.
    by destruct (String.eqb_spec t "Ha") as [->|]. }
  rewrite <- Hk. destruct toks as [|t [|t' toks]]; [done| |]; try reflexivity.
Qed.

Lemma list_split_filter_witness :
  list_split filter_ (typed filter_ "Ha, v, R" blank)
  = (Return (Str (Py.json_dumps_list ["Ha"; "v"; "r"])), typed filter_ "Ha, v, R" blank).
Proof.
  apply (list_split_filter ["Ha"; "v"; "R"] (typed filter_ "Ha, v, R" blank)).
  - discriminate.
  - repeat constructor.
  - reflexivity.
Defined.

(** ** Facts on digits and on the patterns of [_strptime] *)

Lemma digit_val_spec c v : Py.digit_val c = Some v → 0 ≤ v ≤ 9 ∧ c = Py.digit_char v.
Proof.
  unfold Py.digit_val, Py.digit_char, Py.code.
  destruct (_ && _) eqn:Hrange; [|discriminate]. intros [= <-].
  apply andb_true_iff in Hrange as [?%Z.leb_le ?%Z.leb_le].
  split; [lia|].
  replace (48 + (Z.of_N (N_of_ascii c) - 48)) with (Z.of_N (N_of_ascii c)) by lia.
  by rewrite N2Z.id, ascii_N_embedding.
Qed.

Lemma digit_val_char v : 0 ≤ v ≤ 9 → Py.digit_val (Py.digit_char v) = Some v.
Proof.
  intros Hv.
  assert (v = 0 ∨ v = 1 ∨ v = 2 ∨ v = 3 ∨ v = 4 ∨ v = 5 ∨ v = 6 ∨ v = 7 ∨ v = 8 ∨ v = 9)
    as Hcases by lia.
  repeat destruct Hcases as [->|Hcases]; try reflexivity. by subst.
Qed.

Lemma pad2_digits a b :
  0 ≤ a → 0 ≤ b ≤ 9 →
  Py.pad2 (10 * a + b) = String (Py.digit_char a) (String (Py.digit_char b) "").
Proof.
  intros Ha Hb. unfold Py.pad2.
  replace ((10 * a + b) / 10) with a by (apply Z.div_unique with b; lia).
  replace ((10 * a + b) mod 10) with b by (apply Z.mod_unique with a; lia).
  done.
Qed.

Lemma elem_of_bind {A B} (p : Re.parser A) (k : A → Re.parser B) s b r :
  (b, r) ∈ Re.bind p k s ↔ ∃ a r', (a, r') ∈ p s ∧ (b, r) ∈ k a r'.
Proof.
  unfold Re.bind. rewrite list_elem_of_In, in_flat_map. split.
  - intros [[a r'] [Hin Hk]]. exists a, r'. by rewrite !list_elem_of_In.
  - intros (a & r' & Hin & Hk). exists (a, r'). by rewrite <- !list_elem_of_In.
Qed.

Lemma elem_of_alt {A} (p q : Re.parser A) s x : x ∈ Re.alt p q s ↔ x ∈ p s ∨ x ∈ q s.
Proof. unfold Re.alt. apply elem_of_app. Qed.

Lemma elem_of_ret {A} (a b : A) s r : (b, r) ∈ Re.ret a s ↔ a = b ∧ s = r.
Proof.
  unfold Re.ret. rewrite list_elem_of_singleton. split; [by intros [= -> ->]|by intros [-> ->]].
Qed.

Lemma elem_of_digit lo hi s v r :
  (v, r) ∈ Re.digit lo hi s → s = String (Py.digit_char v) r ∧ lo ≤ v ≤ hi ∧ 0 ≤ v ≤ 9.
Proof.
  unfold Re.digit. destruct s as [|c s]; [by intros ?%elem_of_nil|].
  destruct (Py.digit_val c) as [w|] eqn:Hc; [|by intros ?%elem_of_nil].
  destruct (_ && _) eqn:Hr; [|by intros ?%elem_of_nil].
  intros [= -> ->]%list_elem_of_singleton.
  apply digit_val_spec in Hc as [? ->].
  apply andb_true_iff in Hr as [?%Z.leb_le ?%Z.leb_le]. done.
Qed.

Lemma elem_of_lit c s u r : (u, r) ∈ Re.lit c s → s = String c r.
Proof.
  unfold Re.lit. destruct s as [|d s]; [by intros ?%elem_of_nil|].
  destruct (Ascii.eqb_spec c d) as [->|]; [|by intros ?%elem_of_nil].
  by intros [= _ ->]%list_elem_of_singleton.
Qed.

Lemma elem_of_two l1 h1 l2 h2 s n r :
  0 ≤ l1 → (n, r) ∈ Re.two l1 h1 l2 h2 s →
  s = Py.pad2 n +:+ r ∧ 10 * l1 + l2 ≤ n ≤ 10 * h1 + h2.
Proof.
  intros Hl1. unfold Re.two.
  intros (a & r1 & Ha & (b & r2 & Hb & [<- ->]%elem_of_ret)%elem_of_bind)%elem_of_bind.
  apply elem_of_digit in Ha as (-> & ? & ?), Hb as (-> & ? & ?).
  rewrite pad2_digits by lia. split; [done|lia].
Qed.

(** What a match of the clock pattern has read: the hour and the minute
    are in range, and each is written on two digits or on one. *)
Lemma elem_of_pat_HM s h m r :
  ((h, m), r) ∈ Re.pat_HM s →
  0 ≤ h ≤ 23 ∧ 0 ≤ m ≤ 59 ∧
  ∃ ht mt, s = ht +:+ ":" +:+ mt +:+ r
    ∧ (ht = Py.pad2 h ∨ ht = String (Py.digit_char h) "")
    ∧ (mt = Py.pad2 m ∨ mt = String (Py.digit_char m) "").
Proof.
  unfold Re.pat_HM.
  intros (h' & r1 & Hh & (u & r2 & Hc & (m' & r3 & Hm & [[= -> ->] ->]%elem_of_ret
    )%elem_of_bind)%elem_of_bind)%elem_of_bind.
  apply elem_of_lit in Hc as ->.
  assert (0 ≤ h ≤ 23 ∧ (s = Py.pad2 h +:+ String ":" r2
                         ∨ s = String (Py.digit_char h) "" +:+ String ":" r2)) as [? Hs].
  { unfold Re.dir_H in Hh.
    apply elem_of_alt in Hh as [Hh|[Hh|Hh]%elem_of_alt].
    - apply elem_of_two in Hh as [-> ?]; [|done]. split; [lia|by left].
    - apply elem_of_two in Hh as [-> ?]; [|done]. split; [lia|by left].
    - apply elem_of_digit in Hh as (-> & ? & ?). split; [lia|by right]. }
  assert (0 ≤ m ≤ 59 ∧ (r2 = Py.pad2 m +:+ r ∨ r2 = String (Py.digit_char m) "" +:+ r))
    as [? Hr2].
  { unfold Re.dir_M in Hm.
    apply elem_of_alt in Hm as [Hm|Hm].
    - apply elem_of_two in Hm as [-> ?]; [|done]. split; [lia|by left].
    - apply elem_of_digit in Hm as (-> & ? & ?). split; [lia|by right]. }
  split; [done|]. split; [done|].
  destruct Hs as [->| ->], Hr2 as [->| ->]; eexists _, _; (split; [reflexivity|]); auto.
Qed.

Lemma strptime_match_elem {A} (p : Re.parser A) s a :
  Re.strptime_match p s = Some a → (a, "") ∈ p s.
Proof.
  unfold Re.strptime_match. destruct (p s) as [|[a' [|c r]] l]; [done| |done].
  intros [= ->]. apply list_elem_of_here.
Qed.

(** A clock that [strptime] accepts for "%H:%M": its hour and minute are
    in range, and a clock of five characters is the hour and the minute on
    two digits each. *)
Lemma strptime_HM_clock s h m :
  strptime_HM s = Some (h, m) →
  0 ≤ h ≤ 23 ∧ 0 ≤ m ≤ 59 ∧ (String.length s = 5%nat → s = Py.pad2 h +:+ ":" +:+ Py.pad2 m).
Proof.
  intros (? & ? & ht & mt & -> & Hht & Hmt)%strptime_match_elem%elem_of_pat_HM.
  split; [done|]. split; [done|]. rewrite append_nil_r.
  destruct Hht as [->| ->], Hmt as [->| ->]; cbn; intros; done.
Qed.
(** ** [target_grab] returns *)

(** The ephemeris table is read from the file when the file is at most
    twelve hours old, and is downloaded otherwise. *)
Lemma target_grab_info_chart_Return e st tbl st' :
  target_grab_info_chart e st = (Return tbl, st') →
  (st' = st ∧ ∃ f, toi_info (disk st) ≫= info_chart_csv = Some f
                   ∧ now e - mtime f ≤ twelve_hours ∧ content f = tbl)
  ∨ (∃ d, toi_info (disk st) = Some d
          ∧ get_Transit_Site e = Some tbl
          ∧ (∀ f, info_chart_csv d = Some f → twelve_hours < now e - mtime f)
          ∧ st' = set_disk
                    (set_toi_info
                       (Some {| google_csv := google_csv d;
                                info_chart_csv := Some (File tbl (now e));
                                satellites_txt := satellites_txt d |}) (disk st))
                    (set_requests (Transit_Site :: requests st) st)).
Proof.
  intros H. unfold target_grab_info_chart in H. minv H.
  - right. subst. cbn in *. simplify_eq. eexists. repeat split; try done.
    intros f Hf. rewrite E1 in E. cbn in E. rewrite Hf in E.
    destruct (Z.gtb_spec (now e - mtime f) twelve_hours); [lia|done].
  - left. split; [done|]. cbn in *. eexists. split; [done|]. split; [|done].
    match goal with H : _ = Some ?f |- _ - mtime ?f ≤ _ => rewrite H in E end.
    match goal with |- ?a ≤ ?b => destruct (Z.gtb_spec a b); [done|lia] end.
Qed.
Lemma rollover_Return d h st t st' :
  rollover d h st = (Return t, st') →
  st' = st ∧ ∃ d', (if h <=? 12 then next_day d else Some d) = Some d' ∧ t = str_date d'.
Proof.
  intros H. unfold rollover in H. destruct (h <=? 12); minv H; eauto.
Qed.

(** Loading the ephemeris table changes the files and the requests only. *)
Lemma target_grab_info_chart_frame e st tbl st' :
  target_grab_info_chart e st = (Return tbl, st') →
  entries st' = entries st ∧ int_vars st' = int_vars st
  ∧ string_vars st' = string_vars st ∧ SATELLITES st' = SATELLITES st
  ∧ dialog st' = dialog st ∧ dialog_2 st' = dialog_2 st
  ∧ toi_list st' = toi_list st ∧ clipboard st' = clipboard st
  ∧ tickets (disk st') = tickets (disk st) ∧ folders (disk st') = folders (disk st).
Proof.
  intros [[-> _]|(d & _ & _ & _ & ->)]%target_grab_info_chart_Return;
    repeat split; reflexivity.
Qed.

(** Every fact a returning [target_grab] rests on, and the state it
    leaves. *)
Lemma target_grab_Return e st st' :
  string_vars st selection ≠ "Observation List" →
  target_grab e st = (Return tt, st') →
  ∃ start_date r sheet sat mode info_csv st1 hs ms he me ds de,
    selected_date st = Some start_date
    ∧ selected_row st = Some r
    ∧ content <$> (toi_info (disk st) ≫= google_csv) = Some sheet
    ∧ has_Satellite_Tracking sheet = true ∧ int_cell (Satellite_Tracking r) = Some sat
    ∧ has_Tracking_Mode sheet = true ∧ int_cell (Tracking_Mode r) = Some mode
    ∧ target_grab_info_chart e (cleared st) = (Return info_csv, st1)
    ∧ strptime_HM (str_cell (Start r)) = Some (hs, ms)
    ∧ strptime_HM (str_cell (End_ r)) = Some (he, me)
    ∧ (if hs <=? 12 then next_day start_date else Some start_date) = Some ds
    ∧ (if he <=? 12 then next_day start_date else Some start_date) = Some de
    ∧ (∀ b, entries st' b =
          match b with
          | name => display_name (str_cell (Target r))
          | ra => str_coord (fst <$> find_coords info_csv (lookup_name (str_cell (Target r))))
          | dec => str_coord (snd <$> find_coords info_csv (lookup_name (str_cell (Target r))))
          | start_time => str_date ds +:+ " " +:+ strftime_HMS hs ms 0
          | end_time => str_date de +:+ " " +:+ strftime_HMS he me 0
          | filter_ => str_cell (Filter r)
          | n_exposures => "100000"
          | exposure_time => Py.replace (str_cell (Exp r)) "s" ""
          end)
    ∧ (∀ v, int_vars st' v =
          match v with
          | satellite_tracking => sat
          | satellite_tracking_mode => mode
          | self_guide => if sat =? 0 then 1 else 0
          | _ => int_vars st v
          end)
    ∧ (∀ v, string_vars st' v =
          match v with
          | camera => if has_Camera sheet then str_cell (Camera r) else "CCD"
          | selection => string_vars st selection
          end)
    ∧ SATELLITES st' = SATELLITES st ∧ dialog st' = dialog st
    ∧ dialog_2 st' = dialog_2 st ∧ toi_list st' = toi_list st
    ∧ clipboard st' = clipboard st
    ∧ disk st' = disk st1 ∧ requests st' = requests st1.
Proof.
  intros Hsel H. unfold target_grab in H. minv H; [done|].
  repeat match goal with
         | H : rollover _ _ _ = _ |- _ => apply rollover_Return in H as (-> & ? & ? & ->)
         | H : Some _ = Some _ |- _ => injection H as <-
         end.
  match goal with
  | H : target_grab_info_chart _ _ = _ |- _ =>
      pose proof (target_grab_info_chart_frame _ _ _ _ H)
        as (Hfe & Hfi & Hfs & HfS & Hfd & Hfd2 & Hft & Hfc & _ & _)
  end.
  match goal with
  | H1 : strptime_HM (str_cell (Start _)) = Some ?a,
    H2 : strptime_HM (str_cell (End_ _)) = Some ?b |- _ => destruct a as [hs ms], b as [he me]
  end.
  assert (disk (cleared st) = disk st) as Hdisk by done.
  match goal with H : ?s = set_entries _ st |- _ => change (s = cleared st) in H; subst s end.
  rewrite Hdisk in *.
  assert (∀ b, entries (cleared st) b = "") as Hcl by (by intros []).
  exists x1, x4, (content x5), x8, x9, x6, x7, hs, ms, he, me, x13, x15.
  split; [exact E0|]. split.
  { unfold selected_row. rewrite E1. cbn [mbind option_bind]. rewrite E3.
    cbn [mbind option_bind]. rewrite E2. exact E4. }
  split; [by rewrite E2|].
  split; [exact E5|]. split; [exact E6|]. split; [exact E7|]. split; [exact E8|].
  split; [exact H1|]. split; [exact E9|]. split; [exact E10|].
  split; [exact H2|]. split; [exact H3|].
  split.
  { intros b. destruct b; fields; rewrite Hfe, Hcl; cbn [Py.take Py.drop];
      rewrite ?append_nil_l, ?append_nil_r; reflexivity. }
  split. { intros v. destruct v; fields; rewrite ?Hfi; reflexivity. }
  split. { intros v. destruct v; fields; rewrite ?Hfs; reflexivity. }
  split; [fields; exact HfS|]. split; [fields; exact Hfd|].
  split; [fields; exact Hfd2|]. split; [fields; exact Hft|].
  split; [fields; exact Hfc|]. split; fields; reflexivity.
Qed.
(** ** C2: the day of a clock time *)

Example rollover_0030 : (rollover (Date 2024 6 1) 0 blank).1 = Return "2024-06-02".
Proof. reflexivity. Qed.
Example rollover_1200 : (rollover (Date 2024 6 1) 12 blank).1 = Return "2024-06-02".
Proof. reflexivity. Qed.
Example rollover_1201 : (rollover (Date 2024 6 1) 13 blank).1 = Return "2024-06-01".
Proof. reflexivity. Qed.
Example rollover_month_end : (rollover (Date 2024 2 29) 5 blank).1 = Return "2024-03-01".
Proof. reflexivity. Qed.
Example rollover_last_day : (rollover (Date 9999 12 31) 5 blank).1 = Raise OverflowError.
Proof. reflexivity. Qed.

Example sample_started_times :
  entries sample_started start_time = "2024-06-01 23:00:00"
  ∧ entries sample_started end_time = "2024-06-02 05:00:00".
Proof. split; vm_compute; reflexivity. Qed.

(** C2: when [target_grab] returns for a selected row, the start and the
    end clock of the row are resolved each on its own: a clock whose hour
    is at most 12 falls on the day after the night of the selection, a
    clock whose hour is greater than 12 on that night itself, and the box
    holds the resolved date, a blank, the hour and the minute on two digits
    and zero seconds; for a clock written HH:MM this is the date, a blank,
    the clock and ":00". *)
Theorem day_rollover e st st' :
  string_vars st selection ≠ "Observation List" →
  target_grab e st = (Return tt, st') →
  ∃ night_of_date r hs ms he me ds de,
    selected_date st = Some night_of_date
    ∧ selected_row st = Some r
    ∧ strptime_HM (str_cell (Start r)) = Some (hs, ms)
    ∧ strptime_HM (str_cell (End_ r)) = Some (he, me)
    ∧ (hs ≤ 12 → next_day night_of_date = Some ds) ∧ (12 < hs → ds = night_of_date)
    ∧ (he ≤ 12 → next_day night_of_date = Some de) ∧ (12 < he → de = night_of_date)
    ∧ entries st' start_time
      = str_date ds +:+ " " +:+ Py.pad2 hs +:+ ":" +:+ Py.pad2 ms +:+ ":00"
    ∧ entries st' end_time
      = str_date de +:+ " " +:+ Py.pad2 he +:+ ":" +:+ Py.pad2 me +:+ ":00"
    ∧ (String.length (str_cell (Start r)) = 5%nat →
       entries st' start_time = str_date ds +:+ " " +:+ str_cell (Start r) +:+ ":00")
    ∧ (String.length (str_cell (End_ r)) = 5%nat →
       entries st' end_time = str_date de +:+ " " +:+ str_cell (End_ r) +:+ ":00").
Proof.
  intros Hsel H.
  destruct (target_grab_Return _ _ _ Hsel H)
    as (night & r & sheet & sat & mode & info & st1 & hs & ms & he & me & ds & de
        & Hd & Hr & _ & _ & _ & _ & _ & _ & Hs & He & Hds & Hde & Hent & _).
  exists night, r, hs, ms, he, me, ds, de.
  pose proof (Hent start_time) as Hst. pose proof (Hent end_time) as Het. cbn in Hst, Het.
  destruct (strptime_HM_clock _ _ _ Hs) as (_ & _ & Hcs).
  destruct (strptime_HM_clock _ _ _ He) as (_ & _ & Hce).
  assert (∀ h m, strftime_HMS h m 0 = Py.pad2 h +:+ ":" +:+ Py.pad2 m +:+ ":00") as Hfmt.
  { intros h m. unfold strftime_HMS. reflexivity. }
  pose proof append_assoc as Hassoc.
  repeat split; try done.
  - intros Hle. destruct (Z.leb_spec hs 12); [done|lia].
  - intros Hlt. destruct (Z.leb_spec hs 12); [lia|congruence].
  - intros Hle. destruct (Z.leb_spec he 12); [done|lia].
  - intros Hlt. destruct (Z.leb_spec he 12); [lia|congruence].
  - intros Hlen. rewrite Hst, Hfmt. rewrite (Hcs Hlen). by rewrite !Hassoc.
  - intros Hlen. rewrite Het, Hfmt. rewrite (Hce Hlen). by rewrite !Hassoc.
Qed.

Lemma day_rollover_witness :
  ∃ night_of_date r hs ms he me ds de,
    selected_date sample_started = Some night_of_date
    ∧ selected_row sample_started = Some r
    ∧ strptime_HM (str_cell (Start r)) = Some (hs, ms)
    ∧ strptime_HM (str_cell (End_ r)) = Some (he, me)
    ∧ (hs ≤ 12 → next_day night_of_date = Some ds) ∧ (12 < hs → ds = night_of_date)
    ∧ (he ≤ 12 → next_day night_of_date = Some de) ∧ (12 < he → de = night_of_date)
    ∧ entries (target_grab sample_env sample_started).2 start_time
      = str_date ds +:+ " " +:+ Py.pad2 hs +:+ ":" +:+ Py.pad2 ms +:+ ":00"
    ∧ entries (target_grab sample_env sample_started).2 end_time
      = str_date de +:+ " " +:+ Py.pad2 he +:+ ":" +:+ Py.pad2 me +:+ ":00"
    ∧ (String.length (str_cell (Start r)) = 5%nat →
       entries (target_grab sample_env sample_started).2 start_time
       = str_date ds +:+ " " +:+ str_cell (Start r) +:+ ":00")
    ∧ (String.length (str_cell (End_ r)) = 5%nat →
       entries (target_grab sample_env sample_started).2 end_time
       = str_date de +:+ " " +:+ str_cell (End_ r) +:+ ":00").
Proof.
  apply (day_rollover sample_env sample_started (target_grab sample_env sample_started).2).
  - vm_compute. discriminate.
  - apply run_Return. vm_compute. reflexivity.
Defined.
(** ** [savetxt] returns *)

(** [savetxt] returns in two ways: the satellite is refused and nothing is
    written, or the ticket of the boxes is written. *)
Lemma savetxt_Return e st st' :
  savetxt e st = (Return tt, st') →
  ∃ i j,
    list_split_text filter_ (entries st filter_) = Some i
    ∧ list_split_text exposure_time (entries st exposure_time) = Some j
    ∧ ((int_vars st satellite_tracking ≠ 0
        ∧ (Py.upper (entries st name) ∉ SATELLITES st)
        ∧ st' = satellite_refused st)
       ∨ ((int_vars st satellite_tracking = 0 ∨ Py.upper (entries st name) ∈ SATELLITES st)
          ∧ ∃ num path,
              Py.int (entries st n_exposures) = Some num
              ∧ ticket_file (string_vars st selection) = Some path
              ∧ st' = ticket_written path (observation_ticket (dst_check e) st i j num) st)).
Proof.
  intros H. unfold savetxt in H. cbv zeta in H. minv H.
  all: eexists _, _; split; [eassumption|]; split; [eassumption|].
  all: match goal with
       | Hc : _ && _ = true |- _ =>
           apply andb_true_iff in Hc as [Hsat Hcat];
           apply negb_true_iff, Z.eqb_neq in Hsat;
           apply negb_true_iff, bool_decide_eq_false in Hcat;
           left; split; [done|]; split; [done|]
       | Hc : _ && _ = false |- _ =>
           right; split;
           [apply andb_false_iff in Hc as [Hsat|Hcat];
            [left; by apply negb_false_iff, Z.eqb_eq in Hsat
            |right; by apply negb_false_iff, bool_decide_eq_true in Hcat]
           |eexists _, _; split; [eassumption|]; split; [eassumption|]]
       end.
  all: unfold satellite_refused, ticket_written, dialog_closed;
    match goal with Hd : dialog _ = _ |- _ => rewrite Hd end; by subst.
Qed.

Ltac run_savetxt Hi Hj :=
  unfold savetxt, list_split, write_ticket;
  cbv [mbind M_bind get modify mret M_ret or_raise raise];
  rewrite Hi, Hj.

(** The satellite is refused. *)
Lemma savetxt_refuses e st i j :
  list_split_text filter_ (entries st filter_) = Some i →
  list_split_text exposure_time (entries st exposure_time) = Some j →
  int_vars st satellite_tracking ≠ 0 →
  Py.upper (entries st name) ∉ SATELLITES st →
  savetxt e st = (Return tt, satellite_refused st).
Proof.
  intros Hi Hj Hsat Hcat. run_savetxt Hi Hj.
  apply Z.eqb_neq in Hsat. rewrite Hsat. rewrite bool_decide_eq_false_2 by done.
  cbn [negb andb]. unfold satellite_refused. by destruct (dialog st).
Qed.

(** The ticket is written. *)
Lemma savetxt_writes e st i j num path :
  list_split_text filter_ (entries st filter_) = Some i →
  list_split_text exposure_time (entries st exposure_time) = Some j →
  int_vars st satellite_tracking = 0 ∨ Py.upper (entries st name) ∈ SATELLITES st →
  Py.int (entries st n_exposures) = Some num →
  ticket_file (string_vars st selection) = Some path →
  savetxt e st
  = (Return tt, ticket_written path (observation_ticket (dst_check e) st i j num) st).
Proof.
  intros Hi Hj Hok Hnum Hpath. run_savetxt Hi Hj.
  assert (negb (int_vars st satellite_tracking =? 0)
          && negb (bool_decide (Py.upper (entries st name) ∈ SATELLITES st)) = false) as ->.
  { destruct Hok as [->|Hin]; [done|].
    rewrite (bool_decide_eq_true_2 _ Hin). apply andb_false_r. }
  unfold ticket_written, dialog_closed. rewrite Hnum, Hpath. by destruct (dialog st).
Qed.
(** ** C9: self guiding and satellite tracking *)


Example sample_iss_flags :
  int_vars (target_grab sample_env sample_iss_selected).2 satellite_tracking = 1
  ∧ int_vars (target_grab sample_env sample_iss_selected).2 self_guide = 0.
Proof. split; vm_compute; reflexivity. Qed.

(** C9: when [target_grab] returns for a selected row, [satellite_tracking]
    holds the value of the row and [self_guide] is 0 when that value is not
    0 and 1 when it is 0; a ticket that [savetxt] then writes from these
    boxes has [self_guide] false when [satellite_tracking] is true, and
    true when it is false. *)
Theorem self_guide_follows_tracking e st st' :
  string_vars st selection ≠ "Observation List" →
  target_grab e st = (Return tt, st') →
  ∃ r sat,
    selected_row st = Some r
    ∧ int_cell (Satellite_Tracking r) = Some sat
    ∧ int_vars st' satellite_tracking = sat
    ∧ (sat ≠ 0 → int_vars st' self_guide = 0)
    ∧ (sat = 0 → int_vars st' self_guide = 1)
    ∧ ∀ e' st'',
        savetxt e' st' = (Return tt, st'') →
        tickets (disk st'') = tickets (disk st')
        ∨ ∃ path t,
            ticket_file (string_vars st selection) = Some path
            ∧ tickets (disk st'') !! path = Some t
            ∧ details_satellite_tracking t = negb (sat =? 0)
            ∧ details_self_guide t = (sat =? 0).
Proof.
  intros Hsel H.
  destruct (target_grab_Return _ _ _ Hsel H)
    as (night & r & sheet & sat & mode & info & st1 & hs & ms & he & me & ds & de
        & _ & Hr & _ & _ & Hsat & _ & _ & _ & _ & _ & _ & _ & _ & Hint & Hstr & _).
  exists r, sat. split; [done|]. split; [done|].
  pose proof (Hint satellite_tracking) as Ht. pose proof (Hint self_guide) as Hg.
  pose proof (Hstr selection) as Hs. cbn in Ht, Hg, Hs.
  split; [done|]. split; [|split].
  - intros Hne. rewrite Hg. by apply Z.eqb_neq in Hne as ->.
  - intros ->. by rewrite Hg.
  - intros e' st'' (i & j & _ & _ & [(_ & _ & ->)|(_ & num & path & _ & Hpath & ->)])%savetxt_Return.
    + left. unfold satellite_refused. by destruct (dialog st').
    + right. exists path, (observation_ticket (dst_check e') st' i j num).
      rewrite Hs in Hpath. split; [done|]. split.
      { unfold ticket_written. cbn. apply lookup_insert_eq. }
      cbn. rewrite Ht, Hg. by destruct (sat =? 0).
Qed.

Lemma self_guide_follows_tracking_witness :
  ∃ r sat,
    selected_row sample_iss_selected = Some r
    ∧ int_cell (Satellite_Tracking r) = Some sat
    ∧ int_vars (target_grab sample_env sample_iss_selected).2 satellite_tracking = sat
    ∧ (sat ≠ 0 → int_vars (target_grab sample_env sample_iss_selected).2 self_guide = 0)
    ∧ (sat = 0 → int_vars (target_grab sample_env sample_iss_selected).2 self_guide = 1)
    ∧ ∀ e' st'',
        savetxt e' (target_grab sample_env sample_iss_selected).2 = (Return tt, st'') →
        tickets (disk st'') = tickets (disk (target_grab sample_env sample_iss_selected).2)
        ∨ ∃ path t,
            ticket_file (string_vars sample_iss_selected selection) = Some path
            ∧ tickets (disk st'') !! path = Some t
            ∧ details_satellite_tracking t = negb (sat =? 0)
            ∧ details_self_guide t = (sat =? 0).
Proof.
  apply (self_guide_follows_tracking sample_env sample_iss_selected
           (target_grab sample_env sample_iss_selected).2).
  - vm_compute. discriminate.
  - apply run_Return. vm_compute. reflexivity.
Defined.

(** ** C10: the number of exposures *)

(** C10: when [target_grab] returns for a selected row, whatever the row
    holds, the box of the number of exposures reads 100000, and a ticket
    that [savetxt] then writes from these boxes has [num] 100000. *)
Theorem num_exposures_fixed e st st' :
  string_vars st selection ≠ "Observation List" →
  target_grab e st = (Return tt, st') →
  entries st' n_exposures = "100000"
  ∧ ∀ e' st'',
      savetxt e' st' = (Return tt, st'') →
      tickets (disk st'') = tickets (disk st')
      ∨ ∃ path t,
          ticket_file (string_vars st selection) = Some path
          ∧ tickets (disk st'') !! path = Some t
          ∧ details_num t = 100000.
Proof.
  intros Hsel H.
  destruct (target_grab_Return _ _ _ Hsel H)
    as (night & r & sheet & sat & mode & info & st1 & hs & ms & he & me & ds & de
        & _ & _ & _ & _ & _ & _ & _ & _ & _ & _ & _ & _ & Hent & _ & Hstr & _).
  pose proof (Hent n_exposures) as Hn. pose proof (Hstr selection) as Hs. cbn in Hn, Hs.
  split; [done|].
  intros e' st'' (i & j & _ & _ & [(_ & _ & ->)|(_ & num & path & Hnum & Hpath & ->)])%savetxt_Return.
  - left. unfold satellite_refused. by destruct (dialog st').
  - right. exists path, (observation_ticket (dst_check e') st' i j num).
    rewrite Hs in Hpath. split; [done|]. split.
    { unfold ticket_written. cbn. apply lookup_insert_eq. }
    cbn. rewrite Hn in Hnum. vm_compute in Hnum. congruence.
Qed.

Lemma num_exposures_fixed_witness :
  entries (target_grab sample_env sample_started).2 n_exposures = "100000"
  ∧ ∀ e' st'',
      savetxt e' (target_grab sample_env sample_started).2 = (Return tt, st'') →
      tickets (disk st'') = tickets (disk (target_grab sample_env sample_started).2)
      ∨ ∃ path t,
          ticket_file (string_vars sample_started selection) = Some path
          ∧ tickets (disk st'') !! path = Some t
          ∧ details_num t = 100000.
Proof.
  apply (num_exposures_fixed sample_env sample_started
           (target_grab sample_env sample_started).2).
  - vm_compute. discriminate.
  - apply run_Return. vm_compute. reflexivity.
Defined.
(** ** [target_grab] runs *)

Section runs.
Context {A B : Type}.
Implicit Types (m : M A) (f : A → M B) (st : state).

Lemma bind_returns m f st a st1 :
  m st = (Return a, st1) →
  (∃ b st', f a st1 = (Return b, st')) →
  ∃ b st', (m ≫= f) st = (Return b, st').
Proof. intros Hm (b & st' & Hf). exists b, st'. by rewrite (bind_run _ _ _ _ _ Hm). Qed.

Lemma bind_returns_all m f st :
  (∃ a st1, m st = (Return a, st1)) →
  (∀ a st1, ∃ b st', f a st1 = (Return b, st')) →
  ∃ b st', (m ≫= f) st = (Return b, st').
Proof. intros (a & st1 & Hm) Hf. eapply bind_returns; [exact Hm|apply Hf]. Qed.
End runs.

(** [target_grab] returns as soon as the selection names a night and a row
    of the sheet on disk, the row gives the two tracking values and two
    clocks, the ephemeris table loads and the days of the clocks exist;
    what the ephemeris table holds plays no part. *)
Lemma target_grab_runs e st night r sheet sat mode info_csv st1 hs ms he me ds de :
  string_vars st selection ≠ "Observation List" →
  selected_date st = Some night →
  selected_row st = Some r →
  content <$> (toi_info (disk st) ≫= google_csv) = Some sheet →
  has_Satellite_Tracking sheet = true → int_cell (Satellite_Tracking r) = Some sat →
  has_Tracking_Mode sheet = true → int_cell (Tracking_Mode r) = Some mode →
  target_grab_info_chart e (cleared st) = (Return info_csv, st1) →
  strptime_HM (str_cell (Start r)) = Some (hs, ms) →
  strptime_HM (str_cell (End_ r)) = Some (he, me) →
  (if hs <=? 12 then next_day night else Some night) = Some ds →
  (if he <=? 12 then next_day night else Some night) = Some de →
  ∃ st', target_grab e st = (Return tt, st').
Proof.
  intros Hsel Hnight Hrow Hsheet HhasS HS HhasM HM Hinfo Hs He Hds Hde.
  unfold selected_date in Hnight. unfold selected_row in Hrow.
  destruct (Py.split (string_vars st selection) ": " !! 1%nat) as [target|] eqn:Htarget;
    [|done]. cbn [mbind option_bind] in Hrow.
  destruct (Py.int _) as [x|] eqn:Hx; [|done]. cbn [mbind option_bind] in Hrow.
  destruct (toi_info (disk st) ≫= google_csv) as [f|] eqn:Hf; [|done].
  cbn [mbind option_bind] in Hrow. injection Hsheet as <-.
  assert (∃ b st', target_grab e st = (Return b, st')) as ([] & st' & Hgoal);
    [|by exists st'].
  unfold target_grab.
  eapply bind_returns; [reflexivity|].
  destruct (decide _) as [?|_]; [done|]. cbv zeta.
  eapply bind_returns; [reflexivity|].
  eapply bind_returns; [by rewrite Hnight|].
  eapply bind_returns; [by rewrite Htarget|].
  eapply bind_returns.
  { apply fmap_run. unfold read_info. eapply eq_trans; [apply bind_run; reflexivity|].
    cbn [disk set_entries]. by rewrite Hf. }
  eapply bind_returns; [by rewrite Hx|].
  eapply bind_returns; [by rewrite Hrow|].
  rewrite HhasS, HhasM.
  eapply bind_returns; [apply fmap_run; by rewrite HS|].
  eapply bind_returns; [apply fmap_run; by rewrite HM|].
  eapply bind_returns; [exact Hinfo|].
  eapply bind_returns; [by rewrite Hs|].
  eapply bind_returns; [by rewrite He|].
  assert (∀ h d s, (if h <=? 12 then next_day night else Some night) = Some d →
                   rollover night h s = (Return (str_date d), s)) as Hroll.
  { intros h d s Hd. unfold rollover. destruct (h <=? 12).
    - apply fmap_run. by rewrite Hd.
    - by injection Hd as <-. }
  eapply bind_returns; [by apply Hroll|].
  eapply bind_returns; [by apply Hroll|].
  do 13 (apply bind_returns_all; [eexists _, _; reflexivity|intros ? ?]).
  eexists _, _. reflexivity.
Qed.
(** ** C7: a target that the ephemeris table does not list *)


(** The filter box always splits. *)
Lemma list_split_text_filter text : is_Some (list_split_text filter_ text).
Proof.
  unfold list_split_text. cbv zeta.
  destruct (decide (filter_ = exposure_time)) as [?|_]; [done|].
  destruct (decide (filter_ = filter_)) as [_|?]; [eauto|done].
Qed.

Example sample_iss_unlisted :
  entries (target_grab sample_env sample_iss_selected).2 ra = "None"
  ∧ entries (target_grab sample_env sample_iss_selected).2 dec = "None".
Proof. split; vm_compute; reflexivity. Qed.


(** ** C4: the satellite catalog *)




Example sample_catalog :
  tle_names (Py.splitlines sample_tles) ∅ = Some {[ "ISS (ZARYA)"; "ISS"; "HST" ]}.
Proof. vm_compute. reflexivity. Qed.

Example sample_iss_in_catalog :
  Py.upper (entries sample_iss_grabbed name) ∈ SATELLITES sample_iss_grabbed.
Proof. vm_compute. done. Qed.

Example sample_iss_written :
  (savetxt sample_env sample_iss_grabbed).1 = Return tt
  ∧ details_name <$> tickets (disk (savetxt sample_env sample_iss_grabbed).2)
                       !! "iss_0230_Mode2_5_r_#1.json" = Some "iss".
Proof. split; vm_compute; reflexivity. Qed.



(** ** C1: requests and the age of the files *)

(** The satellite catalog is read from its file when the file is less than
    twelve hours old, and is downloaded otherwise. *)
Lemma check_toi_satellites_Return e st st' :
  check_toi_satellites e st = (Return tt, st') →
  (∃ f, toi_info (disk st) ≫= satellites_txt = Some f
        ∧ now e - mtime f < twelve_hours
        ∧ st' = set_SATELLITES (list_to_set (Py.strip <$> Py.file_lines (content f))) st)
  ∨ ((∀ f, toi_info (disk st) ≫= satellites_txt = Some f → twelve_hours ≤ now e - mtime f)
     ∧ requests st' = tles_url :: requests st
     ∧ ∃ f', toi_info (disk st') ≫= satellites_txt = Some f' ∧ mtime f' = now e).
Proof.
  intros H. unfold check_toi_satellites in H. cbv zeta in H. minv H.
  - left. eexists. split; [eassumption|]. split; [|by subst].
    match goal with
    | Hc : match _ with Some _ => _ | None => _ end = true, Hf : _ = Some _ |- _ =>
        rewrite Hf in Hc; by apply Z.ltb_lt in Hc
    end.
  - right. split.
    { intros f Hf.
      match goal with
      | Hc : match _ with Some _ => _ | None => _ end = false |- _ =>
          rewrite Hf in Hc; by apply Z.ltb_ge in Hc
      end. }
    subst. cbn. split; [done|]. eexists. split; [reflexivity|done].
Qed.

(** Downloading the sheet issues one request and leaves the other files
    of [toi_info] as they are. *)
Lemma check_toi_sheet_Return e st st' :
  check_toi_sheet e st = (Return tt, st') →
  requests st' = Google_Sheet :: requests st
  ∧ toi_info (disk st') ≫= satellites_txt = toi_info (disk st) ≫= satellites_txt
  ∧ toi_info (disk st') ≫= info_chart_csv = toi_info (disk st) ≫= info_chart_csv.
Proof.
  intros H. unfold check_toi_sheet in H. minv H. subst. cbn in *.
  match goal with Hd : toi_info (disk st) = Some _ |- _ => rewrite Hd end. done.
Qed.

Lemma check_toi_Return e st st' :
  check_toi e st = (Return tt, st') →
  ∃ st0,
    requests st0 = Google_Sheet :: requests st
    ∧ toi_info (disk st0) ≫= satellites_txt = toi_info (disk st) ≫= satellites_txt
    ∧ check_toi_satellites e st0 = (Return tt, st').
Proof.
  intros H. unfold check_toi in H.
  apply bind_Return in H as (st_ & ? & [-> ->]%get_Return & H).
  apply bind_Return in H as ([] & st0 & Hmk & H).
  apply bind_Return in H as ([] & st1 & Hsheet & H).
  apply check_toi_sheet_Return in Hsheet as (Hr & Hs & _).
  exists st1. split; [|split; [|done]].
  - rewrite Hr. destruct (toi_info (disk st)); minv Hmk; by subst.
  - rewrite Hs. destruct (toi_info (disk st)) eqn:Hd; minv Hmk; subst; cbn; by rewrite ?Hd.
Qed.

(** What [target_grab] asks of the network is what loading the ephemeris
    table asks. *)
Lemma target_grab_requests e st st' :
  target_grab e st = (Return tt, st') →
  st' = st
  ∨ ∃ info_csv st1,
      target_grab_info_chart e (cleared st) = (Return info_csv, st1)
      ∧ disk st' = disk st1 ∧ requests st' = requests st1.
Proof.
  intros H. destruct (decide (string_vars st selection = "Observation List")) as [Heq|Hne].
  - left. unfold target_grab in H.
    apply bind_Return in H as (st_ & ? & [-> ->]%get_Return & H).
    destruct (decide _) as [_|?]; [|done]. by minv H.
  - right.
    destruct (target_grab_Return _ _ _ Hne H)
      as (night & r & sheet & sat & mode & info & st1 & hs & ms & he & me & ds & de
          & _ & _ & _ & _ & _ & _ & _ & Hinfo & _ & _ & _ & _ & _ & _ & _ & _ & _ & _ & _
          & _ & Hd & Hr).
    by exists info, st1.
Qed.

Lemma count_requests_cons u v st st' :
  requests st' = v :: requests st →
  count_requests u st' = ((if decide (v = u) then 1 else 0) + count_requests u st)%nat.
Proof.
  unfold count_requests. intros ->. cbn [count_occ].
  destruct (url_eq_dec v u), (decide (v = u)); done.
Qed.

Lemma count_requests_same u st st' :
  requests st' = u :: requests st → count_requests u st' = S (count_requests u st).
Proof. intros H. rewrite (count_requests_cons _ _ _ _ H). by rewrite decide_True. Qed.

Lemma count_requests_other u v st st' :
  v ≠ u → requests st' = v :: requests st → count_requests u st' = count_requests u st.
Proof. intros Hne H. rewrite (count_requests_cons _ _ _ _ H). by rewrite decide_False. Qed.

Lemma count_requests_eq u st st' :
  requests st' = requests st → count_requests u st' = count_requests u st.
Proof. unfold count_requests. by intros ->. Qed.

Example sample_startup_requests :
  requests sample_started = [Transit_Site; tles_url; Google_Sheet].
Proof. vm_compute. reflexivity. Qed.

(** C1, as stated, fails for the schedule sheet: [check_toi] run twice
    within a second downloads the sheet twice. *)
Lemma sheet_fetched_twice : ¬ fetched_once_per_window Google_Sheet check_toi.
Proof.
  intros Hclaim.
  specialize (Hclaim sample_env sample_env_later blank
                (check_toi sample_env blank).2 (check_toi sample_env blank).2
                (check_toi sample_env_later (check_toi sample_env blank).2).2).
  assert (count_requests Google_Sheet
            (check_toi sample_env_later (check_toi sample_env blank).2).2
          ≤ S (count_requests Google_Sheet blank))%nat as Hle.
  { apply Hclaim.
    - unfold twelve_hours. cbn [now sample_env_later sample_env]. lia.
    - apply run_Return. vm_compute. reflexivity.
    - reflexivity.
    - reflexivity.
    - apply run_Return. vm_compute. reflexivity. }
  vm_compute in Hle. lia.
Qed.

(** C1, amended: two calls of [check_toi] less than twelve hours apart
    issue at most one request for the satellite catalog, and two calls of
    [target_grab] less than twelve hours apart at most one for the
    ephemeris table; a file of either that is less than twelve hours old is
    used as it is, with no request. The schedule sheet is downloaded by
    every call of [check_toi]. *)
Theorem catalogs_fetched_once_per_window :
  fetched_once_per_window tles_url check_toi
  ∧ fetched_once_per_window Transit_Site target_grab
  ∧ (∀ e st f,
       toi_info (disk st) ≫= satellites_txt = Some f →
       now e - mtime f < twelve_hours →
       check_toi_satellites e st
       = (Return tt,
          set_SATELLITES (list_to_set (Py.strip <$> Py.file_lines (content f))) st))
  ∧ (∀ e st f,
       toi_info (disk st) ≫= info_chart_csv = Some f →
       now e - mtime f < twelve_hours →
       target_grab_info_chart e st = (Return (content f), st))
  ∧ (∀ e st st',
       check_toi e st = (Return tt, st') →
       count_requests Google_Sheet st' = S (count_requests Google_Sheet st)).
Proof.
  split; [|split; [|split; [|split]]].
  - intros e1 e2 st st1 st1' st2 Hwin H1 Hdisk Hreq H2.
    apply check_toi_Return in H1 as (sa & Hra & Hsa & H1).
    apply check_toi_Return in H2 as (sb & Hrb & Hsb & H2).
    rewrite Hdisk in Hsb.
    pose proof (count_requests_other tles_url Google_Sheet _ _ ltac:(done) Hra) as Hca.
    pose proof (count_requests_other tles_url Google_Sheet _ _ ltac:(done) Hrb) as Hcb.
    pose proof (count_requests_eq tles_url _ _ Hreq) as Hc1.
    assert (∀ e s s', check_toi_satellites e s = (Return tt, s') →
              requests s' = requests s
              ∨ (requests s' = tles_url :: requests s
                 ∧ (∀ f, toi_info (disk s) ≫= satellites_txt = Some f →
                         twelve_hours ≤ now e - mtime f)
                 ∧ ∃ f', toi_info (disk s') ≫= satellites_txt = Some f'
                         ∧ mtime f' = now e)) as Hsat.
    { intros e s s' [(f & _ & _ & ->)|(? & ? & ?)]%check_toi_satellites_Return;
        [by left|by right]. }
    apply Hsat in H1 as [Ha|(Ha & _ & f1 & Hf1 & Hm1)];
      apply Hsat in H2 as [Hb|(Hb & Hstale & _)].
    + apply (count_requests_eq tles_url) in Ha, Hb. lia.
    + apply (count_requests_eq tles_url) in Ha. apply count_requests_same in Hb. lia.
    + apply count_requests_same in Ha. apply (count_requests_eq tles_url) in Hb. lia.
    + rewrite Hsb, Hf1 in Hstale. specialize (Hstale f1 eq_refl). lia.
  - intros e1 e2 st st1 st1' st2 Hwin H1 Hdisk Hreq H2.
    assert (∀ e s info s', target_grab_info_chart e (cleared s) = (Return info, s') →
              (requests s' = requests s ∧ disk s' = disk s)
              ∨ (requests s' = Transit_Site :: requests s
                 ∧ (∀ f, toi_info (disk s) ≫= info_chart_csv = Some f →
                         twelve_hours < now e - mtime f)
                 ∧ ∃ f', toi_info (disk s') ≫= info_chart_csv = Some f'
                         ∧ mtime f' = now e)) as Hinfo.
    { intros e s info s' [[-> _]|(d & Hd & _ & Hstale & ->)]%target_grab_info_chart_Return.
      - by left.
      - right. change (disk (cleared s)) with (disk s) in Hd. cbn. split; [done|]. split.
        + intros f Hf. apply Hstale. rewrite Hd in Hf. done.
        + eexists. split; [reflexivity|done]. }
    pose proof (count_requests_eq Transit_Site _ _ Hreq) as Hc1.
    apply target_grab_requests in H1 as [->|(i1 & s1 & H1 & Hd1 & Hr1)];
      apply target_grab_requests in H2 as [->|(i2 & s2 & H2 & Hd2 & Hr2)].
    + lia.
    + apply Hinfo in H2 as [[Hr _]|(Hr & _)]; rewrite <- Hr2 in Hr.
      * apply (count_requests_eq Transit_Site) in Hr. lia.
      * apply count_requests_same in Hr. lia.
    + apply Hinfo in H1 as [[Hr _]|(Hr & _)]; rewrite <- Hr1 in Hr.
      * apply (count_requests_eq Transit_Site) in Hr. lia.
      * apply count_requests_same in Hr. lia.
    + apply Hinfo in H1 as [[Ha Hda]|(Ha & _ & f1 & Hf1 & Hm1)];
        apply Hinfo in H2 as [[Hb Hdb]|(Hb & Hstale & _)];
        rewrite <- ?Hr1 in Ha; rewrite <- ?Hr2 in Hb.
      * apply (count_requests_eq Transit_Site) in Ha, Hb. lia.
      * apply (count_requests_eq Transit_Site) in Ha. apply count_requests_same in Hb. lia.
      * apply count_requests_same in Ha. apply (count_requests_eq Transit_Site) in Hb. lia.
      * rewrite Hdisk, Hd1, Hf1 in Hstale.
        specialize (Hstale f1 eq_refl). lia.
  - intros e st f Hf Hfresh. unfold check_toi_satellites.
    rewrite (bind_run get _ st st st) by done. cbv zeta. rewrite Hf.
    apply Z.ltb_lt in Hfresh. rewrite Hfresh.
    erewrite bind_run; [reflexivity|].
    unfold read_info. rewrite (bind_run get _ st st st) by done. by rewrite Hf.
  - intros e st f Hf Hfresh. unfold target_grab_info_chart.
    rewrite (bind_run get _ st st st) by done. cbv zeta. rewrite Hf.
    destruct (Z.gtb_spec (now e - mtime f) twelve_hours) as [?|_]; [lia|].
    erewrite bind_run; [|reflexivity].
    apply fmap_run. unfold read_info. rewrite (bind_run get _ st st st) by done.
    by rewrite Hf.
  - intros e st st' (s0 & Hr & _ & H)%check_toi_Return.
    apply count_requests_same in Hr. rewrite <- Hr.
    apply check_toi_satellites_Return in H as [(f & _ & _ & ->)|(_ & Hr' & _)].
    + done.
    + by apply (count_requests_other Google_Sheet tles_url) in Hr'.
Qed.

Lemma catalogs_fetched_once_per_window_witness :
  (count_requests tles_url (check_toi sample_env_later (check_toi sample_env blank).2).2
   ≤ S (count_requests tles_url blank))%nat.
Proof.
  apply (proj1 catalogs_fetched_once_per_window sample_env sample_env_later blank
           (check_toi sample_env blank).2 (check_toi sample_env blank).2).
  - unfold twelve_hours. cbn [now sample_env_later sample_env]. lia.
  - apply run_Return. vm_compute. reflexivity.
  - reflexivity.
  - reflexivity.
  - apply run_Return. vm_compute. reflexivity.
Defined.
(** ** C8: the list of observations *)

Lemma str_int_first z :
  ∃ c rest, Py.str_int z = String c rest
            ∧ (c = "-"%char ∨ is_Some (Py.digit_val c)).
Proof.
  unfold Py.str_int. destruct (Z.to_int z) as [d|d]; cbn.
  - destruct d; cbn; eexists _, _; (split; [reflexivity|right; by eexists]).
  - eexists _, _. split; [reflexivity|by left].
Qed.

(** What [str] gives for a cell that [read_csv] has made is "nan" for the
    missing value only, and is never "NaN". *)
Lemma str_cell_nan c :
  read_cell c = true →
  String.eqb (str_cell c) "nan" = negb (present c) ∧ String.eqb (str_cell c) "NaN" = false.
Proof.
  destruct c as [|s|z|z]; cbn [str_cell present negb read_cell].
  - done.
  - intros Hs%negb_true_iff. split.
    + destruct (String.eqb_spec s "nan") as [->|]; [by vm_compute in Hs|done].
    + destruct (String.eqb_spec s "NaN") as [->|]; [by vm_compute in Hs|done].
  - intros _. destruct (str_int_first z) as (c & rest & -> & [->|[v Hv]]); [done|].
    split.
    + cbn. destruct (Ascii.eqb_spec c "n") as [->|]; [by vm_compute in Hv|done].
    + cbn. destruct (Ascii.eqb_spec c "N") as [->|]; [by vm_compute in Hv|done].
  - intros _. destruct (str_int_first z) as (c & rest & -> & [->|[v Hv]]); [done|].
    rewrite append_cons. split.
    + cbn. destruct (Ascii.eqb_spec c "n") as [->|]; [by vm_compute in Hv|done].
    + cbn. destruct (Ascii.eqb_spec c "N") as [->|]; [by vm_compute in Hv|done].
Qed.

(** The name shown for a target: "nan" for the missing value only, and
    never "NaN". *)
Lemma display_name_nan c :
  read_cell c = true →
  String.eqb (display_name (str_cell c)) "nan" = negb (present c)
  ∧ String.eqb (display_name (str_cell c)) "NaN" = false.
Proof.
  intros Hc. unfold display_name, Py.startswith.
  destruct (String.prefix "TOI" (str_cell c)) eqn:Hp; [|by apply str_cell_nan].
  destruct (str_cell c) as [|t rest] eqn:Hs; [done|].
  cbn [String.prefix] in Hp. destruct (ascii_dec "T" t) as [<-|]; [|done].
  assert (present c = true) as ->.
  { destruct c; [done|done|done|done]. }
  unfold Py.replace. cbn [Py.replace_go String.prefix].
  destruct (ascii_dec " " "T") as [?|_]; [done|].
  cbn [Py.replace_go String.prefix].
  destruct (ascii_dec "." "T") as [?|_]; [done|]. done.
Qed.

(** The loop of [create_list] adds the entries of the rows to list. *)
Lemma create_list_loop_listing current_date sheet rs x acc :
  has_Satellite_Tracking sheet = true →
  has_Tracking_Mode sheet = true →
  Forall (λ r, read_cell (Target r) = true ∧ read_cell (NoD r) = true) rs →
  Forall (λ r, present (Target r) = true → present (NoD r) = true →
               is_Some (night_of_date r)) rs →
  create_list_loop current_date sheet x rs acc
  = Return (acc ++ listing current_date x rs)%list.
Proof.
  intros HS HM Hread Hdates. revert x acc.
  induction rs as [|r rs IH]; intros x acc.
  { cbn. by rewrite List.app_nil_r. }
  apply Forall_cons in Hread as [[Ht Hn] Hread].
  apply Forall_cons in Hdates as [Hd Hdates].
  specialize (IH Hread Hdates).
  cbn [create_list_loop]. cbv zeta.
  change (if Py.startswith (str_cell (Target r)) "TOI"
          then Py.replace (Py.replace (str_cell (Target r)) " " "") "." "-"
          else str_cell (Target r)) with (display_name (str_cell (Target r))).
  destruct (display_name_nan _ Ht) as [-> HNaN]. rewrite HNaN.
  destruct (str_cell_nan _ Hn) as [-> _]. rewrite !negb_involutive.
  unfold listing. cbn [length seq zip zip_with omap list_omap fst snd].
  fold (listing current_date (S x) rs).
  unfold listed at 1.
  destruct (present (Target r)) eqn:Hpt; [|cbn; apply IH].
  destruct (present (NoD r)) eqn:Hpn; [|cbn; apply IH].
  destruct (Hd eq_refl eq_refl) as [night Hnight].
  cbn [andb]. fold (night_of_date r). rewrite Hnight.
  destruct (date_leb current_date night) eqn:Hle; [|cbn; apply IH].
  cbn [andb negb]. rewrite HS, HM.
  rewrite andb_false_r. rewrite IH.
  f_equal. rewrite <- List.app_assoc. f_equal. cbn [app]. f_equal.
  unfold list_entry. rewrite Hnight. cbn [fmap option_fmap option_map default].
  reflexivity.
Qed.

Lemma cell_is_not_NaN c : read_cell c = true → cell_is_not c "NaN" = true.
Proof.
  destruct c as [|t|z|z]; try done. cbn. intros Ht%negb_true_iff.
  destruct (String.eqb t "NaN") eqn:E; [|done].
  apply String.eqb_eq in E. subst t. by vm_compute in Ht.
Qed.

(** The loop of [create_list] in [Observation_ticket_creator.pyw] adds the
    entries of the rows to list until there are eleven. *)
Lemma create_list_pyw_loop_listing current_date rs num acc :
  num = Z.of_nat (length acc) → (length acc ≤ 11)%nat →
  Forall (λ r, read_cell (Target r) = true ∧ read_cell (NoD r) = true) rs →
  Forall (λ r, present (Target r) = true → present (NoD r) = true →
               is_Some (night_of_date r)) rs →
  create_list_pyw_loop current_date rs num acc
  = Return (take 11 (acc ++ listing_pyw current_date rs)%list).
Proof.
  intros Hnum Hlen Hread Hdates. revert num acc Hnum Hlen.
  induction rs as [|r rs IH]; intros num acc Hnum Hlen.
  { cbn. rewrite List.app_nil_r. by rewrite take_ge by lia. }
  apply Forall_cons in Hread as [[Ht Hn] Hread].
  apply Forall_cons in Hdates as [Hd Hdates].
  specialize (IH Hread Hdates).
  cbn [create_list_pyw_loop].
  destruct (str_cell_nan _ Ht) as [-> _].
  destruct (str_cell_nan _ Hn) as [-> _]. rewrite !negb_involutive.
  rewrite (cell_is_not_NaN _ Ht).
  destruct (Z.ltb_spec num 11) as [Hlt|Hge].
  - unfold listing_pyw. cbn [omap list_omap]. fold (listing_pyw current_date rs).
    unfold listed at 1.
    destruct (present (Target r)) eqn:Hpt; [|cbn; by apply IH].
    destruct (present (NoD r)) eqn:Hpn; [|cbn; by apply IH].
    destruct (Hd eq_refl eq_refl) as [night Hnight].
    cbn [andb]. fold (night_of_date r). rewrite Hnight.
    destruct (date_leb current_date night) eqn:Hle; [|cbn; by apply IH].
    cbn [andb]. rewrite IH.
    + f_equal. f_equal. rewrite <- List.app_assoc. f_equal. cbn [app]. f_equal.
      unfold list_entry_pyw. by rewrite Hnight.
    + rewrite length_app. cbn. lia.
    + rewrite length_app. cbn. lia.
  - cbn [andb]. rewrite (IH num acc Hnum Hlen).
    assert (length acc = 11%nat) as Hfull by lia.
    rewrite <- Hfull. by rewrite !take_app_length.
Qed.

Example twelve_rows_listed :
  length (listing_pyw (Date 2024 5 30) sample_twelve_rows) = 12%nat.
Proof. vm_compute. reflexivity. Qed.

(** C8, as stated, fails for [create_list] of
    [Observation_ticket_creator.pyw]: of twelve rows to list it lists
    eleven. *)
Lemma create_list_pyw_stops_at_eleven :
  create_list_pyw_loop (Date 2024 5 30) sample_twelve_rows 0 []
  ≠ Return (listing_pyw (Date 2024 5 30) sample_twelve_rows)
  ∧ ∃ l, create_list_pyw_loop (Date 2024 5 30) sample_twelve_rows 0 [] = Return l
         ∧ length l = 11%nat.
Proof.
  split.
  - intros H. apply (f_equal (λ r, match r with Return l => length l | Raise _ => 0%nat end)) in H.
    vm_compute in H. discriminate H.
  - eexists. split; [vm_compute; reflexivity|reflexivity].
Qed.

(** C8, amended: for a sheet as [read_csv] makes it, with the tracking
    columns and a date that parses in every row that has a target and a
    date, [create_list] returns the entries of exactly the rows whose
    target and date are present and whose night is today or later, in the
    order of the sheet; [create_list] of [Observation_ticket_creator.pyw]
    returns the first eleven of them. *)
Theorem create_list_lists_future_rows e st f :
  toi_info (disk st) ≫= google_csv = Some f →
  Forall (λ r, read_cell (Target r) = true ∧ read_cell (NoD r) = true) (rows (content f)) →
  Forall (λ r, present (Target r) = true → present (NoD r) = true →
               is_Some (night_of_date r)) (rows (content f)) →
  (has_Satellite_Tracking (content f) = true → has_Tracking_Mode (content f) = true →
   create_list e st = (Return (listing (today e) 0 (rows (content f))), st))
  ∧ create_list_pyw e st
    = (Return (take 11 (listing_pyw (today e) (rows (content f)))), st).
Proof.
  intros Hf Hread Hdates. split.
  - intros HS HM. unfold create_list.
    erewrite bind_run.
    2: { apply fmap_run. unfold read_info. rewrite (bind_run get _ st st st) by done.
         by rewrite Hf. }
    by rewrite (create_list_loop_listing _ _ _ 0 [] HS HM Hread Hdates).
  - unfold create_list_pyw.
    erewrite bind_run.
    2: { apply fmap_run. unfold read_info. rewrite (bind_run get _ st st st) by done.
         by rewrite Hf. }
    by rewrite (create_list_pyw_loop_listing _ _ 0 [] eq_refl ltac:(cbn; lia) Hread Hdates).
Qed.

Lemma create_list_lists_future_rows_witness :
  (has_Satellite_Tracking sample_sheet = true → has_Tracking_Mode sample_sheet = true →
   create_list sample_env sample_started
   = (Return (listing (today sample_env) 0 (rows sample_sheet)), sample_started))
  ∧ create_list_pyw sample_env sample_started
    = (Return (take 11 (listing_pyw (today sample_env) (rows sample_sheet))), sample_started).
Proof.
  apply (create_list_lists_future_rows sample_env sample_started
           (File sample_sheet (now sample_env))).
  - vm_compute. reflexivity.
  - repeat constructor.
  - repeat constructor; intros _ _; vm_compute; eauto.
Defined.
(** ** C6: a file that the night folder has already *)

(** Moving a new file into its folder: the folder is made when it is
    missing, the file goes in when the folder has no file of that name,
    and is removed otherwise. *)
Lemma move_into_folder_run folder_name file_name st t :
  tickets (disk st) !! file_name = Some t →
  move_into_folder folder_name file_name st
  = (Return tt, set_disk (moved folder_name file_name t (disk st)) st).
Proof.
  intros Ht. unfold move_into_folder, moved. cbv zeta.
  rewrite (bind_run get _ st st st) by done.
  destruct (folders (disk st) !! folder_name) as [folder|] eqn:Hfolder; cbn [default].
  - rewrite (bind_run (mret tt) _ st tt st) by done.
    rewrite (bind_run get _ st st st) by done.
    rewrite Hfolder. rewrite (bind_run _ _ st folder st) by done.
    destruct (folder !! file_name) as [existing|] eqn:Hfile.
    + rewrite Ht. rewrite (bind_run (mret tt) _ st tt st) by done.
      unfold modify. do 2 f_equal. unfold set_folders, set_tickets. cbn.
      rewrite Hfile. f_equal. by rewrite insert_id.
    + rewrite Ht. rewrite (bind_run _ _ st t st) by done.
      unfold modify. do 2 f_equal. unfold set_folders, set_tickets. cbn.
      by rewrite Hfile.
  - rewrite lookup_empty.
    set (s1 := set_disk (set_folders (<[folder_name := ∅]> (folders (disk st))) (disk st)) st).
    rewrite (bind_run _ _ st tt s1) by done.
    rewrite (bind_run get _ s1 s1 s1) by done.
    assert (folders (disk s1) !! folder_name = Some ∅) as Hs1 by apply lookup_insert_eq.
    rewrite Hs1. rewrite (bind_run _ _ s1 ∅ s1) by done.
    rewrite lookup_empty. change (tickets (disk s1)) with (tickets (disk st)).
    rewrite Ht. rewrite (bind_run _ _ s1 t s1) by done.
    unfold modify. f_equal. unfold set_disk, s1. cbn. f_equal.
    unfold set_folders, set_tickets. cbn. f_equal. by rewrite insert_insert_eq.
Qed.

Lemma move_into_folder_Return folder_name file_name st st' :
  move_into_folder folder_name file_name st = (Return tt, st') →
  ∃ t, tickets (disk st) !! file_name = Some t
       ∧ st' = set_disk (moved folder_name file_name t (disk st)) st.
Proof.
  intros H.
  destruct (tickets (disk st) !! file_name) as [t|] eqn:Ht.
  - exists t. split; [done|]. rewrite (move_into_folder_run _ _ _ _ Ht) in H. congruence.
  - exfalso. unfold move_into_folder in H.
    apply bind_Return in H as (? & ? & [-> ->]%get_Return & H).
    apply bind_Return in H as ([] & s1 & Hmk & H).
    apply bind_Return in H as (? & ? & [-> ->]%get_Return & H).
    apply bind_Return in H as (folder & ? & [Hf ->]%or_raise_Return & H).
    assert (tickets (disk s1) = tickets (disk st)) as Hs1.
    { destruct (folders (disk st) !! folder_name); minv Hmk; by subst. }
    rewrite Hs1, Ht in H. destruct (folder !! file_name); minv H; done.
Qed.

(** The name of the night folder depends on the start time of the ticket
    and on the daylight-saving flag only. *)
Lemma night_folder_Return e t st folder_name st' :
  night_folder e t st = (Return folder_name, st') →
  st' = st
  ∧ ∃ start d,
      strptime_Ymd_HMS (Py.replace (details_start_time t) (dst_check e) "") = Some start
      ∧ folder_date start = Some d
      ∧ folder_name = strftime_Ymd d.
Proof.
  intros H. unfold night_folder in H.
  apply bind_Return in H as (start & s1 & [Hstart ->]%or_raise_Return & H).
  apply bind_Return in H as (d & s2 & Hd & [-> ->]%mret_Return).
  assert (s2 = st ∧ folder_date start = Some d) as [-> Hfd].
  { unfold folder_date. destruct (dt_hour start <? 12); minv Hd; [done|]. by subst. }
  split; [done|]. by exists start, d.
Qed.

Lemma night_folder_run e t st start d :
  strptime_Ymd_HMS (Py.replace (details_start_time t) (dst_check e) "") = Some start →
  folder_date start = Some d →
  night_folder e t st = (Return (strftime_Ymd d), st).
Proof.
  intros Hstart Hd. unfold night_folder.
  erewrite bind_run; [|by rewrite Hstart].
  unfold folder_date in Hd.
  destruct (dt_hour start <? 12).
  - erewrite bind_run; [reflexivity|by rewrite Hd].
  - injection Hd as <-. reflexivity.
Qed.

(** What a returning run of the loop body has done. *)
Lemma save_into_folder_Return e target st st' :
  save_into_folder e target st = (Return tt, st') →
  ∃ sb sc path t start d,
    target_grab e (selected target st) = (Return tt, sb)
    ∧ savetxt e sb = (Return tt, sc)
    ∧ ticket_file target = Some path
    ∧ tickets (disk sc) !! path = Some t
    ∧ strptime_Ymd_HMS (Py.replace (details_start_time t) (dst_check e) "") = Some start
    ∧ folder_date start = Some d
    ∧ st' = set_disk (moved (strftime_Ymd d) path t (disk sc)) sc.
Proof.
  intros H. unfold save_into_folder in H.
  apply bind_Return in H as ([] & sa & Hsel & H).
  apply bind_Return in H as ([] & sb & Hgrab & H).
  apply bind_Return in H as ([] & sc & Hsave & H).
  apply bind_Return in H as (path & ? & [Hpath ->]%or_raise_Return & H).
  apply bind_Return in H as (? & ? & [-> ->]%get_Return & H).
  apply bind_Return in H as (t & ? & [Ht ->]%or_raise_Return & H).
  apply bind_Return in H as (fn & s' & Hfolder & H).
  apply night_folder_Return in Hfolder as (-> & start & d & Hstart & Hd & ->).
  apply move_into_folder_Return in H as (t' & Ht' & ->).
  assert (t' = t) as -> by congruence.
  unfold StringVar_set in Hsel. apply modify_Return in Hsel. subst sa.
  by exists sb, sc, path, t, start, d.
Qed.

(** The ephemeris table leaves the schedule sheet on disk as it is. *)
Lemma target_grab_info_chart_sheet e st tbl st' :
  target_grab_info_chart e st = (Return tbl, st') →
  toi_info (disk st') ≫= google_csv = toi_info (disk st) ≫= google_csv.
Proof.
  intros [[-> _]|(d & Hd & _ & _ & ->)]%target_grab_info_chart_Return; [done|].
  cbn. by rewrite Hd.
Qed.

(** A table that is at most twelve hours old is read without a request. *)
Lemma target_grab_info_chart_cached e st f :
  toi_info (disk st) ≫= info_chart_csv = Some f →
  now e - mtime f ≤ twelve_hours →
  target_grab_info_chart e st = (Return (content f), st).
Proof.
  intros Hf Hage. unfold target_grab_info_chart.
  erewrite bind_run; [|reflexivity]. cbv zeta. rewrite Hf.
  destruct (Z.gtb_spec (now e - mtime f) twelve_hours) as [?|_]; [lia|].
  erewrite bind_run; [|reflexivity].
  apply fmap_run. unfold read_info.
  erewrite bind_run; [|reflexivity]. by rewrite Hf.
Qed.

(** The table that [target_grab_info_chart] has returned is the one a
    second call at the same time reads from the disk. *)
Lemma target_grab_info_chart_again e st tbl st' s2 :
  target_grab_info_chart e st = (Return tbl, st') →
  toi_info (disk s2) ≫= info_chart_csv = toi_info (disk st') ≫= info_chart_csv →
  target_grab_info_chart e s2 = (Return tbl, s2).
Proof.
  intros [(-> & f & Hf & Hage & <-)|(d & Hd & _ & _ & ->)]%target_grab_info_chart_Return Hdisk.
  - apply target_grab_info_chart_cached; [congruence|done].
  - cbn in Hdisk.
    apply (target_grab_info_chart_cached e s2 (File tbl (now e))); [done|].
    cbn. unfold twelve_hours. lia.
Qed.

Lemma ticket_written_tickets path t st :
  tickets (disk (ticket_written path t st)) = <[path := t]> (tickets (disk st)).
Proof. unfold ticket_written, dialog_closed. by destruct (dialog st). Qed.

Lemma ticket_written_folders path t st :
  folders (disk (ticket_written path t st)) = folders (disk st).
Proof. unfold ticket_written, dialog_closed. by destruct (dialog st). Qed.

Lemma ticket_written_toi_info path t st :
  toi_info (disk (ticket_written path t st)) = toi_info (disk st).
Proof. unfold ticket_written, dialog_closed. by destruct (dialog st). Qed.

Lemma satellite_refused_disk st : disk (satellite_refused st) = disk st.
Proof. unfold satellite_refused. by destruct (dialog st). Qed.

(** The folder has the file once the file has gone into it. *)
Lemma moved_holds folder_name file_name t fs :
  ∃ folder t', folders (moved folder_name file_name t fs) !! folder_name = Some folder
               ∧ folder !! file_name = Some t'.
Proof.
  unfold moved. cbn.
  destruct (default ∅ (folders fs !! folder_name) !! file_name) as [t'|] eqn:Hfile.
  - eexists _, t'. by rewrite lookup_insert_eq.
  - eexists _, t. rewrite lookup_insert_eq. split; [done|]. by rewrite lookup_insert_eq.
Qed.

(** A folder that has the file keeps its files; the file of the script's
    directory is removed. *)
Lemma moved_collision folder_name file_name t fs folder existing :
  folders fs !! folder_name = Some folder →
  folder !! file_name = Some existing →
  folders (moved folder_name file_name t fs) = folders fs
  ∧ tickets (moved folder_name file_name t fs) = delete file_name (tickets fs)
  ∧ toi_info (moved folder_name file_name t fs) = toi_info fs.
Proof.
  intros Hfolder Hfile. unfold moved. rewrite Hfolder. cbn. rewrite Hfile.
  by rewrite insert_id.
Qed.

Lemma ticket_file_Observation_List : ticket_file "Observation List" = None.
Proof. reflexivity. Qed.

Lemma ticket_written_vars path t st :
  entries (ticket_written path t st) = entries st
  ∧ int_vars (ticket_written path t st) = int_vars st
  ∧ string_vars (ticket_written path t st) = string_vars st
  ∧ SATELLITES (ticket_written path t st) = SATELLITES st.
Proof. unfold ticket_written, dialog_closed. by destruct (dialog st). Qed.

(** Materializing a row for the second time: the first run of the loop
    body has put the ticket of the row in its night folder; the second
    run returns, the folders are as the first run left them and the
    script's directory has no file for the row. *)
Lemma save_into_folder_again e target path st st1 :
  ticket_file target = Some path →
  tickets (disk st) !! path = None →
  save_into_folder e target st = (Return tt, st1) →
  ∃ folder_name folder t st2,
    folders (disk st1) !! folder_name = Some folder ∧ folder !! path = Some t
    ∧ tickets (disk st1) !! path = None
    ∧ save_into_folder e target st1 = (Return tt, st2)
    ∧ folders (disk st2) = folders (disk st1)
    ∧ tickets (disk st2) !! path = None.
Proof.
  intros Hpath Hfresh Hrun.
  apply save_into_folder_Return in Hrun
    as (sb & sc & path' & t & start & d & Hgrab & Hsave & Hpath' & Ht & Hstart & Hd & Hst1).
  assert (path' = path) as -> by congruence. clear Hpath'.
  assert (target ≠ "Observation List") as Hne.
  { intros ->. by rewrite ticket_file_Observation_List in Hpath. }
  assert (∀ s, string_vars (selected target s) selection = target) as Hsel by done.
  apply target_grab_Return in Hgrab
    as (night & r & sheet & sat & mode & info & s_info & hs & ms & he & me & ds & de
        & Hnight & Hrow & Hsheet & HhasS & HS & HhasM & HM & Hinfo & Hs & He & Hds & Hde
        & He1 & Hi1 & Hs1 & HS1 & _ & _ & _ & _ & Hdisk1 & _); [|by rewrite Hsel].
  pose proof (target_grab_info_chart_frame _ _ _ _ Hinfo)
    as (_ & _ & _ & _ & _ & _ & _ & _ & Htk & _).
  pose proof (target_grab_info_chart_sheet _ _ _ _ Hinfo) as Hgs.
  change (disk (cleared (selected target st))) with (disk st) in Htk, Hgs.
  apply savetxt_Return in Hsave
    as (i & j & Hi & Hj & [(_ & _ & ->)|(Hok & num & p & Hnum & Hp & Hsc)]).
  { rewrite satellite_refused_disk, Hdisk1, Htk in Ht. congruence. }
  rewrite (Hs1 selection), Hsel in Hp.
  assert (p = path) as -> by congruence. clear Hp.
  set (t1 := observation_ticket (dst_check e) sb i j num) in Hsc.
  assert (t = t1) as ->.
  { rewrite Hsc, ticket_written_tickets, lookup_insert_eq in Ht. congruence. }
  clear Ht.
  destruct (ticket_written_vars path t1 sb) as (Hce & Hci & Hcs & HcS).
  rewrite <- Hsc in Hce, Hci, Hcs, HcS.
  (* the disk after the first run *)
  set (folder_name := strftime_Ymd d) in Hst1.
  assert (disk st1 = moved folder_name path t1 (disk sc)) as Hdisk by (by rewrite Hst1).
  assert (toi_info (disk st1) = toi_info (disk s_info)) as Htoi.
  { rewrite Hdisk, <- Hdisk1. change (toi_info (moved _ _ _ ?fs)) with (toi_info fs).
    by rewrite Hsc, ticket_written_toi_info. }
  destruct (moved_holds folder_name path t1 (disk sc)) as (folder & t' & Hfolder & Hfile).
  rewrite <- Hdisk in Hfolder.
  assert (tickets (disk st1) !! path = None) as Hroot.
  { rewrite Hdisk. unfold moved. cbn. apply lookup_delete_eq. }
  (* [target_grab] runs again, on the same row *)
  set (sa := selected target st1).
  assert (toi_info (disk sa) ≫= google_csv
          = toi_info (disk (selected target st)) ≫= google_csv) as Hgoogle.
  { change (disk sa) with (disk st1). by rewrite Htoi, Hgs. }
  assert (selected_date sa = Some night) as Hnight2 by exact Hnight.
  assert (selected_row sa = Some r) as Hrow2.
  { unfold selected_row in Hrow |- *. rewrite Hgoogle. exact Hrow. }
  assert (content <$> (toi_info (disk sa) ≫= google_csv) = Some sheet) as Hsheet2
    by (by rewrite Hgoogle).
  assert (target_grab_info_chart e (cleared sa) = (Return info, cleared sa)) as Hinfo2.
  { apply (target_grab_info_chart_again e _ _ _ _ Hinfo).
    change (disk (cleared sa)) with (disk st1). by rewrite Htoi. }
  destruct (target_grab_runs e sa night r sheet sat mode info (cleared sa) hs ms he me ds de)
    as (sb2 & Hgrab2); try done.
  pose proof Hgrab2 as Hfacts. apply target_grab_Return in Hfacts
    as (night' & r' & sheet' & sat' & mode' & info' & s_info' & hs' & ms' & he' & me'
        & ds' & de' & Hnight' & Hrow' & Hsheet' & _ & HS' & _ & HM' & Hinfo' & Hs' & He'
        & Hds' & Hde' & He2 & Hi2 & Hs2 & HS2 & _ & _ & _ & _ & Hdisk2 & _); [|done].
  assert (night' = night) as -> by congruence.
  assert (r' = r) as -> by congruence.
  assert (sheet' = sheet) as -> by congruence.
  assert (sat' = sat) as -> by congruence.
  assert (mode' = mode) as -> by congruence.
  assert (hs' = hs ∧ ms' = ms ∧ he' = he ∧ me' = me) as (-> & -> & -> & ->).
  { rewrite Hs in Hs'. rewrite He in He'. by simplify_eq. }
  assert (ds' = ds) as -> by congruence.
  assert (de' = de) as -> by congruence.
  assert (info' = info ∧ disk s_info' = disk st1) as [-> Hdisk3].
  { rewrite Hinfo2 in Hinfo'. injection Hinfo' as <- <-. done. }
  clear Hinfo'.
  assert (∀ b, entries sb2 b = entries sb b) as Hent
    by (intros b; by rewrite He1, He2).
  assert (∀ v, int_vars sb2 v = int_vars sb v) as Hint.
  { intros v. rewrite Hi2. change (int_vars sa v) with (int_vars st1 v).
    rewrite Hst1. change (int_vars (set_disk _ sc) v) with (int_vars sc v).
    rewrite Hci. destruct v; try done; by rewrite Hi1. }
  assert (∀ w, string_vars sb2 w = string_vars sb w) as Hstr.
  { intros w. rewrite Hs1, Hs2. by destruct w. }
  assert (SATELLITES sb2 = SATELLITES sb) as Hcat.
  { rewrite HS2. change (SATELLITES sa) with (SATELLITES st1).
    rewrite Hst1. change (SATELLITES (set_disk _ sc)) with (SATELLITES sc). by rewrite HcS. }
  (* [savetxt] writes the same ticket again *)
  assert (observation_ticket (dst_check e) sb2 i j num = t1) as Hticket.
  { unfold t1, observation_ticket. by rewrite !Hent, !Hint, !Hstr. }
  assert (savetxt e sb2 = (Return tt, ticket_written path t1 sb2)) as Hsave2.
  { rewrite <- Hticket. apply savetxt_writes.
    - by rewrite Hent.
    - by rewrite Hent.
    - by rewrite Hint, Hent, Hcat.
    - by rewrite Hent.
    - by rewrite Hstr, Hs1, Hsel. }
  set (sc2 := ticket_written path t1 sb2) in *.
  assert (folders (disk sc2) = folders (disk st1)) as Hfolders2.
  { unfold sc2. by rewrite ticket_written_folders, Hdisk2, Hdisk3. }
  rewrite <- Hfolders2 in Hfolder.
  destruct (moved_collision folder_name path t1 (disk sc2) folder t' Hfolder Hfile)
    as (Hkept & Hremoved & _).
  exists folder_name, folder, t', (set_disk (moved folder_name path t1 (disk sc2)) sc2).
  split; [by rewrite <- Hfolders2|]. split; [done|]. split; [done|].
  split; [|split].
  - unfold save_into_folder.
    rewrite (bind_run (StringVar_set selection target) _ st1 tt sa eq_refl).
    rewrite (bind_run _ _ _ _ _ Hgrab2).
    rewrite (bind_run _ _ _ _ _ Hsave2).
    erewrite bind_run; [|by rewrite Hpath].
    erewrite bind_run; [|reflexivity].
    erewrite bind_run;
      [|unfold sc2; rewrite ticket_written_tickets, lookup_insert_eq; reflexivity].
    erewrite bind_run; [|by apply (night_folder_run e t1 _ start d)].
    apply move_into_folder_run.
    unfold sc2. by rewrite ticket_written_tickets, lookup_insert_eq.
  - change (folders (moved folder_name path t1 (disk sc2)) = folders (disk st1)).
    by rewrite Hkept.
  - change (tickets (moved folder_name path t1 (disk sc2)) !! path = None).
    rewrite Hremoved. apply lookup_delete_eq.
Qed.

Example sample_archived_files :
  fst <$> map_to_list (folders (disk sample_archived)) = ["20240601"]
  ∧ (λ folder, fst <$> map_to_list folder) <$> folders (disk sample_archived) !! "20240601"
    = Some ["TOI1234-01_2300_30s,60s_Ha,v_#0.json"]
  ∧ map_to_list (tickets (disk sample_archived)) = [].
Proof. vm_compute. by repeat split. Qed.

(** C6: when the loop body moves the new ticket file of the script's
    directory into its night folder and the folder has a file of that
    name, the move returns without an error, every folder keeps the files
    it had, the old one of that name among them, and the new file is
    removed from the script's directory.  Consequently, once the loop body
    has returned for an entry whose ticket file was not in the script's
    directory, the night folder has the file of the entry, and a second
    run of the loop body for the same entry returns as well, leaves the
    folders as the first run left them and leaves no file for the entry
    in the script's directory. *)
Theorem folder_collision :
  (∀ folder_name file_name st folder existing new,
     folders (disk st) !! folder_name = Some folder →
     folder !! file_name = Some existing →
     tickets (disk st) !! file_name = Some new →
     ∃ st', move_into_folder folder_name file_name st = (Return tt, st')
            ∧ folders (disk st') = folders (disk st)
            ∧ folders (disk st') !! folder_name ≫= (.!! file_name) = Some existing
            ∧ tickets (disk st') = delete file_name (tickets (disk st)))
  ∧ (∀ e target path st st1,
       ticket_file target = Some path →
       tickets (disk st) !! path = None →
       save_into_folder e target st = (Return tt, st1) →
       ∃ folder_name folder t st2,
         folders (disk st1) !! folder_name = Some folder ∧ folder !! path = Some t
         ∧ tickets (disk st1) !! path = None
         ∧ save_into_folder e target st1 = (Return tt, st2)
         ∧ folders (disk st2) = folders (disk st1)
         ∧ tickets (disk st2) !! path = None).
Proof.
  split.
  - intros folder_name file_name st folder existing new Hfolder Hfile Hnew.
    eexists. split; [by apply move_into_folder_run|].
    destruct (moved_collision folder_name file_name new (disk st) folder existing)
      as (Hkept & Hremoved & _); [done..|].
    change (folders (moved folder_name file_name new (disk st)) = folders (disk st)
            ∧ folders (moved folder_name file_name new (disk st)) !! folder_name
              ≫= (.!! file_name) = Some existing
            ∧ tickets (moved folder_name file_name new (disk st))
              = delete file_name (tickets (disk st))).
    rewrite Hkept, Hremoved, Hfolder. done.
  - apply save_into_folder_again.
Qed.

Lemma folder_collision_witness :
  (∃ st', move_into_folder "20240601" "TOI1234-01_2300_30s,60s_Ha,v_#0.json" sample_rewritten
          = (Return tt, st')
          ∧ folders (disk st') = folders (disk sample_rewritten)
          ∧ folders (disk st') !! "20240601" ≫= (.!! "TOI1234-01_2300_30s,60s_Ha,v_#0.json")
            = tickets (disk sample_rewritten) !! "TOI1234-01_2300_30s,60s_Ha,v_#0.json"
          ∧ tickets (disk st')
            = delete "TOI1234-01_2300_30s,60s_Ha,v_#0.json" (tickets (disk sample_rewritten)))
  ∧ (∃ folder_name folder t st2,
       folders (disk sample_archived) !! folder_name = Some folder
       ∧ folder !! "TOI1234-01_2300_30s,60s_Ha,v_#0.json" = Some t
       ∧ tickets (disk sample_archived) !! "TOI1234-01_2300_30s,60s_Ha,v_#0.json" = None
       ∧ save_into_folder sample_env sample_first_target sample_archived = (Return tt, st2)
       ∧ folders (disk st2) = folders (disk sample_archived)
       ∧ tickets (disk st2) !! "TOI1234-01_2300_30s,60s_Ha,v_#0.json" = None).
Proof.
  split.
  - assert (is_Some (tickets (disk sample_rewritten) !! "TOI1234-01_2300_30s,60s_Ha,v_#0.json"))
      as [new Hnew] by (vm_compute; eexists; reflexivity).
    assert (is_Some (folders (disk sample_rewritten) !! "20240601"))
      as [folder Hfolder] by (vm_compute; eexists; reflexivity).
    assert (folders (disk sample_rewritten) !! "20240601"
              ≫= (.!! "TOI1234-01_2300_30s,60s_Ha,v_#0.json")
            = tickets (disk sample_rewritten) !! "TOI1234-01_2300_30s,60s_Ha,v_#0.json")
      as Hfile by (vm_compute; reflexivity).
    rewrite Hnew. rewrite Hfolder, Hnew in Hfile.
    exact (proj1 folder_collision "20240601" "TOI1234-01_2300_30s,60s_Ha,v_#0.json"
             sample_rewritten folder new new Hfolder Hfile Hnew).
  - apply (proj2 folder_collision sample_env sample_first_target
             "TOI1234-01_2300_30s,60s_Ha,v_#0.json" sample_started sample_archived).
    + vm_compute. reflexivity.
    + vm_compute. reflexivity.
    + unfold sample_archived. apply run_Return. vm_compute. reflexivity.
Defined.

(** ** C5: the folders of a batch *)

Section loops.
Context {A : Type} (body : A → M unit) (R : state → state → Prop).
Hypothesis R_refl : ∀ s, R s s.
Hypothesis R_trans : ∀ a b c, R a b → R b c → R a c.
Hypothesis body_R : ∀ x s s', body x s = (Return tt, s') → R s s'.

End loops.






Example sample_batch_files :
  (save_all_auto_folders sample_env sample_started).1 = Return tt
  ∧ (λ kv, (kv.1, fst <$> map_to_list kv.2)) <$> map_to_list (folders (disk sample_batch))
    = [("20240601", ["TOI1234-01_2300_30s,60s_Ha,v_#0.json"]);
       ("20240602", ["iss_0230_Mode2_5_r_#1.json"])]
  ∧ map_to_list (tickets (disk sample_batch)) = []
  ∧ clipboard sample_batch = "python -m omegalambda run C:/tickets/20240530".
Proof. vm_compute. by repeat split. Qed.




(** * Further properties of the script *)

(** ** [list_split] on the exposure box *)

Example list_split_exposure_30 :
  (list_split exposure_time (typed exposure_time " 30" blank)).1
  = Return (Float (Py.PyFloat "30")).
Proof. reflexivity. Qed.

Example list_split_exposure_empty :
  (list_split exposure_time (typed exposure_time "" blank)).1 = Raise ValueError.
Proof. reflexivity. Qed.

Example list_split_exposure_30s :
  (list_split exposure_time (typed exposure_time "30s, 60" blank)).1 = Raise ValueError.
Proof. reflexivity. Qed.

(** For an exposure box whose text, blanks removed, is the comma-separated
    sequence [toks], [list_split] reads every token as a float: one token
    gives a float, several give the list of the floats in the order of the
    text, and a token that is no float literal gives [ValueError]. The
    state is left as it is. *)
Theorem list_split_exposure (toks : list string) (st : state) :
  toks ≠ [] →
  Forall (λ t, Py.contains_char "," t = false) toks →
  Py.replace (entries st exposure_time) " " "" = Py.join "," toks →
  list_split exposure_time st
  = (match mapM Py.float toks with
     | Some [x] => Return (Float x)
     | Some xs => Return (FloatList xs)
     | None => Raise ValueError
     end, st).
Proof.
  intros Hne Hfree Htext. unfold list_split.
  rewrite (bind_run _ _ st st st) by done. unfold list_split_text. cbv zeta.
  rewrite Htext, split_join by done.
  destruct (decide (exposure_time = exposure_time)) as [_|?]; [|done].
  destruct toks as [|t [|t' toks]]; [done| |].
  - cbn. by destruct (Py.float t).
  - change (1 <? length (t :: t' :: toks))%nat with true. cbv iota.
    destruct (mapM Py.float (t :: t' :: toks)) as [xs|] eqn:Hxs; [|done].
    cbn. apply length_mapM in Hxs. by destruct xs as [|x [|x' xs]].
Qed.

Lemma list_split_exposure_witness :
  list_split exposure_time (typed exposure_time "2.5, 60 ,1e3" blank)
  = (Return (FloatList [Py.PyFloat "2.5"; Py.PyFloat "60"; Py.PyFloat "1e3"]),
     typed exposure_time "2.5, 60 ,1e3" blank).
Proof.
  apply (list_split_exposure ["2.5"; "60"; "1e3"] (typed exposure_time "2.5, 60 ,1e3" blank)).
  - discriminate.
  - repeat constructor.
  - reflexivity.
Defined.

(** ** What [savetxt] leaves alone *)

Example savetxt_cleared :
  (clear_box ≫= λ _, savetxt sample_env) sample_started
  = (Raise ValueError, cleared sample_started).
Proof. reflexivity. Qed.



(** ** Dates and clocks read back from their text *)

Lemma first_match_bind {A B} (p : Re.parser A) (k : A → Re.parser B) s a r b r' :
  first_match p s a r → first_match (k a) r b r' → first_match (Re.bind p k) s b r'.
Proof.
  intros [tl Hp] [tl' Hk]. unfold first_match, Re.bind. rewrite Hp. cbn. rewrite Hk.
  eexists. reflexivity.
Qed.

Lemma first_match_ret {A} (a : A) s : first_match (Re.ret a) s a s.
Proof. by exists []. Qed.

Lemma first_match_lit c r : first_match (Re.lit c) (String c r) tt r.
Proof. exists []. cbn. by rewrite Ascii.eqb_refl. Qed.

Lemma first_match_digit v r :
  0 ≤ v ≤ 9 → first_match (Re.digit 0 9) (String (Py.digit_char v) r) v r.
Proof.
  intros Hv. exists []. cbn. rewrite digit_val_char by done.
  destruct (Z.leb_spec 0 v), (Z.leb_spec v 9); try lia. done.
Qed.

(** an induction over the numbers from [lo] on, [n] of them *)
Lemma Z_range_cases (P : Z → Prop) (lo : Z) (n : nat) :
  (∀ k : nat, (k < n)%nat → P (lo + Z.of_nat k)) → ∀ v, lo ≤ v < lo + Z.of_nat n → P v.
Proof.
  intros H v Hv. replace v with (lo + Z.of_nat (Z.to_nat (v - lo))) by lia.
  apply H. lia.
Qed.

Tactic Notation "enumerate" ident(k) integer(n) :=
  do n (destruct k as [|k]; [cbv; eauto|]); lia.

Lemma first_match_dir_Y y r :
  0 ≤ y ≤ 9999 → first_match Re.dir_Y (Py.pad4 y +:+ r) y r.
Proof.
  intros Hy. unfold Re.dir_Y, Py.pad4, Py.pad2. rewrite !append_cons, append_nil_l.
  eapply first_match_bind;
    [apply first_match_digit; Z.to_euclidean_division_equations; lia|].
  eapply first_match_bind;
    [apply first_match_digit; Z.to_euclidean_division_equations; lia|].
  eapply first_match_bind;
    [apply first_match_digit; Z.to_euclidean_division_equations; lia|].
  eapply first_match_bind;
    [apply first_match_digit; Z.to_euclidean_division_equations; lia|].
  replace (1000 * (y / 1000) + 100 * (y / 100 mod 10) + 10 * (y mod 100 / 10) + y mod 100 mod 10)
    with y by (Z.to_euclidean_division_equations; lia).
  apply first_match_ret.
Qed.

Lemma first_match_dir_m m r : 1 ≤ m ≤ 12 → first_match Re.dir_m (Py.pad2 m +:+ r) m r.
Proof.
  intros Hm. assert (1 ≤ m < 1 + Z.of_nat 12) as Hr by lia. clear Hm. revert m Hr.
  apply (Z_range_cases (λ m, first_match Re.dir_m (Py.pad2 m +:+ r) m r)).
  intros k Hk. unfold first_match. enumerate k 12.
Qed.

Lemma first_match_dir_d d r : 1 ≤ d ≤ 31 → first_match Re.dir_d (Py.pad2 d +:+ r) d r.
Proof.
  intros Hd. assert (1 ≤ d < 1 + Z.of_nat 31) as Hr by lia. clear Hd. revert d Hr.
  apply (Z_range_cases (λ d, first_match Re.dir_d (Py.pad2 d +:+ r) d r)).
  intros k Hk. unfold first_match. enumerate k 31.
Qed.

Lemma first_match_dir_H h r : 0 ≤ h ≤ 23 → first_match Re.dir_H (Py.pad2 h +:+ r) h r.
Proof.
  intros Hh. assert (0 ≤ h < 0 + Z.of_nat 24) as Hr by lia. clear Hh. revert h Hr.
  apply (Z_range_cases (λ h, first_match Re.dir_H (Py.pad2 h +:+ r) h r)).
  intros k Hk. unfold first_match. enumerate k 24.
Qed.

Lemma first_match_dir_M m r : 0 ≤ m ≤ 59 → first_match Re.dir_M (Py.pad2 m +:+ r) m r.
Proof.
  intros Hm. assert (0 ≤ m < 0 + Z.of_nat 60) as Hr by lia. clear Hm. revert m Hr.
  apply (Z_range_cases (λ m, first_match Re.dir_M (Py.pad2 m +:+ r) m r)).
  intros k Hk. unfold first_match. enumerate k 60.
Qed.

Lemma first_match_dir_S s r : 0 ≤ s ≤ 59 → first_match Re.dir_S (Py.pad2 s +:+ r) s r.
Proof.
  intros Hs. assert (0 ≤ s < 0 + Z.of_nat 60) as Hr by lia. clear Hs. revert s Hr.
  apply (Z_range_cases (λ s, first_match Re.dir_S (Py.pad2 s +:+ r) s r)).
  intros k Hk. unfold first_match. enumerate k 60.
Qed.

Lemma valid_date_range d :
  valid_date d = true →
  1 ≤ year d ≤ 9999 ∧ 1 ≤ month d ≤ 12 ∧ 1 ≤ day d ≤ days_in_month (year d) (month d)
  ∧ days_in_month (year d) (month d) ≤ 31.
Proof.
  unfold valid_date. rewrite !andb_true_iff, !Z.leb_le. intros [[[[[? ?] ?] ?] ?] ?].
  repeat split; try done.
  unfold days_in_month. repeat case_match; lia.
Qed.

Lemma first_match_pat_Ymd d r :
  valid_date d = true →
  first_match Re.pat_Ymd (str_date d +:+ r) (year d, month d, day d) r.
Proof.
  intros (Hy & Hm & Hd & Hdim)%valid_date_range.
  unfold str_date, Re.pat_Ymd. rewrite !append_assoc.
  eapply first_match_bind; [apply first_match_dir_Y; lia|].
  eapply first_match_bind; [apply first_match_lit|].
  eapply first_match_bind; [apply first_match_dir_m; lia|].
  eapply first_match_bind; [apply first_match_lit|].
  eapply first_match_bind; [apply first_match_dir_d; lia|].
  apply first_match_ret.
Qed.

Lemma strptime_match_first {A} (p : Re.parser A) s a :
  first_match p s a "" → Re.strptime_match p s = Some a.
Proof. intros [tl Hp]. unfold Re.strptime_match. by rewrite Hp. Qed.

(** [strptime] reads the date that [str] has written. *)
Lemma strptime_Ymd_str_date d : valid_date d = true → strptime_Ymd (str_date d) = Some d.
Proof.
  intros Hd. unfold strptime_Ymd.
  rewrite (strptime_match_first _ _ (year d, month d, day d)).
  - cbn. unfold checked_date. destruct d as [y m dd]. cbn in *. by rewrite Hd.
  - rewrite <- (append_nil_r (str_date d)). by apply first_match_pat_Ymd.
Qed.

Lemma first_match_pat_HMS h m s r :
  0 ≤ h ≤ 23 → 0 ≤ m ≤ 59 → 0 ≤ s ≤ 59 →
  first_match Re.pat_HMS (strftime_HMS h m s +:+ r) (h, m, s) r.
Proof.
  intros Hh Hm Hs. unfold strftime_HMS, Re.pat_HMS, Re.pat_HM. rewrite !append_assoc.
  eapply first_match_bind.
  { eapply first_match_bind; [by apply first_match_dir_H|].
    eapply first_match_bind; [apply first_match_lit|].
    eapply first_match_bind; [by apply first_match_dir_M|].
    apply first_match_ret. }
  eapply first_match_bind; [apply first_match_lit|].
  eapply first_match_bind; [by apply first_match_dir_S|].
  apply first_match_ret.
Qed.

Lemma is_space_digit v : 0 ≤ v ≤ 9 → Py.is_space (Py.digit_char v) = false.
Proof.
  intros Hv. assert (0 ≤ v < 0 + Z.of_nat 10) as Hr by lia. clear Hv. revert v Hr.
  apply (Z_range_cases (λ v, Py.is_space (Py.digit_char v) = false)).
  intros k Hk. enumerate k 10.
Qed.

Lemma first_match_blank h r :
  0 ≤ h ≤ 99 → first_match Re.spaces1 (" " +:+ Py.pad2 h +:+ r) tt (Py.pad2 h +:+ r).
Proof.
  intros Hh. exists []. unfold Py.pad2. rewrite !append_cons, !append_nil_l.
  cbn [Re.spaces1]. rewrite is_space_digit by (Z.to_euclidean_division_equations; lia).
  done.
Qed.

(** [strptime] reads the time that [target_grab] has written. *)
Lemma strptime_Ymd_HMS_str d h m s :
  valid_date d = true → 0 ≤ h ≤ 23 → 0 ≤ m ≤ 59 → 0 ≤ s ≤ 59 →
  strptime_Ymd_HMS (str_date d +:+ " " +:+ strftime_HMS h m s) = Some (DateTime d h m s).
Proof.
  intros Hd Hh Hm Hs. unfold strptime_Ymd_HMS.
  rewrite (strptime_match_first _ _ ((year d, month d, day d), (h, m, s))).
  - cbn. unfold checked_date. destruct d as [y mo dd]. cbn in *. rewrite Hd.
    by destruct (Z.leb_spec s 59); [|lia].
  - unfold Re.pat_Ymd_HMS.
    eapply first_match_bind; [by apply first_match_pat_Ymd|].
    eapply first_match_bind; [unfold strftime_HMS; apply first_match_blank; lia|].
    eapply first_match_bind.
    { change (Py.pad2 h +:+ ":" +:+ Py.pad2 m +:+ ":" +:+ Py.pad2 s)
        with (strftime_HMS h m s).
      rewrite <- (append_nil_r (strftime_HMS h m s)). by apply first_match_pat_HMS. }
    apply first_match_ret.
Qed.

Lemma strptime_Ymd_valid s d : strptime_Ymd s = Some d → valid_date d = true.
Proof.
  unfold strptime_Ymd. destruct (Re.strptime_match _ _) as [[[y m] dd]|]; [|done].
  cbn. unfold checked_date. destruct (valid_date (Date y m dd)) eqn:Hv; [|done].
  by intros [= <-].
Qed.

Lemma days_in_month_range y m : 28 ≤ days_in_month y m ≤ 31.
Proof. unfold days_in_month. repeat case_match; lia. Qed.

Lemma next_day_valid d d' : valid_date d = true → next_day d = Some d' → valid_date d' = true.
Proof.
  intros (Hy & Hm & Hd & _)%valid_date_range. unfold next_day.
  destruct (Z.ltb_spec (day d) (days_in_month (year d) (month d))).
  { intros [= <-]. unfold valid_date. cbn. rewrite !andb_true_iff, !Z.leb_le. lia. }
  destruct (Z.ltb_spec (month d) 12).
  { intros [= <-]. unfold valid_date. cbn. rewrite !andb_true_iff, !Z.leb_le.
    pose proof (days_in_month_range (year d) (month d + 1)). lia. }
  destruct (Z.ltb_spec (year d) 9999); [|done].
  intros [= <-]. unfold valid_date. cbn. rewrite !andb_true_iff, !Z.leb_le.
  pose proof (days_in_month_range (year d + 1) 1). lia.
Qed.

(** The day before the day after is the day itself. *)
Lemma prev_day_next_day d d' :
  valid_date d = true → next_day d = Some d' → prev_day d' = Some d.
Proof.
  intros (Hy & Hm & Hd & _)%valid_date_range. unfold next_day, prev_day.
  destruct d as [y m dd]. cbn in *.
  destruct (Z.ltb_spec dd (days_in_month y m)).
  { intros [= <-]. cbn. destruct (Z.ltb_spec 1 (dd + 1)); [|lia]. do 2 f_equal. lia. }
  destruct (Z.ltb_spec m 12).
  { intros [= <-]. cbn. destruct (Z.ltb_spec 1 (m + 1)); [|lia].
    replace (m + 1 - 1) with m by lia. do 2 f_equal. lia. }
  destruct (Z.ltb_spec y 9999); [|done].
  intros [= <-]. cbn. destruct (Z.ltb_spec 1 (y + 1)); [|lia].
  replace (y + 1 - 1) with y by lia. assert (m = 12) as -> by lia.
  f_equal. f_equal. change (days_in_month y 12) with 31 in *. lia.
Qed.

(** *** The offset taken off a time *)

Lemma replace_go_skip old new c r :
  String.prefix old (String c r) = false →
  Py.replace_go old new 0 (String c r) = String c (Py.replace_go old new 0 r).
Proof. intros H. cbn [Py.replace_go]. by rewrite H. Qed.

Lemma prefix_head_ne a p b s : a ≠ b → String.prefix (String a p) (String b s) = false.
Proof. intros Hne. cbn. by destruct (ascii_dec a b). Qed.

Lemma prefix_fourth_ne a0 a1 a2 a3 p b0 b1 b2 b3 s :
  a3 ≠ b3 →
  String.prefix (String a0 (String a1 (String a2 (String a3 p))))
    (String b0 (String b1 (String b2 (String b3 s)))) = false.
Proof.
  intros Hne. cbn.
  destruct (ascii_dec a0 b0); [|done]. destruct (ascii_dec a1 b1); [|done].
  destruct (ascii_dec a2 b2); [|done]. by destruct (ascii_dec a3 b3).
Qed.

Lemma digit_char_ne_dash v : 0 ≤ v ≤ 9 → Py.digit_char v ≠ "-"%char.
Proof.
  intros Hv. assert (0 ≤ v < 0 + Z.of_nat 10) as Hr by lia. clear Hv. revert v Hr.
  apply (Z_range_cases (λ v, Py.digit_char v ≠ "-"%char)).
  intros k Hk. do 10 (destruct k as [|k]; [discriminate|]). lia.
Qed.

Lemma replace_offset (y1 y2 y3 y4 m1 m2 d1 d2 h1 h2 i1 i2 s1 s2 : ascii) dst :
  Forall (λ c, c ≠ "-"%char) [y1; y2; y3; y4; m1; m2; d1; d2; h1; h2; i1; i2; s1; s2] →
  dst = "-04:00" ∨ dst = "-05:00" →
  Py.replace
    (String y1 (String y2 (String y3 (String y4 (String "-" (String m1 (String m2
       (String "-" (String d1 (String d2 (String " " (String h1 (String h2 (String ":"
       (String i1 (String i2 (String ":" (String s1 (String s2 dst)))))))))))))))))))
    dst ""
  = String y1 (String y2 (String y3 (String y4 (String "-" (String m1 (String m2
       (String "-" (String d1 (String d2 (String " " (String h1 (String h2 (String ":"
       (String i1 (String i2 (String ":" (String s1 (String s2 "")))))))))))))))))).
Proof.
  intros Hd Hdst. unfold Py.replace.
  repeat match goal with H : Forall _ (_ :: _) |- _ => apply Forall_cons in H as [? H] end.
  destruct Hdst as [-> | ->];
    repeat (rewrite replace_go_skip;
            [|first [apply prefix_head_ne; congruence
                    |apply prefix_fourth_ne; discriminate]]);
    reflexivity.
Qed.

Lemma replace_timestamp d h m s dst :
  valid_date d = true → 0 ≤ h ≤ 23 → 0 ≤ m ≤ 59 → 0 ≤ s ≤ 59 →
  dst = "-04:00" ∨ dst = "-05:00" →
  Py.replace ((str_date d +:+ " " +:+ strftime_HMS h m s) +:+ dst) dst ""
  = str_date d +:+ " " +:+ strftime_HMS h m s.
Proof.
  intros (Hy & Hm & Hd & Hdim)%valid_date_range Hh Hmi Hs Hdst.
  unfold str_date, strftime_HMS, Py.pad4, Py.pad2.
  rewrite !append_assoc, !append_cons, !append_nil_l.
  apply replace_offset; [|done].
  repeat constructor; apply digit_char_ne_dash; Z.to_euclidean_division_equations; lia.
Qed.

Lemma dst_check_cases e : dst_check e = "-04:00" ∨ dst_check e = "-05:00".
Proof. unfold dst_check. destruct (tm_isdst e); auto. Qed.

(** ** The night folder of an entry *)

(** The batch puts the ticket of an entry, when its file is new in the
    script's directory, in the folder of the night that the entry names;
    but a ticket whose start clock has the hour 12 goes to the folder of
    the day after. *)
Theorem night_folder_of_entry e target path st st' :
  ticket_file target = Some path →
  tickets (disk st) !! path = None →
  save_into_folder e target st = (Return tt, st') →
  ∃ night r hs ms d,
    selected_date (selected target st) = Some night
    ∧ selected_row (selected target st) = Some r
    ∧ strptime_HM (str_cell (Start r)) = Some (hs, ms)
    ∧ (if hs =? 12 then next_day night else Some night) = Some d
    ∧ archived (strftime_Ymd d) path (disk st').
Proof.
  intros Hpath Hfresh Hrun.
  apply save_into_folder_Return in Hrun
    as (sb & sc & path' & t & start & d & Hgrab & Hsave & Hpath' & Ht & Hstart & Hd & ->).
  assert (path' = path) as -> by congruence. clear Hpath'.
  assert (target ≠ "Observation List") as Hne.
  { intros ->. by rewrite ticket_file_Observation_List in Hpath. }
  apply target_grab_Return in Hgrab
    as (night & r & sheet & sat & mode & info & s_info & hs & ms & he & me & ds & de
        & Hnight & Hrow & _ & _ & _ & _ & _ & Hinfo & Hs & _ & Hds & _
        & He1 & _ & Hs1 & _ & _ & _ & _ & _ & Hdisk1 & _); [|done].
  pose proof (target_grab_info_chart_frame _ _ _ _ Hinfo)
    as (_ & _ & _ & _ & _ & _ & _ & _ & Htk & _).
  change (disk (cleared (selected target st))) with (disk st) in Htk.
  apply savetxt_Return in Hsave
    as (i & j & _ & _ & [(_ & _ & ->)|(_ & num & p & _ & Hp & Hsc)]).
  { rewrite satellite_refused_disk, Hdisk1, Htk in Ht. congruence. }
  rewrite (Hs1 selection) in Hp.
  change (string_vars (selected target st) selection) with target in Hp.
  assert (p = path) as -> by congruence. clear Hp.
  rewrite Hsc, ticket_written_tickets, lookup_insert_eq in Ht. injection Ht as <-.
  cbn [details_start_time observation_ticket] in Hstart. rewrite (He1 start_time) in Hstart.
  pose proof (strptime_Ymd_valid _ _ Hnight) as Hvalid.
  destruct (strptime_HM_clock _ _ _ Hs) as (Hhs & Hms & _).
  assert (valid_date ds = true) as Hvalid_ds.
  { destruct (hs <=? 12); [by eapply next_day_valid|by injection Hds as <-]. }
  rewrite replace_timestamp in Hstart by (done || lia || apply dst_check_cases).
  rewrite strptime_Ymd_HMS_str in Hstart by (done || lia). injection Hstart as <-.
  unfold folder_date in Hd. cbn [dt_hour dt_date] in Hd.
  assert (∃ d', (if hs =? 12 then next_day night else Some night) = Some d' ∧ d = d')
    as (d' & Hd' & ->).
  { destruct (Z.ltb_spec hs 12).
    - destruct (Z.leb_spec hs 12); [|lia]. destruct (Z.eqb_spec hs 12); [lia|].
      exists night. split; [done|].
      rewrite (prev_day_next_day night ds) in Hd by done. by injection Hd.
    - injection Hd as <-. destruct (Z.eqb_spec hs 12) as [->|].
      + by exists ds.
      + destruct (Z.leb_spec hs 12); [lia|]. exists night. split; [done|].
        by injection Hds. }
  exists night, r, hs, ms, d'. do 4 (split; [done|]).
  destruct (moved_holds (strftime_Ymd d') path
              (observation_ticket (dst_check e) sb i j num) (disk sc))
    as (folder & t' & ? & ?).
  exists folder. split; [done|]. by exists t'.
Qed.

Example sample_noon_folder :
  toi_list (startup sample_noon_env blank).2
  = ["Observation List"; "2024-06-01: M31_12:30_30s_v_#0"]
  ∧ (λ kv, (kv.1, fst <$> map_to_list kv.2)) <$> map_to_list (folders (disk sample_noon_batch))
    = [("20240602", ["M31_1230_30s_v_#0.json"])].
Proof. vm_compute. by repeat split. Qed.

Lemma night_folder_of_entry_witness :
  ∃ night r hs ms d,
    selected_date (selected sample_first_target sample_started) = Some night
    ∧ selected_row (selected sample_first_target sample_started) = Some r
    ∧ strptime_HM (str_cell (Start r)) = Some (hs, ms)
    ∧ (if hs =? 12 then next_day night else Some night) = Some d
    ∧ archived (strftime_Ymd d) "TOI1234-01_2300_30s,60s_Ha,v_#0.json" (disk sample_archived).
Proof.
  apply (night_folder_of_entry sample_env sample_first_target
           "TOI1234-01_2300_30s,60s_Ha,v_#0.json" sample_started sample_archived).
  - vm_compute. reflexivity.
  - vm_compute. reflexivity.
  - unfold sample_archived. apply run_Return. vm_compute. reflexivity.
Defined.

(** ** Numbers read back from their text *)

Lemma int_digits_acc u acc :
  Py.int_digits (Z.pos acc) true (NilEmpty.string_of_uint u)
  = Some (Z.pos (Pos.of_uint_acc u acc)).
Proof.
  revert acc. induction u as [|u IH|u IH|u IH|u IH|u IH|u IH|u IH|u IH|u IH|u IH];
    intros acc; [done|..];
    cbn [NilEmpty.string_of_uint Py.int_digits Pos.of_uint_acc];
    match goal with
    | |- context [Py.digit_val ?c] =>
        let v := eval vm_compute in (Py.digit_val c) in
        change (Py.digit_val c) with v; cbv iota
    end;
    rewrite <- IH; f_equal; lia.
Qed.

Lemma int_digits_uint u b :
  u ≠ Decimal.Nil ∨ b = true →
  Py.int_digits 0 b (NilEmpty.string_of_uint u) = Some (Z.of_N (Pos.of_uint u)).
Proof.
  revert b. induction u as [|u IH|u IH|u IH|u IH|u IH|u IH|u IH|u IH|u IH|u IH];
    intros b Hb.
  { destruct Hb as [?| ->]; done. }
  { cbn [NilEmpty.string_of_uint Py.int_digits Pos.of_uint].
    change (Py.digit_val "0") with (Some 0). cbv iota. apply IH. by right. }
  all: cbn [NilEmpty.string_of_uint Py.int_digits Pos.of_uint];
    match goal with
    | |- context [Py.digit_val ?c] =>
        let v := eval vm_compute in (Py.digit_val c) in
        change (Py.digit_val c) with v; cbv iota
    end;
    cbn [Z.mul Z.add Pos.mul Pos.add]; apply int_digits_acc.
Qed.

Lemma all_chars_impl (P Q : ascii → bool) s :
  (∀ c, P c = true → Q c = true) → all_chars P s = true → all_chars Q s = true.
Proof.
  intros HPQ. induction s as [|c s IH]; [done|]. cbn.
  intros [? ?]%andb_true_iff. rewrite HPQ by done. by apply IH.
Qed.


Lemma string_of_uint_digits u : all_chars is_digit (NilEmpty.string_of_uint u) = true.
Proof. induction u; [done|..]; cbn [NilEmpty.string_of_uint all_chars]; by rewrite IHu. Qed.

Lemma rstrip_no_space s :
  all_chars (λ c, negb (Py.is_space c)) s = true → Py.rstrip s = s.
Proof.
  induction s as [|c s IH]; [done|]. cbn [all_chars Py.rstrip].
  intros [Hc Hs]%andb_true_iff. rewrite IH by done.
  destruct s; [|done]. by apply negb_true_iff in Hc as ->.
Qed.

Lemma strip_no_space s :
  all_chars (λ c, negb (Py.is_space c)) s = true → Py.strip s = s.
Proof.
  intros Hs. unfold Py.strip.
  assert (Py.lstrip s = s) as ->; [|by apply rstrip_no_space].
  destruct s as [|c s]; [done|]. cbn in *.
  apply andb_true_iff in Hs as [Hc _]. by apply negb_true_iff in Hc as ->.
Qed.

Lemma is_digit_code c : is_digit c = true → 48 ≤ Py.code c ≤ 57.
Proof. unfold is_digit. rewrite andb_true_iff, !Z.leb_le. lia. Qed.

Lemma is_digit_no_space c : is_digit c = true → negb (Py.is_space c) = true.
Proof.
  intros ?%is_digit_code. unfold Py.is_space. apply negb_true_iff.
  rewrite orb_false_iff, !andb_false_iff, !Z.leb_gt. lia.
Qed.

Lemma str_int_nonneg n :
  0 ≤ n →
  ∃ u, u ≠ Decimal.Nil ∧ Py.str_int n = NilEmpty.string_of_uint u
       ∧ Z.of_N (Pos.of_uint u) = n.
Proof.
  intros Hn. unfold Py.str_int. destruct n as [|p|p]; [| |lia].
  - exists (Decimal.D0 Decimal.Nil). done.
  - exists (Pos.to_uint p). cbn [Z.to_int NilZero.string_of_int].
    assert (Pos.to_uint p ≠ Decimal.Nil) as Hnil.
    { intros Heq. pose proof (DecimalPos.Unsigned.of_to p) as H. rewrite Heq in H. done. }
    split; [done|]. split.
    + unfold NilZero.string_of_uint. by destruct (Pos.to_uint p).
    + by rewrite DecimalPos.Unsigned.of_to.
Qed.

(** The text of a natural number has digits only. *)
Lemma str_int_digits n : 0 ≤ n → all_chars is_digit (Py.str_int n) = true.
Proof.
  intros (u & _ & -> & _)%str_int_nonneg. apply string_of_uint_digits.
Qed.

(** [int] reads the number that [str] has written. *)
Lemma int_str_int n : 0 ≤ n → Py.int (Py.str_int n) = Some n.
Proof.
  intros Hn. pose proof (str_int_digits n Hn) as Hdigits.
  destruct (str_int_nonneg n Hn) as (u & Hu & Hstr & Hval).
  unfold Py.int. rewrite strip_no_space
    by (eapply all_chars_impl; [apply is_digit_no_space|done]).
  rewrite Hstr in *.
  assert (Py.int_digits 0 false (NilEmpty.string_of_uint u) = Some n) as Hgoal.
  { rewrite int_digits_uint by auto. by rewrite Hval. }
  destruct u; try done; exact Hgoal.
Qed.

(** ** Splitting an entry of the list *)

Lemma prefix_append p r : String.prefix p (p +:+ r) = true.
Proof.
  induction p as [|c p IH]; [by destruct r|]. rewrite append_cons. cbn.
  by destruct (ascii_dec c c).
Qed.

Lemma split_go_drop sep s rest :
  Py.split_go sep (String.length s) (s +:+ rest) = Py.split_go sep 0 rest.
Proof.
  induction s as [|c s IH]; [by destruct rest|]. rewrite append_cons. cbn. done.
Qed.

(** A text without the separator is one field. *)
Lemma split_go_none sep s : contains sep s = false → Py.split_go sep 0 s = (s, []).
Proof.
  induction s as [|c s IH]; [done|]. cbn [contains Py.split_go].
  intros [Hp Hs]%orb_false_iff. rewrite Hp, IH by done. done.
Qed.

(** A split into one field gives the text itself. *)
Lemma split_go_whole sep s t : Py.split_go sep 0 s = (t, []) → t = s.
Proof.
  revert t. induction s as [|c s IH]; intros t; [by intros [= <-]|].
  cbn [Py.split_go]. destruct (String.prefix sep (String c s)).
  - destruct (Py.split_go sep (Nat.pred _) s). intros [=].
  - destruct (Py.split_go sep 0 s) as [t' ts] eqn:Hs. intros [= <- ->].
    by rewrite (IH t').
Qed.

(** The first field ends at the separator, when the first character of the
    separator is not in it. *)
Lemma split_go_at c sep t rest :
  Py.contains_char c t = false →
  Py.split_go (String c sep) 0 (t +:+ String c sep +:+ rest)
  = (t, (Py.split_go (String c sep) 0 rest).1 :: (Py.split_go (String c sep) 0 rest).2).
Proof.
  induction t as [|d t IH].
  - intros _. rewrite append_nil_l, append_cons. cbn [Py.split_go].
    assert (String.prefix (String c sep) (String c (sep +:+ rest)) = true) as ->
      by (rewrite <- append_cons; apply prefix_append).
    cbn [String.length Nat.pred]. rewrite split_go_drop.
    by destruct (Py.split_go _ _ rest).
  - intros [Hne Hfree]%contains_char_cons. rewrite append_cons. cbn [Py.split_go].
    rewrite prefix_head_ne by done. by rewrite IH.
Qed.

Lemma split_at c sep t rest :
  Py.contains_char c t = false →
  Py.split (t +:+ String c sep +:+ rest) (String c sep) = t :: Py.split rest (String c sep).
Proof.
  intros Hfree. unfold Py.split. rewrite split_go_at by done.
  by destruct (Py.split_go _ _ rest).
Qed.

(** The last field starts after the last separator. *)
Lemma split_go_last c p q :
  Py.contains_char c q = false →
  ∃ t ts, Py.split_go (String c "") 0 (p +:+ String c q) = (t, ts)
          ∧ ts ≠ [] ∧ List.last ts "" = q.
Proof.
  intros Hq. induction p as [|d p (t & ts & IH & Hne & Hlast)].
  - rewrite append_nil_l. cbn [Py.split_go]. rewrite prefix_char, bool_decide_eq_true_2 by done.
    cbn [String.length Nat.pred]. rewrite split_go_free by done. by eexists _, _.
  - rewrite append_cons. cbn [Py.split_go]. rewrite prefix_char, IH.
    cbn [String.length Nat.pred]. rewrite ?IH. cbv beta iota.
    destruct (bool_decide (c = d)).
    + eexists _, _. split; [done|]. split; [done|].
      destruct ts; [done|]. exact Hlast.
    + by eexists _, _.
Qed.

Lemma split_last c p q :
  Py.contains_char c q = false →
  List.last (Py.split (p +:+ String c q) (String c "")) "" = q.
Proof.
  intros (t & ts & H & Hne & Hlast)%(split_go_last c p). unfold Py.split. rewrite H.
  destruct ts; [done|]. exact Hlast.
Qed.

Lemma contains_char_all c P s :
  P c = false → all_chars P s = true → Py.contains_char c s = false.
Proof.
  intros Hc. induction s as [|d s IH]; [done|]. cbn.
  intros [Hd Hs]%andb_true_iff.
  destruct (Ascii.eqb_spec c d) as [->|]; [congruence|by apply IH].
Qed.

Lemma digit_char_is_digit v : 0 ≤ v ≤ 9 → is_digit (Py.digit_char v) = true.
Proof.
  intros Hv. assert (0 ≤ v < 0 + Z.of_nat 10) as Hr by lia. clear Hv. revert v Hr.
  apply (Z_range_cases (λ v, is_digit (Py.digit_char v) = true)).
  intros k Hk. enumerate k 10.
Qed.

Lemma str_date_no_colon d : valid_date d = true → Py.contains_char ":" (str_date d) = false.
Proof.
  intros (Hy & Hm & Hd & Hdim)%valid_date_range.
  apply (contains_char_all _ (λ c, is_digit c || Ascii.eqb c "-")); [done|].
  unfold str_date, Py.pad4, Py.pad2. rewrite !append_cons, !append_nil_l. cbn [all_chars].
  rewrite !digit_char_is_digit by (Z.to_euclidean_division_equations; lia). done.
Qed.

(** ** The entries of the list and the rows they come from *)

Lemma list_entry_parts x r night :
  night_of_date r = Some night →
  list_entry x r
  = str_date night +:+ ": " +:+ entry_name r +:+ "_#" +:+ Py.str_int (Z.of_nat x).
Proof.
  intros Hnight. unfold list_entry, entry_name. rewrite Hnight.
  cbn [fmap option_fmap option_map default]. by rewrite !append_assoc.
Qed.

(** The entries that the loop of [create_list] adds come from rows of
    increasing numbers, whose night is [current_date] or later. *)
Lemma create_list_loop_rows current_date sheet rs x acc l :
  create_list_loop current_date sheet x rs acc = Return l →
  ∃ xs new,
    l = (acc ++ new)%list ∧ NoDup xs ∧ Forall (λ i, (x ≤ i)%nat) xs
    ∧ Forall2 (λ i entry, ∃ r night,
                 rs !! (i - x)%nat = Some r ∧ night_of_date r = Some night
                 ∧ date_leb current_date night = true ∧ entry = list_entry i r) xs new.
Proof.
  revert x acc l. induction rs as [|r rs IH]; intros x acc l.
  { intros [= <-]. exists [], []. rewrite List.app_nil_r. repeat split; constructor. }
  assert (∀ l', create_list_loop current_date sheet (S x) rs acc = Return l' →
    ∃ xs new,
      l' = (acc ++ new)%list ∧ NoDup xs ∧ Forall (λ i, (x ≤ i)%nat) xs
      ∧ Forall2 (λ i entry, ∃ r0 night,
                   (r :: rs) !! (i - x)%nat = Some r0 ∧ night_of_date r0 = Some night
                   ∧ date_leb current_date night = true ∧ entry = list_entry i r0) xs new)
    as Hskip.
  { intros l' (xs & new & -> & Hnd & Hge & Hall)%IH. exists xs, new.
    split; [done|]. split; [done|]. split.
    - eapply Forall_impl; [exact Hge|]. cbn. lia.
    - clear Hnd. induction Hall as [|i entry xs new (r0 & night & Hr0 & ?) Hall IHall];
        [constructor|].
      apply Forall_cons in Hge as [Hi Hge]. constructor; [|by apply IHall].
      exists r0, night. split; [|done].
      replace (i - x)%nat with (S (i - S x)) by lia. done. }
  cbn [create_list_loop]. cbv zeta.
  change (if Py.startswith (str_cell (Target r)) "TOI"
          then Py.replace (Py.replace (str_cell (Target r)) " " "") "." "-"
          else str_cell (Target r)) with (display_name (str_cell (Target r))).
  destruct (negb _ && negb _); [|apply Hskip].
  fold (night_of_date r). destruct (night_of_date r) as [night|] eqn:Hnight; [|done].
  destruct (date_leb current_date night) eqn:Hle; [|apply Hskip].
  destruct (negb (String.eqb _ "NaN")); [|apply Hskip]. cbn [andb].
  destruct (has_Satellite_Tracking sheet); [|done].
  destruct (truthy_cell (Satellite_Tracking r) && negb (has_Tracking_Mode sheet)); [done|].
  intros (xs & new & -> & Hnd & Hge & Hall)%IH.
  exists (x :: xs), (list_entry x r :: new). split.
  { rewrite <- List.app_assoc. do 2 f_equal. cbn [app]. f_equal.
    unfold list_entry. rewrite Hnight. reflexivity. }
  split.
  { constructor; [|done]. intros Hin. rewrite Forall_forall in Hge.
    specialize (Hge x Hin). lia. }
  split.
  { constructor; [done|]. eapply Forall_impl; [exact Hge|]. cbn. lia. }
  constructor.
  { exists r, night. by rewrite Nat.sub_diag. }
  clear Hnd. induction Hall as [|i entry xs new (r0 & night0 & Hr0 & ?) Hall IHall];
    [constructor|].
  apply Forall_cons in Hge as [Hi Hge]. constructor; [|by apply IHall].
  exists r0, night0. split; [|done].
  replace (i - x)%nat with (S (i - S x)) by lia. done.
Qed.

Lemma night_of_date_valid r night : night_of_date r = Some night → valid_date night = true.
Proof. apply strptime_Ymd_valid. Qed.

Lemma is_digit_not_underscore c : is_digit c = true → negb (Ascii.eqb c "_") = true.
Proof.
  intros Hc%is_digit_code. apply negb_true_iff, Ascii.eqb_neq. intros ->.
  vm_compute in Hc. destruct Hc as [_ Hc]. by apply Hc.
Qed.

(** The number of the row is read back from the end of the entry. *)
Lemma entry_row_number p x :
  Py.int (Py.drop 1 (List.last (Py.split (p +:+ "_#" +:+ Py.str_int (Z.of_nat x)) "_") ""))
  = Some (Z.of_nat x).
Proof.
  change (p +:+ "_#" +:+ Py.str_int (Z.of_nat x))
    with (p +:+ String "_" ("#" +:+ Py.str_int (Z.of_nat x))).
  rewrite split_last.
  - cbn [Py.drop append]. apply int_str_int. lia.
  - apply (contains_char_all _ (λ c, negb (Ascii.eqb c "_"))); [done|].
    rewrite append_cons, append_nil_l. cbn [all_chars]. apply andb_true_iff. split; [done|].
    eapply all_chars_impl; [apply is_digit_not_underscore|]. apply str_int_digits. lia.
Qed.

(** The two fields of an entry that has the separator once. *)
Lemma entry_fields night name_ :
  valid_date night = true →
  length (Py.split (str_date night +:+ ": " +:+ name_) ": ") = 2%nat →
  Py.split (str_date night +:+ ": " +:+ name_) ": " = [str_date night; name_].
Proof.
  intros Hvalid. rewrite (split_at ":" " ") by by apply str_date_no_colon.
  unfold Py.split. destruct (Py.split_go ": " 0 name_) as [t ts] eqn:Hsplit.
  destruct ts as [|]; [|done]. intros _. by rewrite (split_go_whole _ _ _ Hsplit).
Qed.

Lemma create_list_Return e st l st' :
  create_list e st = (Return l, st') →
  st' = st
  ∧ ∃ f, toi_info (disk st) ≫= google_csv = Some f
         ∧ create_list_loop (today e) (content f) 0 (rows (content f)) [] = Return l.
Proof.
  intros H. unfold create_list in H.
  apply bind_Return in H as (sheet & s1 & Hsheet & H).
  apply fmap_Return in Hsheet as (f & Hread & ->).
  unfold read_info in Hread.
  apply bind_Return in Hread as (? & ? & [-> ->]%get_Return & [Hf ->]%or_raise_Return).
  destruct (create_list_loop _ _ _ _ _) as [l'|] eqn:Hloop; [|done].
  apply mret_Return in H as [-> ->]. split; [done|]. by exists f.
Qed.

(** ** An entry of the list selects its row *)



(** An entry whose target has the separator in it selects by the number
    that its second field ends with: here the row 31, which the sheet does
    not have. *)
Example entry_with_separator :
  Py.split "2024-06-01: M31: core_23:00_30s_v_#0" ": "
  = ["2024-06-01"; "M31"; "core_23:00_30s_v_#0"]
  ∧ Py.int (Py.drop 1 (List.last (Py.split "M31" "_") "")) = Some 31
  ∧ ticket_file "2024-06-01: M31: core_23:00_30s_v_#0" = Some "M31.json".
Proof. vm_compute. by repeat split. Qed.

(** ** One ticket file for each entry *)

Lemma replace_go_char_app c new a b :
  Py.replace_go (String c "") new 0 (a +:+ b)
  = Py.replace_go (String c "") new 0 a +:+ Py.replace_go (String c "") new 0 b.
Proof.
  induction a as [|d a IH]; [done|]. rewrite append_cons. cbn [Py.replace_go].
  rewrite !prefix_char. cbn [String.length Nat.pred].
  destruct (bool_decide (c = d)); rewrite IH; [by rewrite append_assoc|done].
Qed.

Lemma replace_go_char_free c new s :
  Py.contains_char c s = false → Py.replace_go (String c "") new 0 s = s.
Proof.
  induction s as [|d s IH]; [done|]. intros [Hne Hfree]%contains_char_cons.
  cbn [Py.replace_go]. rewrite prefix_char, bool_decide_eq_false_2 by done.
  by rewrite IH.
Qed.

Lemma append_cancel_r a b c : a +:+ c = b +:+ c → a = b.
Proof.
  intros H. assert (String.length a = String.length b) as Hlen.
  { apply (f_equal String.length) in H. rewrite !append_length in H. lia. }
  revert b H Hlen. induction a as [|x a IH]; intros [|y b] H Hlen; try done.
  rewrite !append_cons in H. injection H as -> H. f_equal. apply IH; [done|].
  cbn in Hlen. lia.
Qed.

Lemma is_digit_not_colon c : is_digit c = true → negb (Ascii.eqb c ":") = true.
Proof.
  intros Hc%is_digit_code. apply negb_true_iff, Ascii.eqb_neq. intros ->.
  vm_compute in Hc. destruct Hc as [_ Hc]. by apply Hc.
Qed.

(** The file of an entry that has the separator once: the colons leave
    the name, the number of the row stays at the end. *)
Lemma ticket_file_entry x r night :
  night_of_date r = Some night →
  length (Py.split (list_entry x r) ": ") = 2%nat →
  ticket_file (list_entry x r)
  = Some ((Py.replace (entry_name r) ":" "" +:+ "_#" +:+ Py.str_int (Z.of_nat x)) +:+ ".json").
Proof.
  intros Hnight Hsplit. rewrite (list_entry_parts x r night Hnight) in Hsplit |- *.
  unfold ticket_file.
  rewrite (entry_fields _ _ (night_of_date_valid _ _ Hnight) Hsplit).
  cbn [lookup list_lookup fmap option_fmap option_map]. do 2 f_equal.
  unfold Py.replace. rewrite replace_go_char_app. f_equal.
  apply replace_go_char_free.
  apply (contains_char_all _ (λ c, negb (Ascii.eqb c ":"))); [done|].
  rewrite !append_cons, append_nil_l. cbn [all_chars]. rewrite !andb_true_iff.
  split; [done|]. split; [done|].
  eapply all_chars_impl; [apply is_digit_not_colon|]. apply str_int_digits. lia.
Qed.

(** Two entries of the list that [create_list] returns, each with the
    separator once, have ticket files of different names: no ticket of a
    batch overwrites another. *)
Theorem listed_tickets_distinct e st l st' i j a b :
  create_list e st = (Return l, st') →
  l !! i = Some a → l !! j = Some b → i ≠ j →
  length (Py.split a ": ") = 2%nat → length (Py.split b ": ") = 2%nat →
  ∃ pa pb, ticket_file a = Some pa ∧ ticket_file b = Some pb ∧ pa ≠ pb.
Proof.
  intros (-> & f & Hf & Hloop)%create_list_Return Hi Hj Hij Ha Hb.
  apply create_list_loop_rows in Hloop as (xs & new & -> & Hnd & _ & Hall).
  cbn [app] in Hi, Hj.
  destruct (Forall2_lookup_r _ _ _ _ _ Hall Hi)
    as (x & Hx & r & night & _ & Hnight & _ & ->).
  destruct (Forall2_lookup_r _ _ _ _ _ Hall Hj)
    as (y & Hy & r' & night' & _ & Hnight' & _ & ->).
  assert (x ≠ y) as Hxy.
  { intros ->. apply Hij. by eapply NoDup_lookup. }
  rewrite (ticket_file_entry x r night), (ticket_file_entry y r' night') by done.
  eexists _, _. split; [done|]. split; [done|].
  intros Heq%append_cancel_r.
  apply (f_equal (λ s, Py.int (Py.drop 1 (List.last (Py.split s "_") "")))) in Heq.
  rewrite !entry_row_number in Heq. injection Heq as Heq. lia.
Qed.

Lemma listed_tickets_distinct_witness :
  ∃ pa pb, ticket_file sample_first_target = Some pa
           ∧ ticket_file "2024-06-02: iss_02:30_Mode2_5_r_#1" = Some pb ∧ pa ≠ pb.
Proof.
  apply (listed_tickets_distinct sample_env sample_checked
           [sample_first_target; "2024-06-02: iss_02:30_Mode2_5_r_#1"]
           (create_list sample_env sample_checked).2 0%nat 1%nat).
  - apply run_Return. vm_compute. reflexivity.
  - reflexivity.
  - reflexivity.
  - lia.
  - vm_compute. reflexivity.
  - vm_compute. reflexivity.
Defined.

(** ** The catalog read back from its file *)

(** *** Lines of a text *)







(** *** Blanks at the ends of a text *)















(** *** The names of the catalog *)




(** *** The order of the file *)






(** *** The catalog is read as it was written *)



Example blank_catalog_lost :
  tle_names (Py.splitlines " ") ∅ = Some {[""]}
  ∧ Py.join Py.newline (sorted {[""]}) = ""
  ∧ list_to_set (Py.strip <$> Py.file_lines "") = (∅ : gset string).
Proof. vm_compute. by repeat split. Qed.



(** ** Selecting an entry again *)

Lemma target_grab_info_chart_file e st tbl st' :
  target_grab_info_chart e st = (Return tbl, st') →
  ∃ f, toi_info (disk st') ≫= info_chart_csv = Some f ∧ content f = tbl.
Proof.
  intros [(-> & f & Hf & _ & <-)|(d & Hd & _ & _ & ->)]%target_grab_info_chart_Return.
  - by exists f.
  - by eexists.
Qed.

(** Once [target_grab] has returned for a selection, a second call for it,
    made while the ephemeris table on disk is at most twelve hours old,
    returns too: it issues no request and leaves every box, every variable
    and every file as the first call left them. *)
Theorem target_grab_again e e2 st st1 :
  string_vars st selection ≠ "Observation List" →
  target_grab e st = (Return tt, st1) →
  (∀ f, toi_info (disk st1) ≫= info_chart_csv = Some f → now e2 - mtime f ≤ twelve_hours) →
  ∃ st2,
    target_grab e2 st1 = (Return tt, st2)
    ∧ (∀ b, entries st2 b = entries st1 b)
    ∧ (∀ v, int_vars st2 v = int_vars st1 v)
    ∧ (∀ w, string_vars st2 w = string_vars st1 w)
    ∧ SATELLITES st2 = SATELLITES st1 ∧ dialog st2 = dialog st1
    ∧ dialog_2 st2 = dialog_2 st1 ∧ toi_list st2 = toi_list st1
    ∧ clipboard st2 = clipboard st1
    ∧ disk st2 = disk st1 ∧ requests st2 = requests st1.
Proof.
  intros Hsel Hgrab Hfresh.
  apply target_grab_Return in Hgrab
    as (night & r & sheet & sat & mode & info & s_info & hs & ms & he & me & ds & de
        & Hnight & Hrow & Hsheet & HhasS & HS & HhasM & HM & Hinfo & Hs & He & Hds & Hde
        & He1 & Hi1 & Hs1 & HS1 & Hd1 & Hd21 & Htl1 & Hcb1 & Hdisk1 & Hreq1); [|done].
  pose proof (target_grab_info_chart_sheet _ _ _ _ Hinfo) as Hgs.
  change (disk (cleared st)) with (disk st) in Hgs.
  destruct (target_grab_info_chart_file _ _ _ _ Hinfo) as (f & Hf & Hcontent).
  rewrite <- Hdisk1 in Hgs, Hf.
  assert (string_vars st1 selection ≠ "Observation List") as Hsel1 by by rewrite Hs1.
  assert (selected_date st1 = Some night) as Hnight1.
  { unfold selected_date in *. by rewrite Hs1. }
  assert (selected_row st1 = Some r) as Hrow1.
  { unfold selected_row in *. by rewrite Hs1, Hgs. }
  assert (content <$> (toi_info (disk st1) ≫= google_csv) = Some sheet) as Hsheet1
    by by rewrite Hgs.
  assert (target_grab_info_chart e2 (cleared st1) = (Return info, cleared st1)) as Hinfo1.
  { rewrite <- Hcontent. apply target_grab_info_chart_cached; [done|]. by apply Hfresh. }
  destruct (target_grab_runs e2 st1 night r sheet sat mode info (cleared st1)
              hs ms he me ds de) as (st2 & Hgrab2); try done.
  exists st2. split; [done|].
  apply target_grab_Return in Hgrab2
    as (night' & r' & sheet' & sat' & mode' & info' & s_info' & hs' & ms' & he' & me'
        & ds' & de' & Hnight' & Hrow' & Hsheet' & _ & HS' & _ & HM' & Hinfo' & Hs' & He'
        & Hds' & Hde' & He2 & Hi2 & Hs2 & HS2 & Hd2 & Hd22 & Htl2 & Hcb2 & Hdisk2 & Hreq2);
    [|done].
  assert (night' = night) as -> by congruence.
  assert (r' = r) as -> by congruence.
  assert (sheet' = sheet) as -> by congruence.
  assert (sat' = sat) as -> by congruence.
  assert (mode' = mode) as -> by congruence.
  assert (hs' = hs ∧ ms' = ms ∧ he' = he ∧ me' = me) as (-> & -> & -> & ->).
  { rewrite Hs in Hs'. rewrite He in He'. by simplify_eq. }
  assert (ds' = ds) as -> by congruence.
  assert (de' = de) as -> by congruence.
  assert (info' = info ∧ disk s_info' = disk st1 ∧ requests s_info' = requests st1)
    as (-> & Hdisk3 & Hreq3).
  { rewrite Hinfo1 in Hinfo'. injection Hinfo' as <- <-. done. }
  split; [intros b; by rewrite He1, He2|].
  split; [intros v; rewrite Hi2; destruct v; try done; by rewrite Hi1|].
  split; [intros w; rewrite Hs2; destruct w; by rewrite !Hs1|].
  repeat split; congruence.
Qed.

Lemma target_grab_again_witness :
  ∃ st2,
    target_grab sample_env_later (target_grab sample_env sample_started).2 = (Return tt, st2)
    ∧ (∀ b, entries st2 b = entries (target_grab sample_env sample_started).2 b)
    ∧ (∀ v, int_vars st2 v = int_vars (target_grab sample_env sample_started).2 v)
    ∧ (∀ w, string_vars st2 w = string_vars (target_grab sample_env sample_started).2 w)
    ∧ SATELLITES st2 = SATELLITES (target_grab sample_env sample_started).2
    ∧ dialog st2 = dialog (target_grab sample_env sample_started).2
    ∧ dialog_2 st2 = dialog_2 (target_grab sample_env sample_started).2
    ∧ toi_list st2 = toi_list (target_grab sample_env sample_started).2
    ∧ clipboard st2 = clipboard (target_grab sample_env sample_started).2
    ∧ disk st2 = disk (target_grab sample_env sample_started).2
    ∧ requests st2 = requests (target_grab sample_env sample_started).2.
Proof.
  apply (target_grab_again sample_env sample_env_later sample_started).
  - vm_compute. discriminate.
  - apply run_Return. vm_compute. reflexivity.
  - intros f Hf. vm_compute in Hf. injection Hf as <-. vm_compute. discriminate.
Defined.

(** ** A sheet without the tracking columns *)

Lemma create_list_loop_no_tracking current_date sheet rs x acc :
  has_Satellite_Tracking sheet = false →
  Forall (λ r, read_cell (Target r) = true ∧ read_cell (NoD r) = true) rs →
  Forall (λ r, present (Target r) = true → present (NoD r) = true →
               is_Some (night_of_date r)) rs →
  create_list_loop current_date sheet x rs acc
  = if existsb (listed current_date) rs then Raise KeyError else Return acc.
Proof.
  intros HS Hread Hdates. revert x.
  induction rs as [|r rs IH]; intros x; [done|].
  apply Forall_cons in Hread as [[Ht Hn] Hread].
  apply Forall_cons in Hdates as [Hd Hdates].
  specialize (IH Hread Hdates).
  cbn [create_list_loop existsb]. cbv zeta.
  change (if Py.startswith (str_cell (Target r)) "TOI"
          then Py.replace (Py.replace (str_cell (Target r)) " " "") "." "-"
          else str_cell (Target r)) with (display_name (str_cell (Target r))).
  destruct (display_name_nan _ Ht) as [-> HNaN]. rewrite HNaN.
  destruct (str_cell_nan _ Hn) as [-> _]. rewrite !negb_involutive.
  unfold listed at 1.
  destruct (present (Target r)) eqn:Hpt; [|cbn; apply IH].
  destruct (present (NoD r)) eqn:Hpn; [|cbn; apply IH].
  destruct (Hd eq_refl eq_refl) as [night Hnight].
  cbn [andb]. fold (night_of_date r). rewrite Hnight.
  destruct (date_leb current_date night) eqn:Hle; [|cbn; apply IH].
  cbn [andb negb orb]. by rewrite HS.
Qed.

(** When the sheet has no column [Satellite Tracking], [create_list]
    raises [KeyError] as soon as one row is to be listed, and returns the
    empty list when none is: the window opens for no such sheet that has a
    row to show. *)
Theorem create_list_without_tracking e st f :
  toi_info (disk st) ≫= google_csv = Some f →
  has_Satellite_Tracking (content f) = false →
  Forall (λ r, read_cell (Target r) = true ∧ read_cell (NoD r) = true) (rows (content f)) →
  Forall (λ r, present (Target r) = true → present (NoD r) = true →
               is_Some (night_of_date r)) (rows (content f)) →
  create_list e st
  = (if existsb (listed (today e)) (rows (content f)) then Raise KeyError else Return [], st).
Proof.
  intros Hf HS Hread Hdates. unfold create_list.
  erewrite bind_run.
  2:{ apply fmap_run. unfold read_info. rewrite (bind_run get _ st st st) by done.
      by rewrite Hf. }
  rewrite create_list_loop_no_tracking by done.
  by destruct (existsb _ _).
Qed.

Example sample_plain_start :
  (startup sample_plain_env blank).1 = Raise KeyError.
Proof. vm_compute. reflexivity. Qed.

Lemma create_list_without_tracking_witness :
  create_list sample_plain_env sample_plain_checked
  = (if existsb (listed (today sample_plain_env)) (rows sample_plain_sheet)
     then Raise KeyError else Return [], sample_plain_checked).
Proof.
  apply (create_list_without_tracking sample_plain_env sample_plain_checked
           (File sample_plain_sheet (now sample_plain_env))).
  - vm_compute. reflexivity.
  - reflexivity.
  - repeat constructor.
  - repeat constructor; intros _ _; vm_compute; eexists; reflexivity.
Defined.

(** ** The script starts on the first entry *)

Lemma create_list_entry e st l st' entry :
  create_list e st = (Return l, st') → entry ∈ l →
  ∃ x r night f,
    toi_info (disk st) ≫= google_csv = Some f
    ∧ rows (content f) !! x = Some r
    ∧ night_of_date r = Some night
    ∧ date_leb (today e) night = true
    ∧ entry = list_entry x r.
Proof.
  intros (-> & f & Hf & Hloop)%create_list_Return Hin.
  apply create_list_loop_rows in Hloop as (xs & new & -> & _ & _ & Hall).
  cbn [app] in Hin. apply list_elem_of_lookup in Hin as [i Hi].
  destruct (Forall2_lookup_r _ _ _ _ _ Hall Hi) as (x & _ & r & night & Hr & Hnight & Hle & ->).
  rewrite Nat.sub_0_r in Hr. by exists x, r, night, f.
Qed.

Lemma list_entry_selects x r night f st :
  night_of_date r = Some night →
  length (Py.split (list_entry x r) ": ") = 2%nat →
  toi_info (disk st) ≫= google_csv = Some f →
  rows (content f) !! x = Some r →
  string_vars st selection = list_entry x r →
  selected_date st = Some night ∧ selected_row st = Some r.
Proof.
  intros Hnight Hsplit Hf Hr Hsel.
  pose proof (night_of_date_valid _ _ Hnight) as Hvalid.
  unfold selected_date, selected_row. rewrite Hsel.
  rewrite (list_entry_parts x r night Hnight) in Hsplit |- *.
  rewrite (entry_fields _ _ Hvalid Hsplit).
  cbn [hd lookup list_lookup mbind option_bind].
  split; [by apply strptime_Ymd_str_date|].
  rewrite entry_row_number. cbn [mbind option_bind]. rewrite Hf. cbn [mbind option_bind].
  unfold row_at. destruct (Z.leb_spec 0 (Z.of_nat x)); [|lia]. by rewrite Nat2Z.id.
Qed.

(** An entry of the list starts with a digit. *)
Lemma list_entry_not_Observation_List x r night :
  night_of_date r = Some night → list_entry x r ≠ "Observation List".
Proof.
  intros Hnight. rewrite (list_entry_parts x r night Hnight).
  pose proof (night_of_date_valid _ _ Hnight) as (Hy & _)%valid_date_range.
  unfold str_date, Py.pad4. rewrite !append_cons. intros Heq. injection Heq as Heq _.
  assert (is_digit (Py.digit_char (year night / 1000)) = true) as Hd
    by (apply digit_char_is_digit; Z.to_euclidean_division_equations; lia).
  rewrite Heq in Hd. discriminate Hd.
Qed.

(** When the script has started, either no row was to be listed, the list
    is empty and nothing was done after [check_toi]; or the list is
    [Observation List] followed by the entries of [create_list], the first
    entry is selected, [initial_focus] is set, and, when the first entry
    has the separator once, the boxes show the row it was made from. *)
Theorem startup_shows_first_row e st st' :
  startup e st = (Return tt, st') →
  ∃ s1 l,
    check_toi e st = (Return tt, s1)
    ∧ create_list e s1 = (Return l, s1)
    ∧ match l with
      | [] => st' = set_toi_list [] s1
      | first :: _ =>
          toi_list st' = "Observation List" :: l
          ∧ string_vars st' selection = first
          ∧ int_vars st' initial_focus = 1
          ∧ ∃ x r f, toi_info (disk s1) ≫= google_csv = Some f
                     ∧ rows (content f) !! x = Some r
                     ∧ first = list_entry x r
                     ∧ (length (Py.split first ": ") = 2%nat →
                        entries st' name = display_name (str_cell (Target r))
                        ∧ entries st' filter_ = str_cell (Filter r)
                        ∧ entries st' exposure_time = Py.replace (str_cell (Exp r)) "s" "")
      end.
Proof.
  intros H. unfold startup in H.
  apply bind_Return in H as ([] & s1 & Hcheck & H).
  apply bind_Return in H as (l & s1' & Hlist & H).
  pose proof (create_list_Return _ _ _ _ Hlist) as [-> _].
  apply bind_Return in H as ([] & s2 & ->%modify_Return & H).
  exists s1, l. split; [done|]. split; [done|].
  destruct l as [|first l]; [by apply mret_Return in H as [_ ->]|].
  apply bind_Return in H as ([] & s3 & Hs3 & H). unfold IntVar_set in Hs3.
  apply modify_Return in Hs3.
  apply bind_Return in H as ([] & s4 & Hs4 & H). unfold StringVar_set in Hs4.
  apply modify_Return in Hs4.
  apply bind_Return in H as ([] & s5 & Hs5%modify_Return & H).
  assert (string_vars s5 selection = first) as Hsel by (by rewrite Hs5, Hs4).
  assert (disk s5 = disk s1) as Hdisk by (by rewrite Hs5, Hs4, Hs3).
  assert (toi_list s5 = "Observation List" :: first :: l) as Hlist5
    by (by rewrite Hs5, Hs4, Hs3).
  assert (int_vars s5 initial_focus = 1) as Hfocus by (by rewrite Hs5, Hs4, Hs3).
  clear Hs3 Hs4 Hs5.
  destruct (create_list_entry _ _ _ _ first Hlist (list_elem_of_here _ _))
    as (x & r & night & f & Hf & Hr & Hnight & _ & ->).
  apply target_grab_Return in H
    as (night' & r' & sheet & sat & mode & info & s_info & hs & ms & he & me & ds & de
        & _ & Hrow & _ & _ & _ & _ & _ & _ & _ & _ & _ & _
        & He & Hi & Hs & _ & _ & _ & Htl & _ & _ & _);
    [|rewrite Hsel; by eapply list_entry_not_Observation_List].
  split; [by rewrite Htl|]. split; [by rewrite Hs|]. split; [by rewrite Hi|].
  exists x, r, f. do 3 (split; [done|]). intros Hsplit.
  rewrite <- Hdisk in Hf.
  destruct (list_entry_selects x r night f s5 Hnight Hsplit Hf Hr Hsel) as [_ Hrow5].
  assert (r' = r) as -> by congruence.
  by rewrite !He.
Qed.

Lemma startup_shows_first_row_witness :
  ∃ s1 l,
    check_toi sample_env blank = (Return tt, s1)
    ∧ create_list sample_env s1 = (Return l, s1)
    ∧ match l with
      | [] => sample_started = set_toi_list [] s1
      | first :: _ =>
          toi_list sample_started = "Observation List" :: l
          ∧ string_vars sample_started selection = first
          ∧ int_vars sample_started initial_focus = 1
          ∧ ∃ x r f, toi_info (disk s1) ≫= google_csv = Some f
                     ∧ rows (content f) !! x = Some r
                     ∧ first = list_entry x r
                     ∧ (length (Py.split first ": ") = 2%nat →
                        entries sample_started name = display_name (str_cell (Target r))
                        ∧ entries sample_started filter_ = str_cell (Filter r)
                        ∧ entries sample_started exposure_time
                          = Py.replace (str_cell (Exp r)) "s" "")
      end.
Proof.
  apply (startup_shows_first_row sample_env blank sample_started).
  unfold sample_started. apply run_Return. vm_compute. reflexivity.
Defined.

(** ** [save_all] *)

Lemma target_grab_disk e st st' :
  string_vars st selection ≠ "Observation List" →
  target_grab e st = (Return tt, st') →
  tickets (disk st') = tickets (disk st) ∧ folders (disk st') = folders (disk st)
  ∧ string_vars st' selection = string_vars st selection
  ∧ toi_list st' = toi_list st.
Proof.
  intros Hsel H. apply target_grab_Return in H
    as (? & ? & ? & ? & ? & ? & s_info & ? & ? & ? & ? & ? & ? & _ & _ & _ & _ & _ & _ & _
        & Hinfo & _ & _ & _ & _ & _ & _ & Hs & _ & _ & _ & Htl & _ & Hdisk & _); [|done].
  apply target_grab_info_chart_frame in Hinfo
    as (_ & _ & _ & _ & _ & _ & _ & _ & Htk & Hfo).
  rewrite Hdisk, (Hs selection). by repeat split.
Qed.


Example sample_save_all :
  (save_all sample_env sample_started).1 = Return tt
  ∧ fst <$> map_to_list (tickets (disk (save_all sample_env sample_started).2))
    = ["iss_0230_Mode2_5_r_#1.json"; "TOI1234-01_2300_30s,60s_Ha,v_#0.json"].
Proof. vm_compute. by repeat split. Qed.


(** ** A call of [target_grab] that fails *)

Section monad_raise.
Context {A B : Type}.
Implicit Types (m : M A) (f : A → M B) (st : state).

Lemma bind_Raise m f st err st' :
  (m ≫= f) st = (Raise err, st') →
  m st = (Raise err, st') ∨ ∃ a st1, m st = (Return a, st1) ∧ f a st1 = (Raise err, st').
Proof.
  unfold mbind, M_bind. destruct (m st) as [[a|err'] st1]; [intros H; right; eauto|intros [= -> ->]; by left].
Qed.

Lemma fmap_Raise (g : A → B) m st err st' :
  (g <$> m) st = (Raise err, st') → m st = (Raise err, st').
Proof. unfold fmap, M_fmap. destruct (m st) as [[a|err'] st1]; [done|by intros [= -> ->]]. Qed.

Lemma or_raise_Raise err0 (o : option A) st err st' :
  or_raise err0 o st = (Raise err, st') → o = None ∧ err = err0 ∧ st' = st.
Proof. destruct o; [discriminate|]. by intros [= <- <-]. Qed.
End monad_raise.

(** Inversion of a run that raises: one goal for every place at which it
    can raise, with the facts of the run up to there. *)
Ltac rinv H :=
  lazymatch type of H with
  | mbind _ _ _ = (Raise _, _) =>
      let H1 := fresh "H" in
      apply bind_Raise in H as [H|(? & ? & H1 & H)]; [rinv H|minv H1; rinv H]
  | fmap _ _ _ = (Raise _, _) => apply fmap_Raise in H; rinv H
  | or_raise _ _ _ = (Raise _, _) =>
      let E1 := fresh "E" in let E2 := fresh "E" in let E3 := fresh "E" in
      apply or_raise_Raise in H as (E1 & E2 & E3); subst_var E2; subst_var E3
  | mret _ _ = (Raise _, _) => discriminate H
  | modify _ _ = (Raise _, _) => discriminate H
  | get _ = (Raise _, _) => discriminate H
  | raise _ _ = (Raise _, _) =>
      let E1 := fresh "E" in let E2 := fresh "E" in
      injection H as E1 E2; subst_var E1; subst_var E2
  | (if ?c then _ else _) _ = (Raise _, _) =>
      let E := fresh "E" in destruct c eqn:E; rinv H
  | (match ?c with _ => _ end) _ = (Raise _, _) =>
      let E := fresh "E" in destruct c eqn:E; rinv H
  | (let _ := _ in _) _ = (Raise _, _) => cbv zeta in H; rinv H
  | clear_box _ = _ => unfold clear_box in H; rinv H
  | Entry_insert _ _ _ _ = _ => unfold Entry_insert in H; rinv H
  | IntVar_set _ _ _ = _ => unfold IntVar_set in H; rinv H
  | StringVar_set _ _ _ = _ => unfold StringVar_set in H; rinv H
  | read_info _ _ = _ => unfold read_info in H; rinv H
  | write_info _ _ = _ => unfold write_info in H; rinv H
  | requests_get _ _ _ = _ => unfold requests_get in H; rinv H
  | _ => idtac
  end.

(** When the ephemeris table does not load, the request has failed or the
    directory [toi_info] is missing; the boxes and the variables are as
    they were. *)
Lemma target_grab_info_chart_Raise e st err st' :
  target_grab_info_chart e st = (Raise err, st') →
  (err = RequestException ∨ err = FileNotFoundError)
  ∧ entries st' = entries st ∧ int_vars st' = int_vars st
  ∧ string_vars st' = string_vars st
  ∧ tickets (disk st') = tickets (disk st) ∧ folders (disk st') = folders (disk st).
Proof.
  intros H. unfold target_grab_info_chart in H. rinv H; subst; cbn; auto 10.
Qed.

Lemma rollover_Raise d h st err st' :
  rollover d h st = (Raise err, st') → err = OverflowError ∧ st' = st.
Proof. intros H. unfold rollover in H. destruct (h <=? 12); rinv H; by subst. Qed.



Example target_grab_no_separator :
  (target_grab sample_env (selected "tonight" sample_started)).1 = Raise ValueError.
Proof. vm_compute. reflexivity. Qed.


(** ** What [check_toi] leaves behind *)





(** ** [target_grab] of [Observation_ticket_creator.pyw] *)

Lemma target_grab_pyw_Return e st st' :
  string_vars st selection ≠ "Observation List" →
  target_grab_pyw e st = (Return tt, st') →
  ∃ start_date target_toi f r toi sat mode info_csv st1 hs ms he me ds de,
    strptime_Ymd (hd "" (Py.split (string_vars st selection) ": ")) = Some start_date
    ∧ Py.split (string_vars st selection) ": " !! 1%nat = Some target_toi
    ∧ toi_info (disk st) ≫= google_csv = Some f
    ∧ pick_row_pyw (content f) (str_date start_date) target_toi (rows (content f)) None
      = Return (Some r)
    ∧ (if Py.startswith target_toi "TOI" then Py.split target_toi " " !! 1%nat
       else Some target_toi) = Some toi
    ∧ has_Satellite_Tracking (content f) = true ∧ int_cell (Satellite_Tracking r) = Some sat
    ∧ has_Tracking_Mode (content f) = true ∧ int_cell (Tracking_Mode r) = Some mode
    ∧ target_grab_info_chart e (cleared st) = (Return info_csv, st1)
    ∧ strptime_HM (str_cell (Start r)) = Some (hs, ms)
    ∧ strptime_HM (str_cell (End_ r)) = Some (he, me)
    ∧ (if hs <=? 12 then next_day start_date else Some start_date) = Some ds
    ∧ (if he <=? 12 then next_day start_date else Some start_date) = Some de
    ∧ (∀ b, entries st' b =
          match b with
          | name => display_name target_toi
          | ra => str_coord (fst <$> find_coords info_csv toi)
          | dec => str_coord (snd <$> find_coords info_csv toi)
          | start_time => str_date ds +:+ " " +:+ strftime_HMS hs ms 0
          | end_time => str_date de +:+ " " +:+ strftime_HMS he me 0
          | filter_ => str_cell (Filter r)
          | n_exposures => "100000"
          | exposure_time => Py.replace (str_cell (Exp r)) "s" ""
          end)
    ∧ (∀ v, int_vars st' v =
          match v with
          | satellite_tracking => sat
          | satellite_tracking_mode => mode
          | self_guide => if sat =? 0 then 1 else 0
          | _ => int_vars st v
          end)
    ∧ (∀ v, string_vars st' v =
          match v with
          | camera => if has_Camera (content f) then str_cell (Camera r) else "CCD"
          | selection => string_vars st selection
          end)
    ∧ disk st' = disk st1 ∧ requests st' = requests st1.
Proof.
  intros Hsel H. unfold target_grab_pyw in H. minv H; [done|..].
  all: repeat match goal with
         | H : rollover _ _ _ = _ |- _ => apply rollover_Return in H as (-> & ? & ? & ->)
         | H : Some _ = Some _ |- _ => injection H as <-
         end.
  all: match goal with
       | H : target_grab_info_chart _ _ = _ |- _ =>
           pose proof (target_grab_info_chart_frame _ _ _ _ H)
             as (Hfe & Hfi & Hfs & HfS & Hfd & Hfd2 & Hft & Hfc & _ & _)
       end.
  all: match goal with
       | H1 : strptime_HM (str_cell (Start _)) = Some ?a,
         H2 : strptime_HM (str_cell (End_ _)) = Some ?b |- _ =>
           destruct a as [hs ms], b as [he me]
       end.
  all: repeat match goal with
         | H : ?s = set_entries _ ?s0 |- _ => change (s = cleared s0) in H; subst s
         end.
  all: change (disk (cleared st)) with (disk st) in *.
  all: assert (∀ b, entries (cleared st) b = "") as Hcl by (by intros []).
  all: match goal with E : ?a = Some _ |- _ => is_var a; subst a end.
  all: cbn [fst snd] in *.
  all: repeat match goal with
         | E : (if ?c then _ else None) = Some _ |- _ =>
             destruct c eqn:?; [|discriminate E]
         end.
  all: eexists _, _, _, _, _, _, _, _, _, _, _, _, _, _, _.
  all: (split; [eassumption|]). all: (split; [eassumption|]).
  all: (split; [eassumption|]). all: (split; [eassumption|]).
  all: (split; [match goal with E : Py.startswith _ _ = _ |- _ => rewrite E end;
                first [eassumption|reflexivity]|]).
  all: (split; [eassumption|]). all: (split; [eassumption|]).
  all: (split; [eassumption|]). all: (split; [eassumption|]).
  all: (split; [eassumption|]). all: (split; [eassumption|]).
  all: (split; [eassumption|]). all: (split; [eassumption|]).
  all: (split; [eassumption|]).
  all: (split;
        [intros b; destruct b; fields; rewrite Hfe, Hcl; cbn [Py.take Py.drop];
         rewrite ?append_nil_l, ?append_nil_r; unfold display_name;
         match goal with E : Py.startswith _ _ = _ |- _ => rewrite ?E end; reflexivity|]).
  all: (split; [intros v; destruct v; fields; rewrite ?Hfi; reflexivity|]).
  all: (split; [intros v; destruct v; fields; rewrite ?Hfs; reflexivity|]).
  all: split; fields; reflexivity.
Qed.

Lemma pick_row_pyw_picked sheet day target_toi rs r0 :
  pick_row_pyw sheet day target_toi rs (Some r0) ≠ Return None.
Proof.
  revert r0. induction rs as [|r rs IH]; intros r0; [done|]. cbn [pick_row_pyw].
  repeat case_match; try done; apply IH.
Qed.

(** The loop returns the last row that has the date and the target. *)
Lemma pick_row_pyw_Some sheet day target_toi rs picked r :
  pick_row_pyw sheet day target_toi rs picked = Return (Some r) →
  (picked = Some r ∧ Forall (λ r', matches_pyw day target_toi r' = false) rs)
  ∨ ∃ pre post, rs = (pre ++ r :: post)%list
                ∧ matches_pyw day target_toi r = true
                ∧ Forall (λ r', matches_pyw day target_toi r' = false) post.
Proof.
  revert picked. induction rs as [|r' rs IH]; intros picked.
  { intros [= ->]. left. by split. }
  cbn [pick_row_pyw]. fold (matches_pyw day target_toi r').
  destruct (matches_pyw day target_toi r') eqn:Hm.
  - destruct (_ && _); [done|]. destruct (_ && _); [done|].
    intros [[[= <-] Hnone]|(pre & post & -> & Hr & Hpost)]%IH; right.
    + by exists [], rs.
    + by exists (r' :: pre), post.
  - intros [[-> Hnone]|(pre & post & -> & Hr & Hpost)]%IH.
    + left. split; [done|]. by constructor.
    + right. by exists (r' :: pre), post.
Qed.

Lemma pick_row_pyw_none sheet day target_toi rs picked :
  Forall (λ r', matches_pyw day target_toi r' = false) rs →
  pick_row_pyw sheet day target_toi rs picked = Return picked.
Proof.
  induction 1 as [|r rs Hr _ IH]; [done|]. cbn [pick_row_pyw].
  fold (matches_pyw day target_toi r). by rewrite Hr.
Qed.

(** When [target_grab] of [Observation_ticket_creator.pyw] returns for a
    selection, the sheet has a row with the date and the target of the
    selection, and the boxes are filled from the last such row of the
    sheet. *)
Theorem target_grab_pyw_last_row e st st' :
  string_vars st selection ≠ "Observation List" →
  target_grab_pyw e st = (Return tt, st') →
  ∃ night target_toi f pre r post,
    strptime_Ymd (hd "" (Py.split (string_vars st selection) ": ")) = Some night
    ∧ Py.split (string_vars st selection) ": " !! 1%nat = Some target_toi
    ∧ toi_info (disk st) ≫= google_csv = Some f
    ∧ rows (content f) = (pre ++ r :: post)%list
    ∧ str_cell (NoD r) = str_date night ∧ str_cell (Target r) = target_toi
    ∧ Forall (λ r', ¬ (str_cell (NoD r') = str_date night
                       ∧ str_cell (Target r') = target_toi)) post
    ∧ entries st' name = display_name target_toi
    ∧ entries st' filter_ = str_cell (Filter r)
    ∧ entries st' exposure_time = Py.replace (str_cell (Exp r)) "s" ""
    ∧ entries st' n_exposures = "100000"
    ∧ int_cell (Satellite_Tracking r) = Some (int_vars st' satellite_tracking)
    ∧ int_cell (Tracking_Mode r) = Some (int_vars st' satellite_tracking_mode)
    ∧ int_vars st' self_guide = (if int_vars st' satellite_tracking =? 0 then 1 else 0).
Proof.
  intros Hsel H. apply target_grab_pyw_Return in H
    as (night & target_toi & f & r & toi & sat & mode & info & s1 & hs & ms & he & me
        & ds & de & Hnight & Htarget & Hf & Hpick & _ & _ & Hsat & _ & Hmode & _ & _ & _
        & _ & _ & He & Hi & _); [|done].
  apply pick_row_pyw_Some in Hpick as [[[=] _]|(pre & post & Hrows & Hr & Hpost)].
  exists night, target_toi, f, pre, r, post.
  do 4 (split; [done|]).
  unfold matches_pyw in Hr. apply andb_true_iff in Hr as [Hd%String.eqb_eq Ht%String.eqb_eq].
  split; [done|]. split; [done|]. split.
  { eapply Forall_impl; [exact Hpost|]. intros r' Hr' [Hd' Ht'].
    unfold matches_pyw in Hr'. rewrite Hd', Ht', !String.eqb_refl in Hr'. done. }
  rewrite !He, !Hi. by repeat split.
Qed.

(** When the sheet has no row with the date and the target of the
    selection, [target_grab] of [Observation_ticket_creator.pyw] raises
    [UnboundLocalError], once the ephemeris table has been loaded, and
    leaves the boxes empty. *)
Theorem target_grab_pyw_no_row e st night target_toi f info st1 :
  string_vars st selection ≠ "Observation List" →
  strptime_Ymd (hd "" (Py.split (string_vars st selection) ": ")) = Some night →
  Py.split (string_vars st selection) ": " !! 1%nat = Some target_toi →
  toi_info (disk st) ≫= google_csv = Some f →
  Forall (λ r, matches_pyw (str_date night) target_toi r = false) (rows (content f)) →
  (Py.startswith target_toi "TOI" = true → is_Some (Py.split target_toi " " !! 1%nat)) →
  target_grab_info_chart e (cleared st) = (Return info, st1) →
  target_grab_pyw e st = (Raise UnboundLocalError, st1) ∧ ∀ b, entries st1 b = "".
Proof.
  intros Hsel Hnight Htarget Hf Hrows Htoi Hinfo. split.
  - unfold target_grab_pyw.
    rewrite (bind_run get _ st st st eq_refl).
    destruct (decide _) as [?|_]; [done|]. cbv zeta.
    erewrite bind_run; [|reflexivity].
    erewrite bind_run; [|by rewrite Hnight].
    erewrite bind_run; [|by rewrite Htarget].
    erewrite bind_run.
    2:{ apply fmap_run. unfold read_info. erewrite bind_run; [|reflexivity].
        cbn [disk set_entries]. by rewrite Hf. }
    rewrite pick_row_pyw_none by done.
    erewrite bind_run; [|reflexivity].
    destruct (Py.startswith target_toi "TOI").
    + destruct (Htoi eq_refl) as [toi Htoi']. rewrite Htoi'.
      erewrite bind_run; [|reflexivity].
      by rewrite (bind_run _ _ _ _ _ Hinfo).
    + erewrite bind_run; [|reflexivity].
      by rewrite (bind_run _ _ _ _ _ Hinfo).
  - intros b. apply target_grab_info_chart_frame in Hinfo as (-> & _). by destruct b.
Qed.

Lemma target_grab_pyw_last_row_witness :
  ∃ night target_toi f pre r post,
    strptime_Ymd (hd "" (Py.split (string_vars sample_twice_selected selection) ": "))
    = Some night
    ∧ Py.split (string_vars sample_twice_selected selection) ": " !! 1%nat = Some target_toi
    ∧ toi_info (disk sample_twice_selected) ≫= google_csv = Some f
    ∧ rows (content f) = (pre ++ r :: post)%list
    ∧ str_cell (NoD r) = str_date night ∧ str_cell (Target r) = target_toi
    ∧ Forall (λ r', ¬ (str_cell (NoD r') = str_date night
                       ∧ str_cell (Target r') = target_toi)) post
    ∧ entries (target_grab_pyw sample_twice_env sample_twice_selected).2 name
      = display_name target_toi
    ∧ entries (target_grab_pyw sample_twice_env sample_twice_selected).2 filter_
      = str_cell (Filter r)
    ∧ entries (target_grab_pyw sample_twice_env sample_twice_selected).2 exposure_time
      = Py.replace (str_cell (Exp r)) "s" ""
    ∧ entries (target_grab_pyw sample_twice_env sample_twice_selected).2 n_exposures
      = "100000"
    ∧ int_cell (Satellite_Tracking r)
      = Some (int_vars (target_grab_pyw sample_twice_env sample_twice_selected).2
                satellite_tracking)
    ∧ int_cell (Tracking_Mode r)
      = Some (int_vars (target_grab_pyw sample_twice_env sample_twice_selected).2
                satellite_tracking_mode)
    ∧ int_vars (target_grab_pyw sample_twice_env sample_twice_selected).2 self_guide
      = (if int_vars (target_grab_pyw sample_twice_env sample_twice_selected).2
              satellite_tracking =? 0 then 1 else 0).
Proof.
  apply (target_grab_pyw_last_row sample_twice_env).
  - vm_compute. discriminate.
  - apply run_Return. vm_compute. reflexivity.
Defined.

(** Of the two rows of that night the boxes show the second. *)
Example sample_twice_second_row :
  entries (target_grab_pyw sample_twice_env sample_twice_selected).2 filter_ = "r"
  ∧ entries (target_grab_pyw sample_twice_env sample_twice_selected).2 start_time
    = "2024-06-02 01:00:00".
Proof. vm_compute. done. Qed.

(** The night of [sample_short_sheet] is listed with its zeros. *)
Example sample_short_listed :
  (create_list_pyw sample_short_env sample_short_selected).1 = Return ["2024-06-01: M31"].
Proof. vm_compute. reflexivity. Qed.

Lemma target_grab_pyw_no_row_witness :
  target_grab_pyw sample_short_env sample_short_selected
  = (Raise UnboundLocalError,
     (target_grab_info_chart sample_short_env (cleared sample_short_selected)).2)
  ∧ ∀ b, entries (target_grab_info_chart sample_short_env
                    (cleared sample_short_selected)).2 b = "".
Proof.
  eapply (target_grab_pyw_no_row _ _ (Date 2024 6 1) "M31").
  - vm_compute. discriminate.
  - vm_compute. reflexivity.
  - vm_compute. reflexivity.
  - vm_compute. reflexivity.
  - repeat constructor.
  - discriminate.
  - apply run_Return. vm_compute. reflexivity.
Defined.

(** The entries that the loop of [create_list] of
    [Observation_ticket_creator.pyw] adds are made of the date and the
    target of rows of the sheet. *)
Lemma create_list_pyw_loop_rows current_date rs num acc l entry :
  create_list_pyw_loop current_date rs num acc = Return l → entry ∈ l →
  entry ∈ acc
  ∨ ∃ r night, r ∈ rs ∧ strptime_Ymd (str_cell (NoD r)) = Some night
               ∧ date_leb current_date night = true
               ∧ entry = str_date night +:+ ": " +:+ str_cell (Target r).
Proof.
  revert num acc. induction rs as [|r rs IH]; intros num acc.
  { intros [= <-]. by left. }
  assert (∀ num' acc', create_list_pyw_loop current_date rs num' acc' = Return l → entry ∈ l →
            entry ∈ acc'
            ∨ ∃ r0 night, r0 ∈ r :: rs ∧ strptime_Ymd (str_cell (NoD r0)) = Some night
                          ∧ date_leb current_date night = true
                          ∧ entry = str_date night +:+ ": " +:+ str_cell (Target r0)) as IH'.
  { intros num' acc' Hl Hin. destruct (IH _ _ Hl Hin) as [?|(r0 & night & ? & ?)]; [by left|].
    right. exists r0, night. split; [by right|done]. }
  cbn [create_list_pyw_loop]. destruct (_ && _ && _); [|apply IH'].
  destruct (strptime_Ymd (str_cell (NoD r))) as [night|] eqn:Hnight; [|done].
  destruct (date_leb current_date night) eqn:Hle; cbn [andb]; [|apply IH'].
  destruct (cell_is_not _ _); [|apply IH'].
  intros Hl Hin. destruct (IH' _ _ Hl Hin) as [Hacc|?]; [|by right].
  apply elem_of_app in Hacc as [?|Hx%list_elem_of_singleton]; [by left|].
  right. exists r, night. split; [by left|done].
Qed.

Lemma create_list_pyw_Return e st l st' entry :
  create_list_pyw e st = (Return l, st') → entry ∈ l →
  ∃ f r night, toi_info (disk st) ≫= google_csv = Some f ∧ r ∈ rows (content f)
               ∧ strptime_Ymd (str_cell (NoD r)) = Some night
               ∧ date_leb (today e) night = true
               ∧ entry = str_date night +:+ ": " +:+ str_cell (Target r).
Proof.
  intros H Hin. unfold create_list_pyw in H.
  apply bind_Return in H as (sheet & s1 & Hread & H).
  apply fmap_Return in Hread as (f & Hread & ->).
  unfold read_info in Hread.
  apply bind_Return in Hread as (? & ? & [-> ->]%get_Return & [Hf ->]%or_raise_Return).
  destruct (create_list_pyw_loop _ _ _ _) as [l'|] eqn:Hloop; [|done].
  apply mret_Return in H as [-> ->].
  destruct (create_list_pyw_loop_rows _ _ _ _ _ _ Hloop Hin) as [Hnil|(r & night & ?)].
  { by apply elem_of_nil in Hnil. }
  by exists f, r, night.
Qed.

Lemma pick_row_pyw_Raise sheet day target_toi rs picked err :
  pick_row_pyw sheet day target_toi rs picked = Raise err → err = ValueError.
Proof.
  revert picked. induction rs as [|r rs IH]; intros picked; [done|]. cbn [pick_row_pyw].
  repeat case_match; try apply IH; by intros [= <-].
Qed.

Lemma pick_row_pyw_None sheet day target_toi rs :
  pick_row_pyw sheet day target_toi rs None = Return None →
  Forall (λ r, matches_pyw day target_toi r = false) rs.
Proof.
  induction rs as [|r rs IH]; [by constructor|]. cbn [pick_row_pyw].
  fold (matches_pyw day target_toi r). destruct (matches_pyw day target_toi r) eqn:Hm.
  - repeat case_match; try done. intros Hp. by apply pick_row_pyw_picked in Hp.
  - intros H. constructor; [done|by apply IH].
Qed.

(** The tracking cells of the row that the loop returns are numbers. *)
Lemma pick_row_pyw_tracking sheet day target_toi rs picked r :
  (∀ r0, picked = Some r0 →
     (has_Satellite_Tracking sheet = true → is_Some (int_cell (Satellite_Tracking r0)))
     ∧ (has_Tracking_Mode sheet = true → is_Some (int_cell (Tracking_Mode r0)))) →
  pick_row_pyw sheet day target_toi rs picked = Return (Some r) →
  (has_Satellite_Tracking sheet = true → is_Some (int_cell (Satellite_Tracking r)))
  ∧ (has_Tracking_Mode sheet = true → is_Some (int_cell (Tracking_Mode r))).
Proof.
  revert picked. induction rs as [|r' rs IH]; intros picked Hpicked.
  { intros [= ->]. by apply Hpicked. }
  cbn [pick_row_pyw]. destruct (_ && _); [|by apply IH].
  destruct (has_Satellite_Tracking sheet && _) eqn:Hs; [done|].
  destruct (has_Tracking_Mode sheet && _) eqn:Hm; [done|].
  apply IH. intros r0 [= <-]. split; intros Hc; rewrite Hc in *; cbn [andb] in *.
  - apply negb_false_iff in Hs. by apply bool_decide_eq_true in Hs.
  - apply negb_false_iff in Hm. by apply bool_decide_eq_true in Hm.
Qed.

(** Where [target_grab] of [Observation_ticket_creator.pyw] can raise
    [UnboundLocalError]: no row of the sheet has the date and the target
    of the selection, or the sheet has no column [Satellite Tracking] or
    no column [Tracking Mode]. *)
Lemma target_grab_pyw_UnboundLocalError e st st' :
  target_grab_pyw e st = (Raise UnboundLocalError, st') →
  ∃ night target_toi f,
    strptime_Ymd (hd "" (Py.split (string_vars st selection) ": ")) = Some night
    ∧ Py.split (string_vars st selection) ": " !! 1%nat = Some target_toi
    ∧ toi_info (disk st) ≫= google_csv = Some f
    ∧ (Forall (λ r, matches_pyw (str_date night) target_toi r = false) (rows (content f))
       ∨ has_Satellite_Tracking (content f) && has_Tracking_Mode (content f) = false).
Proof.
  remember UnboundLocalError as err eqn:Herr.
  intros H. unfold target_grab_pyw in H.
  apply bind_Raise in H as [H|(s0 & s0' & [E1 E2]%get_Return & H)]; [discriminate H|].
  subst s0 s0'. destruct (decide _) as [|Hsel]; [discriminate H|]. cbv zeta in H.
  rinv H.
  all: try match goal with E : UnboundLocalError = _ |- _ => discriminate E end.
  all: try match goal with E : Some _ = None |- _ => discriminate E end.
  all: try (match goal with
            | E : pick_row_pyw _ _ _ _ _ = Raise _ |- _ =>
                apply pick_row_pyw_Raise in E; subst; discriminate
            | H : target_grab_info_chart _ _ = (Raise _, _) |- _ =>
                apply target_grab_info_chart_Raise in H as [[?|?] _]; subst; discriminate
            | H : rollover _ _ _ = (Raise _, _) |- _ =>
                apply rollover_Raise in H as [? _]; subst; discriminate
            end).
  all: subst; exists x1, x2, x5; do 3 (split; [assumption|]).
  all: try (match goal with
            | E : pick_row_pyw _ _ _ _ _ = Return None |- _ =>
                left; exact (pick_row_pyw_None _ _ _ _ E)
            end).
  all: right.
  all: match goal with
       | E : pick_row_pyw _ _ _ _ _ = Return (Some _) |- _ =>
           apply pick_row_pyw_tracking in E as [Hst Htm]; [|done]
       end.
  all: destruct (has_Satellite_Tracking (content x5)); [|done].
  all: destruct (has_Tracking_Mode (content x5)); [|done].
  all: try (destruct (Hst eq_refl) as [? Hx]; congruence).
  all: destruct (Htm eq_refl) as [? Hx]; congruence.
Qed.

(** An entry of the list of [Observation_ticket_creator.pyw] finds a row of
    the sheet: when the sheet has both tracking columns and writes every
    date the way [str] writes it, [target_grab] does not raise
    [UnboundLocalError] for a selected entry, if the separator of the date
    and the target occurs once in it. *)
Theorem listed_pyw_finds_row e st l st0 entry st' :
  create_list_pyw e st = (Return l, st0) →
  entry ∈ l →
  length (Py.split entry ": ") = 2%nat →
  (∀ f, toi_info (disk st) ≫= google_csv = Some f →
     has_Satellite_Tracking (content f) && has_Tracking_Mode (content f) = true
     ∧ ∀ r night, r ∈ rows (content f) → strptime_Ymd (str_cell (NoD r)) = Some night →
                  str_cell (NoD r) = str_date night) →
  target_grab_pyw e (selected entry st) ≠ (Raise UnboundLocalError, st').
Proof.
  intros Hl Hin Hsplit Hsheet Hraise.
  apply (create_list_pyw_Return _ _ _ _ _ Hl) in Hin as (f & r & night & Hf & Hr & Hnight & _ & ->).
  destruct (Hsheet f Hf) as [Hcols Hdates].
  apply target_grab_pyw_UnboundLocalError in Hraise as (night' & target & f' & Hn & Ht & Hf' & H).
  change (string_vars (selected ?t st) selection) with t in Hn, Ht.
  change (disk (selected ?t st)) with (disk st) in Hf'.
  rewrite Hf in Hf'. injection Hf' as <-.
  rewrite (entry_fields _ _ (strptime_Ymd_valid _ _ Hnight) Hsplit) in Hn, Ht.
  cbn [hd] in Hn. injection Ht as <-.
  rewrite (strptime_Ymd_str_date _ (strptime_Ymd_valid _ _ Hnight)) in Hn. injection Hn as <-.
  destruct H as [Hnone|Hno]; [|by rewrite Hcols in Hno].
  rewrite Forall_forall in Hnone. specialize (Hnone r Hr).
  unfold matches_pyw in Hnone.
  by rewrite (Hdates r night Hr Hnight), !String.eqb_refl in Hnone.
Qed.


Lemma listed_pyw_finds_row_witness :
  target_grab_pyw sample_twice_env
    (selected "2024-06-01: M31" (check_toi sample_twice_env blank).2)
  ≠ (Raise UnboundLocalError,
     (target_grab_pyw sample_twice_env
        (selected "2024-06-01: M31" (check_toi sample_twice_env blank).2)).2).
Proof.
  eapply (listed_pyw_finds_row sample_twice_env (check_toi sample_twice_env blank).2).
  - apply run_Return. vm_compute. reflexivity.
  - apply list_elem_of_here.
  - vm_compute. reflexivity.
  - intros f Hf. vm_compute in Hf. injection Hf as <-. split; [reflexivity|].
    intros r night Hr Hn.
    repeat (apply elem_of_cons in Hr as [->|Hr];
            [vm_compute in Hn; injection Hn as <-; reflexivity|]).
    by apply elem_of_nil in Hr.
Defined.

(** The entry of [sample_short_sheet] is listed and finds no row. *)
Example sample_short_not_found :
  (create_list_pyw sample_short_env sample_short_selected).1 = Return ["2024-06-01: M31"]
  ∧ (target_grab_pyw sample_short_env (selected "2024-06-01: M31" sample_short_selected)).1
    = Raise UnboundLocalError.
Proof. vm_compute. done. Qed.

(** ** A batch with a satellite that the catalog does not have *)

Lemma bind_raise_run {A B} (m : M A) (f : A → M B) st err st' :
  m st = (Raise err, st') → (m ≫= f) st = (Raise err, st').
Proof. unfold mbind, M_bind. by intros ->. Qed.

(** A loop stops at the first element whose body raises. *)
Lemma for_each_stops {A} (body : A → M unit) done x rest st s err s' :
  for_each done body st = (Return tt, s) →
  body x s = (Raise err, s') →
  for_each (done ++ x :: rest) body st = (Raise err, s').
Proof.
  revert st. induction done as [|y done IH]; intros st.
  - intros [_ ->]%mret_Return Hx. cbn [app for_each]. by apply bind_raise_run.
  - cbn [app for_each]. intros ([] & s1 & Hy & Hdone)%bind_Return Hx.
    rewrite (bind_run _ _ _ _ _ Hy). by apply IH.
Qed.

(** The loop body up to the reading of the ticket file, for an entry whose
    satellite the catalog does not have. *)
Lemma save_into_folder_refused e target s sb j path :
  target_grab e (selected target s) = (Return tt, sb) →
  list_split_text exposure_time (entries sb exposure_time) = Some j →
  int_vars sb satellite_tracking ≠ 0 →
  Py.upper (entries sb name) ∉ SATELLITES sb →
  ticket_file target = Some path →
  save_into_folder e target s
  = (target_info ← or_raise FileNotFoundError (tickets (disk s) !! path);
     folder_name ← night_folder e target_info;
     move_into_folder folder_name path) (satellite_refused sb)
  ∧ tickets (disk (satellite_refused sb)) = tickets (disk s)
  ∧ folders (disk (satellite_refused sb)) = folders (disk s)
  ∧ clipboard (satellite_refused sb) = clipboard s
  ∧ dialog_2 (satellite_refused sb) = dialog_2 s.
Proof.
  intros Hgrab Hj Hsat Hcat Hpath.
  assert (target ≠ "Observation List") as Hne.
  { intros ->. by rewrite ticket_file_Observation_List in Hpath. }
  destruct (list_split_text_filter (entries sb filter_)) as [i Hi].
  pose proof (savetxt_refuses e sb i j Hi Hj Hsat Hcat) as Hsave.
  destruct (target_grab_disk e (selected target s) sb Hne Hgrab) as (Htk & Hfo & _ & _).
  change (disk (selected target s)) with (disk s) in Htk, Hfo.
  assert (Hgrab' := Hgrab). apply target_grab_Return in Hgrab'
    as (? & ? & ? & ? & ? & ? & ? & ? & ? & ? & ? & ? & ? & _ & _ & _ & _ & _ & _ & _
        & _ & _ & _ & _ & _ & _ & _ & _ & _ & _ & Hd2 & _ & Hclip & _); [|done].
  split; [|rewrite satellite_refused_disk; repeat split; try done;
           unfold satellite_refused; by destruct (dialog sb)].
  unfold save_into_folder.
  rewrite (bind_run (StringVar_set selection target) _ s tt (selected target s) eq_refl).
  rewrite (bind_run _ _ _ _ _ Hgrab).
  rewrite (bind_run _ _ _ _ _ Hsave). rewrite Hpath.
  rewrite (bind_run (or_raise IndexError (Some path)) _ _ path _ eq_refl).
  rewrite (bind_run get _ _ _ _ eq_refl).
  by rewrite satellite_refused_disk, Htk.
Qed.

(** When the catalog does not have the satellite of an entry and the
    script's directory has no ticket file of that entry, the batch stops at
    that entry with [FileNotFoundError]: the tickets and the folders are
    those that the entries before it have left, and neither the command
    nor the closing dialog is made. *)
Theorem batch_stops_at_unknown_satellite e st done target rest s sb j path :
  List.tl (toi_list st) = (done ++ target :: rest)%list →
  for_each done (save_into_folder e) st = (Return tt, s) →
  target_grab e (selected target s) = (Return tt, sb) →
  list_split_text exposure_time (entries sb exposure_time) = Some j →
  int_vars sb satellite_tracking ≠ 0 →
  Py.upper (entries sb name) ∉ SATELLITES sb →
  ticket_file target = Some path →
  tickets (disk s) !! path = None →
  ∃ st', save_all_auto_folders e st = (Raise FileNotFoundError, st')
    ∧ tickets (disk st') = tickets (disk s) ∧ folders (disk st') = folders (disk s)
    ∧ clipboard st' = clipboard s ∧ dialog_2 st' = dialog_2 s.
Proof.
  intros Hlist Hdone Hgrab Hj Hsat Hcat Hpath Hfresh.
  destruct (save_into_folder_refused e target s sb j path Hgrab Hj Hsat Hcat Hpath)
    as (Hbody & Hrest).
  rewrite Hfresh in Hbody.
  exists (satellite_refused sb). split; [|exact Hrest].
  unfold save_all_auto_folders. rewrite (bind_run get _ st st st eq_refl), Hlist.
  apply bind_raise_run. by apply (for_each_stops _ _ _ _ _ s).
Qed.

(** When the catalog does not have the satellite of an entry and the
    script's directory has a ticket file of that entry from before, the
    loop body of the batch files that ticket: it goes into the folder of
    its own start time, if the folder does not have a file of that
    name. *)
Theorem batch_files_earlier_ticket e target s sb j path earlier start d :
  target_grab e (selected target s) = (Return tt, sb) →
  list_split_text exposure_time (entries sb exposure_time) = Some j →
  int_vars sb satellite_tracking ≠ 0 →
  Py.upper (entries sb name) ∉ SATELLITES sb →
  ticket_file target = Some path →
  tickets (disk s) !! path = Some earlier →
  strptime_Ymd_HMS (Py.replace (details_start_time earlier) (dst_check e) "") = Some start →
  folder_date start = Some d →
  default ∅ (folders (disk s) !! strftime_Ymd d) !! path = None →
  ∃ st' folder,
    save_into_folder e target s = (Return tt, st')
    ∧ tickets (disk st') !! path = None
    ∧ folders (disk st') !! strftime_Ymd d = Some folder
    ∧ folder !! path = Some earlier.
Proof.
  intros Hgrab Hj Hsat Hcat Hpath Hearlier Hstart Hd Hfolder.
  destruct (save_into_folder_refused e target s sb j path Hgrab Hj Hsat Hcat Hpath)
    as (Hbody & Htk & Hfo & _).
  rewrite Hearlier in Hbody.
  rewrite (bind_run (or_raise FileNotFoundError (Some earlier)) _ _ earlier _ eq_refl) in Hbody.
  rewrite (bind_run _ _ _ _ _ (night_folder_run e earlier _ start d Hstart Hd)) in Hbody.
  rewrite (move_into_folder_run _ _ _ earlier) in Hbody by by rewrite Htk.
  eexists _, _. split; [exact Hbody|].
  unfold moved. cbn. rewrite Hfo, Hfolder.
  split; [apply lookup_delete_eq|]. split; [apply lookup_insert_eq|]. apply lookup_insert_eq.
Qed.

Lemma batch_stops_at_unknown_satellite_witness :
  ∃ st', save_all_auto_folders sample_envisat_env sample_envisat_started
         = (Raise FileNotFoundError, st')
    ∧ tickets (disk st') = tickets (disk sample_envisat_first_filed)
    ∧ folders (disk st') = folders (disk sample_envisat_first_filed)
    ∧ clipboard st' = clipboard sample_envisat_first_filed
    ∧ dialog_2 st' = dialog_2 sample_envisat_first_filed.
Proof.
  eapply (batch_stops_at_unknown_satellite sample_envisat_env sample_envisat_started
            [sample_first_target] sample_envisat_target []).
  - vm_compute. reflexivity.
  - unfold sample_envisat_first_filed. apply run_Return. vm_compute. reflexivity.
  - apply run_Return. vm_compute. reflexivity.
  - vm_compute. reflexivity.
  - vm_compute. discriminate.
  - apply (bool_decide_eq_false_1 (Py.upper _ ∈ SATELLITES _)). vm_compute. reflexivity.
  - vm_compute. reflexivity.
  - vm_compute. reflexivity.
Defined.

(** The ticket that is filed has the name that the user gave. *)
Example sample_envisat_renamed_ticket :
  details_name <$> tickets (disk sample_envisat_renamed) !! "envisat_0230_Mode2_5_r_#1.json"
  = Some "hst".
Proof. vm_compute. reflexivity. Qed.

Lemma batch_files_earlier_ticket_witness :
  ∃ st' folder,
    save_into_folder sample_envisat_env sample_envisat_target sample_envisat_renamed
    = (Return tt, st')
    ∧ tickets (disk st') !! "envisat_0230_Mode2_5_r_#1.json" = None
    ∧ folders (disk st') !! strftime_Ymd (Date 2024 6 2) = Some folder
    ∧ folder !! "envisat_0230_Mode2_5_r_#1.json"
      = tickets (disk sample_envisat_renamed) !! "envisat_0230_Mode2_5_r_#1.json".
Proof.
  assert (is_Some (tickets (disk sample_envisat_renamed) !! "envisat_0230_Mode2_5_r_#1.json"))
    as [earlier Hearlier] by (vm_compute; eexists; reflexivity).
  rewrite Hearlier.
  eapply (batch_files_earlier_ticket sample_envisat_env sample_envisat_target
            sample_envisat_renamed).
  - apply run_Return. vm_compute. reflexivity.
  - vm_compute. reflexivity.
  - vm_compute. discriminate.
  - apply (bool_decide_eq_false_1 (Py.upper _ ∈ SATELLITES _)). vm_compute. reflexivity.
  - vm_compute. reflexivity.
  - exact Hearlier.
  - vm_compute in Hearlier. injection Hearlier as <-. vm_compute. reflexivity.
  - vm_compute. reflexivity.
  - vm_compute. reflexivity.
Defined.
